(** * excel-orm: a shallow embedding of [src/column.py] and [src/orm.py]

    The development follows the two source files.  Python values, the
    builtins the code calls ([str], [repr], [int], [str.strip], ...) and
    the exceptions come first; then the column factories of
    [column.py]; then the worksheet interface of the spreadsheet engine;
    then the orchestrator of [orm.py].

    Conventions.
    - Strings are ASCII strings; [str.lower], [str.upper], [str.strip]
      and the regular expressions act on ASCII letters, digits and
      white space.
    - A cell holds [None], a [str], an [int], a [bool], a [date] or a
      naive [datetime]; floats, times and durations are not part of
      the model.
    - Every exception the code raises is a Python [ValueError]; the
      error kinds of the specification name the places that raise. *)

From Stdlib Require Import ZArith String Ascii List Bool Lia DecimalString DecimalPos.
From stdpp Require Import gmap strings list.

Local Open Scope string_scope.
Local Open Scope list_scope.
Local Open Scope stdpp_scope.
Local Open Scope Z_scope.

(** ** Characters and strings *)

Definition code (c : ascii) : Z := Z.of_N (N_of_ascii c).

Definition chr (z : Z) : ascii := ascii_of_N (Z.to_N z).

Definition is_space (c : ascii) : bool :=
  let n := code c in
  ((9 <=? n) && (n <=? 13)) || ((28 <=? n) && (n <=? 32)).

Definition is_digit (c : ascii) : bool :=
  let n := code c in (48 <=? n) && (n <=? 57).

Definition is_upper (c : ascii) : bool :=
  let n := code c in (65 <=? n) && (n <=? 90).

Definition is_lower (c : ascii) : bool :=
  let n := code c in (97 <=? n) && (n <=? 122).

Definition to_lower (c : ascii) : ascii :=
  if is_upper c then chr (code c + 32) else c.

Definition to_upper (c : ascii) : ascii :=
  if is_lower c then chr (code c - 32) else c.

Definition digit_val (c : ascii) : Z := code c - 48.

Abbreviation chars := list_ascii_of_string.
Abbreviation of_chars := string_of_list_ascii.

Fixpoint lstrip_chars (l : list ascii) : list ascii :=
  match l with
  | c :: t => if is_space c then lstrip_chars t else l
  | [] => []
  end.

Definition strip_chars (l : list ascii) : list ascii :=
  rev (lstrip_chars (rev (lstrip_chars l))).

(** [s.strip()] *)
Definition strip (s : string) : string := of_chars (strip_chars (chars s)).

(** [s.lower()] and [s.upper()] *)
Definition lower (s : string) : string := of_chars (map to_lower (chars s)).
Definition upper (s : string) : string := of_chars (map to_upper (chars s)).

Fixpoint starts_with (p l : list ascii) : bool :=
  match p, l with
  | [], _ => true
  | a :: p', b :: l' => Ascii.eqb a b && starts_with p' l'
  | _ :: _, [] => false
  end.

(** [s.endswith(suffix)] *)
Definition endswith (s suffix : string) : bool :=
  starts_with (rev (chars suffix)) (rev (chars s)).

(** [s.replace(a, b)] for single characters. *)
Definition replace_char (a b : ascii) (s : string) : string :=
  of_chars (map (fun c => if Ascii.eqb c a then b else c) (chars s)).

(** [s.title()]: a letter that follows a letter is lowered, a letter
    that follows anything else is raised. *)
Fixpoint title_chars (prev_cased : bool) (l : list ascii) : list ascii :=
  match l with
  | [] => []
  | c :: t =>
      if is_lower c then
        (if prev_cased then c else to_upper c) :: title_chars true t
      else if is_upper c then
        (if prev_cased then to_lower c else c) :: title_chars true t
      else c :: title_chars false t
  end.

Definition title (s : string) : string := of_chars (title_chars false (chars s)).

(** Decimal rendering of an integer, and the same padded with zeros on
    the left to a width (the [%02d], [%04d] and [%06d] of [isoformat]). *)
Definition str_of_Z (z : Z) : string := NilZero.string_of_int (Z.to_int z).

Fixpoint zeros (n : nat) : string :=
  match n with O => "" | S k => String "0"%char (zeros k) end.

Definition zpad (width : nat) (z : Z) : string :=
  let s := str_of_Z z in
  zeros (width - String.length s) +:+ s.

(** ** Values held by cells and record fields *)

Record date := mk_date { year : Z; month : Z; day : Z }.

Record datetime := mk_datetime {
  dt_date : date;            (* [dt.date()] *)
  hour : Z; minute : Z; second : Z; microsecond : Z }.

Inductive value :=
| VNone
| VStr (s : string)
| VInt (z : Z)
| VBool (b : bool)
| VDate (d : date)
| VDateTime (dt : datetime).

Definition date_eqb (a b : date) : bool :=
  (year a =? year b) && (month a =? month b) && (day a =? day b).

Definition datetime_eqb (a b : datetime) : bool :=
  date_eqb (dt_date a) (dt_date b) && (hour a =? hour b) &&
  (minute a =? minute b) && (second a =? second b) &&
  (microsecond a =? microsecond b).

Definition Z_of_bool (b : bool) : Z := if b then 1 else 0.

(** [a == b]: [bool] is a subclass of [int], so [True == 1]; a [date]
    never equals a [datetime]. *)
Definition py_eqb (a b : value) : bool :=
  match a, b with
  | VNone, VNone => true
  | VStr s, VStr t => String.eqb s t
  | VInt x, VInt y => x =? y
  | VInt x, VBool y => x =? Z_of_bool y
  | VBool x, VInt y => Z_of_bool x =? y
  | VBool x, VBool y => Bool.eqb x y
  | VDate x, VDate y => date_eqb x y
  | VDateTime x, VDateTime y => datetime_eqb x y
  | _, _ => false
  end.

(** [x in s] for a set [s]: some member equals [x]. *)
Definition py_in (x : value) (s : list value) : bool :=
  existsb (py_eqb x) s.

Definition is_none (v : value) : bool :=
  match v with VNone => true | _ => false end.

Definition isoformat_date (d : date) : string :=
  zpad 4 (year d) +:+ "-" +:+ zpad 2 (month d) +:+ "-" +:+ zpad 2 (day d).

Definition isoformat_time (dt : datetime) : string :=
  zpad 2 (hour dt) +:+ ":" +:+ zpad 2 (minute dt) +:+ ":" +:+ zpad 2 (second dt)
  +:+ (if microsecond dt =? 0 then "" else "." +:+ zpad 6 (microsecond dt)).

(** [str(v)] *)
Definition str (v : value) : string :=
  match v with
  | VNone => "None"
  | VStr s => s
  | VInt z => str_of_Z z
  | VBool true => "True"
  | VBool false => "False"
  | VDate d => isoformat_date d
  | VDateTime dt => isoformat_date (dt_date dt) +:+ " " +:+ isoformat_time dt
  end.

Definition squote : ascii := "'"%char.
Definition dquote : ascii := chr 34.
Definition backslash : ascii := chr 92.

Definition hex_digit (n : Z) : ascii :=
  if n <? 10 then chr (48 + n) else chr (87 + n).

Definition repr_char (q : ascii) (c : ascii) : list ascii :=
  let n := code c in
  if Ascii.eqb c backslash then [backslash; backslash]
  else if Ascii.eqb c q then [backslash; q]
  else if n =? 9 then [backslash; "t"%char]
  else if n =? 10 then [backslash; "n"%char]
  else if n =? 13 then [backslash; "r"%char]
  else if (n <? 32) || (n =? 127) then
    [backslash; "x"%char; hex_digit (n / 16); hex_digit (n mod 16)]
  else [c].

(** [repr(s)] for a string: single quotes, unless the string holds a
    single quote and no double quote. *)
Definition repr_str (s : string) : string :=
  let l := chars s in
  let q := if existsb (Ascii.eqb squote) l && negb (existsb (Ascii.eqb dquote) l)
           then dquote else squote in
  of_chars (q :: flat_map (repr_char q) l ++ [q]).

(** [repr(v)] *)
Definition repr (v : value) : string :=
  match v with
  | VStr s => repr_str s
  | VDate d =>
      "datetime.date(" +:+ str_of_Z (year d) +:+ ", " +:+ str_of_Z (month d)
      +:+ ", " +:+ str_of_Z (day d) +:+ ")"
  | VDateTime dt =>
      let d := dt_date dt in
      "datetime.datetime(" +:+ str_of_Z (year d) +:+ ", " +:+ str_of_Z (month d)
      +:+ ", " +:+ str_of_Z (day d) +:+ ", " +:+ str_of_Z (hour dt)
      +:+ ", " +:+ str_of_Z (minute dt)
      +:+ (if (second dt =? 0) && (microsecond dt =? 0) then ""
           else ", " +:+ str_of_Z (second dt))
      +:+ (if microsecond dt =? 0 then "" else ", " +:+ str_of_Z (microsecond dt))
      +:+ ")"
  | _ => str v
  end.

(** ** Exceptions *)

Inductive exn :=
| ValueError (msg : string)
| TypeError (msg : string)
| KeyError (msg : string).

Inductive result (A : Type) :=
| Ok (a : A)
| Raise (e : exn).
Arguments Ok {A} a.
Arguments Raise {A} e.

Definition exn_message (e : exn) : string :=
  match e with ValueError m | TypeError m | KeyError m => m end.

Definition bind_result {A B} (r : result A) (k : A -> result B) : result B :=
  match r with Ok a => k a | Raise e => Raise e end.

Definition succeeded {A} (r : result A) : option A :=
  match r with Ok a => Some a | Raise _ => None end.

(** ** [int(raw)] *)

(** Digits of a decimal literal, single underscores allowed between
    digits.  [after_digit] says that the previous character was a digit. *)
Fixpoint int_digits (acc : Z) (count : nat) (after_digit : bool) (l : list ascii)
  : option (Z * nat) :=
  match l with
  | [] => if after_digit then Some (acc, count) else None
  | c :: t =>
      if is_digit c then int_digits (10 * acc + digit_val c) (S count) true t
      else if Ascii.eqb c "_"%char && after_digit then int_digits acc count false t
      else None
  end.

Definition int_max_str_digits : nat := 4300.

Definition int_of_str (s : string) : result Z :=
  let invalid := Raise (ValueError ("invalid literal for int() with base 10: " +:+ repr_str s)) in
  let body (sign : Z) (l : list ascii) :=
    match int_digits 0 0 false l with
    | Some (z, n) =>
        if (int_max_str_digits <? n)%nat then
          Raise (ValueError ("Exceeds the limit (4300 digits) for integer string conversion: value has "
                             +:+ str_of_Z (Z.of_nat n)
                             +:+ " digits; use sys.set_int_max_str_digits() to increase the limit"))
        else Ok (sign * z)
    | None => invalid
    end in
  match strip_chars (chars s) with
  | c :: t =>
      if Ascii.eqb c "-"%char then body (-1) t
      else if Ascii.eqb c "+"%char then body 1 t
      else body 1 (c :: t)
  | [] => invalid
  end.

Definition py_int (raw : value) : result Z :=
  match raw with
  | VStr s => int_of_str s
  | VInt z => Ok z
  | VBool b => Ok (Z_of_bool b)
  | VNone =>
      Raise (TypeError "int() argument must be a string, a bytes-like object or a real number, not 'NoneType'")
  | VDate _ =>
      Raise (TypeError "int() argument must be a string, a bytes-like object or a real number, not 'datetime.date'")
  | VDateTime _ =>
      Raise (TypeError "int() argument must be a string, a bytes-like object or a real number, not 'datetime.datetime'")
  end.

Example endswith_ex : endswith "cars" "rs" = true /\ endswith "s" "rs" = false.
Proof. split; reflexivity. Qed.

Example strip_ex : strip "  Make  " = "Make".
Proof. reflexivity. Qed.

Example int_of_str_ex : int_of_str " +1_000 " = Ok 1000.
Proof. reflexivity. Qed.

Example repr_ex : repr (VStr "it's") = of_chars (dquote :: chars "it's" ++ [dquote]).
Proof. reflexivity. Qed.

Example title_ex : title "manufacturing plants" = "Manufacturing Plants".
Proof. reflexivity. Qed.

Example str_datetime_ex :
  str (VDateTime (mk_datetime (mk_date 2025 6 1) 13 45 0 0)) = "2025-06-01 13:45:00".
Proof. reflexivity. Qed.

(** ** Dates: the standard library's parsers

    [date_column] calls [datetime.fromisoformat] and
    [datetime.strptime] and catches their [ValueError]; [None] stands
    for that exception. *)

Class DateLib := {
  fromisoformat : string -> option datetime;
  strptime : string -> string -> option datetime }.

Definition is_leap (y : Z) : bool :=
  (y mod 4 =? 0) && (negb (y mod 100 =? 0) || (y mod 400 =? 0)).

Definition days_in_month (y m : Z) : Z :=
  if m =? 2 then (if is_leap y then 29 else 28)
  else if (m =? 4) || (m =? 6) || (m =? 9) || (m =? 11) then 30
  else 31.

(** The check of the [date] constructor. *)
Definition valid_date (d : date) : bool :=
  (1 <=? year d) && (year d <=? 9999) &&
  (1 <=? month d) && (month d <=? 12) &&
  (1 <=? day d) && (day d <=? days_in_month (year d) (month d)).

Definition valid_time (h m s us : Z) : bool :=
  (0 <=? h) && (h <=? 23) && (0 <=? m) && (m <=? 59) &&
  (0 <=? s) && (s <=? 59) && (0 <=? us) && (us <=? 999999).

(** Exactly [n] decimal digits at the head of [l]. *)
Fixpoint digits_n (n : nat) (acc : Z) (l : list ascii) : option (Z * list ascii) :=
  match n with
  | O => Some (acc, l)
  | S k =>
      match l with
      | c :: t => if is_digit c then digits_n k (10 * acc + digit_val c) t else None
      | [] => None
      end
  end.

(** *** [strptime]

    The format is turned into a regular expression, matched without
    regard to case at the head of the text; the whole text has to be
    consumed.  Only the directives of this repository's patterns are
    interpreted: [%d], [%m], [%b], [%Y], [%y]. *)

Inductive directive :=
| Dd | Dm | Db | DY | Dy
| Dspace                 (* a run of white space in the format: [\s+] *)
| Dlit (c : ascii).

Fixpoint directives (after_space : bool) (fmt : list ascii) : option (list directive) :=
  match fmt with
  | [] => Some []
  | c :: t =>
      if Ascii.eqb c "%"%char then
        match t with
        | k :: t' =>
            let d := if Ascii.eqb k "d"%char then Some Dd
                     else if Ascii.eqb k "m"%char then Some Dm
                     else if Ascii.eqb k "b"%char then Some Db
                     else if Ascii.eqb k "Y"%char then Some DY
                     else if Ascii.eqb k "y"%char then Some Dy
                     else None in
            match d, directives false t' with
            | Some d, Some ds => Some (d :: ds)
            | _, _ => None
            end
        | [] => None
        end
      else if is_space c then
        match directives true t with
        | Some ds => Some (if after_space then ds else Dspace :: ds)
        | None => None
        end
      else
        match directives false t with
        | Some ds => Some (Dlit c :: ds)
        | None => None
        end
  end.

(** What the groups of the expression have captured so far. *)
Record fields := mk_fields {
  f_year : option Z; f_month : option Z; f_day : option Z }.

Definition set_year (y : Z) (f : fields) := mk_fields (Some y) (f_month f) (f_day f).
Definition set_month (m : Z) (f : fields) := mk_fields (f_year f) (Some m) (f_day f).
Definition set_day (d : Z) (f : fields) := mk_fields (f_year f) (f_month f) (Some d).

Definition between (lo hi : Z) (c : ascii) : bool :=
  (lo <=? digit_val c) && (digit_val c <=? hi) && is_digit c.

(** [3[0-1]|[1-2]\d|0[1-9]|[1-9]| [1-9]], alternatives in this order. *)
Definition match_d (l : list ascii) : list (Z * list ascii) :=
  match l with
  | c1 :: t =>
      let two :=
        match t with
        | c2 :: t' =>
            (if Ascii.eqb c1 "3"%char && between 0 1 c2 then [(30 + digit_val c2, t')] else [])
            ++ (if between 1 2 c1 && is_digit c2 then [(10 * digit_val c1 + digit_val c2, t')] else [])
            ++ (if Ascii.eqb c1 "0"%char && between 1 9 c2 then [(digit_val c2, t')] else [])
        | [] => []
        end in
      let one := if between 1 9 c1 then [(digit_val c1, t)] else [] in
      let blank :=
        match t with
        | c2 :: t' => if Ascii.eqb c1 " "%char && between 1 9 c2 then [(digit_val c2, t')] else []
        | [] => []
        end in
      two ++ one ++ blank
  | [] => []
  end.

(** [1[0-2]|0[1-9]|[1-9]] *)
Definition match_m (l : list ascii) : list (Z * list ascii) :=
  match l with
  | c1 :: t =>
      let two :=
        match t with
        | c2 :: t' =>
            (if Ascii.eqb c1 "1"%char && between 0 2 c2 then [(10 + digit_val c2, t')] else [])
            ++ (if Ascii.eqb c1 "0"%char && between 1 9 c2 then [(digit_val c2, t')] else [])
        | [] => []
        end in
      two ++ (if between 1 9 c1 then [(digit_val c1, t)] else [])
  | [] => []
  end.

Definition month_abbrs : list string :=
  ["jan"; "feb"; "mar"; "apr"; "may"; "jun"; "jul"; "aug"; "sep"; "oct"; "nov"; "dec"].

Fixpoint index_of (s : string) (l : list string) (i : Z) : option Z :=
  match l with
  | [] => None
  | x :: t => if String.eqb x s then Some i else index_of s t (i + 1)
  end.

Definition match_b (l : list ascii) : list (Z * list ascii) :=
  match l with
  | c1 :: c2 :: c3 :: t =>
      match index_of (of_chars (map to_lower [c1; c2; c3])) month_abbrs 1 with
      | Some m => [(m, t)]
      | None => []
      end
  | _ => []
  end.

Definition match_digits (n : nat) (l : list ascii) : list (Z * list ascii) :=
  match digits_n n 0 l with Some r => [r] | None => [] end.

(** [\s+]: the remainders after one or more white-space characters,
    the longest run first. *)
Fixpoint match_spaces (l : list ascii) : list (list ascii) :=
  match l with
  | c :: t => if is_space c then match_spaces t ++ [t] else []
  | [] => []
  end.

Definition step (d : directive) (f : fields) (l : list ascii) : list (fields * list ascii) :=
  match d with
  | Dd => map (fun '(v, r) => (set_day v f, r)) (match_d l)
  | Dm => map (fun '(v, r) => (set_month v f, r)) (match_m l)
  | Db => map (fun '(v, r) => (set_month v f, r)) (match_b l)
  | DY => map (fun '(v, r) => (set_year v f, r)) (match_digits 4 l)
  | Dy => map (fun '(v, r) => (set_year (if v <=? 68 then v + 2000 else v + 1900) f, r))
              (match_digits 2 l)
  | Dspace => map (fun r => (f, r)) (match_spaces l)
  | Dlit c =>
      match l with
      | c' :: t => if Ascii.eqb (to_lower c) (to_lower c') then [(f, t)] else []
      | [] => []
      end
  end.

(** All the ways the expression matches at the head of the text, in
    the order a backtracking matcher finds them. *)
Fixpoint matches (ds : list directive) (f : fields) (l : list ascii)
  : list (fields * list ascii) :=
  match ds with
  | [] => [(f, l)]
  | d :: ds' => flat_map (fun '(f', l') => matches ds' f' l') (step d f l)
  end.

Definition py_strptime (s fmt : string) : option datetime :=
  match directives false (chars fmt) with
  | Some ds =>
      match matches ds (mk_fields None None None) (chars s) with
      | (f, []) :: _ =>
          let d := mk_date (default 1900 (f_year f)) (default 1 (f_month f))
                           (default 1 (f_day f)) in
          if valid_date d then Some (mk_datetime d 0 0 0 0) else None
      | _ => None                   (* no match, or unconverted data remains *)
      end
  | None => None
  end.

(** *** [fromisoformat]

    The calendar forms [YYYY-MM-DD] and [YYYYMMDD], alone or followed
    by one separator character and a time of day [HH[:MM[:SS[.f]]]]
    (or [HHMM], [HHMMSS[.f]]).  Week dates and UTC offsets are not
    modelled: such texts give [None] here. *)

Definition fraction (l : list ascii) : option Z :=
  let n := length l in
  if (n =? 0)%nat || negb (forallb is_digit l) then None
  else
    let k := Nat.min 6 n in
    match digits_n k 0 l with
    | Some (v, _) => Some (v * 10 ^ Z.of_nat (6 - k))
    | None => None
    end.

Definition iso_time (l : list ascii) : option (Z * Z * Z * Z) :=
  match digits_n 2 0 l with
  | Some (h, []) => Some (h, 0, 0, 0)
  | Some (h, c :: r1) =>
      let has_sep := Ascii.eqb c ":"%char in
      match digits_n 2 0 (if has_sep then r1 else c :: r1) with
      | Some (m, []) => Some (h, m, 0, 0)
      | Some (m, c' :: r2) =>
          if has_sep && negb (Ascii.eqb c' ":"%char) then None
          else
            match digits_n 2 0 (if has_sep then r2 else c' :: r2) with
            | Some (s, []) => Some (h, m, s, 0)
            | Some (s, c'' :: r3) =>
                if Ascii.eqb c'' "."%char || Ascii.eqb c'' ","%char then
                  match fraction r3 with
                  | Some us => Some (h, m, s, us)
                  | None => None
                  end
                else None
            | None => None
            end
      | None => None
      end
  | None => None
  end.

Definition iso_date (l : list ascii) : option (date * list ascii) :=
  match digits_n 4 0 l with
  | Some (y, r) =>
      let has_sep := match r with c :: _ => Ascii.eqb c "-"%char | [] => false end in
      match digits_n 2 0 (if has_sep then tl r else r) with
      | Some (m, r1) =>
          let sep_ok := match r1 with c :: _ => Ascii.eqb c "-"%char | [] => false end in
          if has_sep && negb sep_ok then None
          else
            match digits_n 2 0 (if has_sep then tl r1 else r1) with
            | Some (d, r2) => Some (mk_date y m d, r2)
            | None => None
            end
      | None => None
      end
  | None => None
  end.

Definition py_fromisoformat (s : string) : option datetime :=
  match iso_date (chars s) with
  | Some (d, []) => if valid_date d then Some (mk_datetime d 0 0 0 0) else None
  | Some (d, _ :: t) =>
      match iso_time t with
      | Some (h, m, sec, us) =>
          if valid_date d && valid_time h m sec us then Some (mk_datetime d h m sec us)
          else None
      | None => None
      end
  | None => None
  end.

Definition python_dates : DateLib :=
  {| fromisoformat := py_fromisoformat; strptime := py_strptime |}.

Example strptime_ex1 :
  py_strptime "01-JUN-2025" "%d-%b-%Y" = Some (mk_datetime (mk_date 2025 6 1) 0 0 0 0).
Proof. reflexivity. Qed.

Example strptime_ex2 : py_strptime "01/06/2025" "%m/%d/%y" = None.
Proof. reflexivity. Qed.

Example strptime_ex3 :
  py_strptime "1  JUN 25" "%d %b %y" = Some (mk_datetime (mk_date 2025 6 1) 0 0 0 0).
Proof. reflexivity. Qed.

Example strptime_ex4 : py_strptime "31/02/2025" "%d/%m/%Y" = None.
Proof. reflexivity. Qed.

Example fromisoformat_ex1 :
  py_fromisoformat "2025-06-01T13:45:00" = Some (mk_datetime (mk_date 2025 6 1) 13 45 0 0).
Proof. reflexivity. Qed.

Example fromisoformat_ex2 : py_fromisoformat "01-JUN-2025" = None.
Proof. reflexivity. Qed.

(** ** [column.py] *)

Record ColumnSpec := mk_ColumnSpec {
  spec_header : option string;             (* header string in Excel *)
  spec_index : option Z;
  spec_default : value;                    (* [VNone] when not given *)
  spec_required : bool;
  spec_not_null : bool;
  spec_excludes : option (list value);     (* raw values that mark row as excluded *)
  spec_parser : value -> result value;     (* raw -> parsed *)
  spec_renderer : value -> value;          (* parsed -> raw *)
  spec_validator : value -> result unit }.

(** A [Column] reached through its class has been given its attribute
    name by [__set_name__]. *)
Record Column := mk_Column {
  col_spec : ColumnSpec;
  col_name : string }.

Definition parse_cell (self : Column) (raw : value) : result value :=
  spec_parser (col_spec self) raw.

Definition render_cell (self : Column) (v : value) : value :=
  spec_renderer (col_spec self) v.

Definition validate (self : Column) (v : value) : result unit :=
  if spec_not_null (col_spec self) && (is_none v || py_eqb v (VStr "")) then
    Raise (ValueError (col_name self +:+ " cannot be null/empty"))
  else spec_validator (col_spec self) v.

(** [raw is None or raw == ""] *)
Definition none_or_empty (raw : value) : bool :=
  is_none raw || py_eqb raw (VStr "").

Definition text_parse (do_strip : bool) (raw : value) : result value :=
  if is_none raw then Ok (VStr "")
  else
    let s := str raw in
    Ok (VStr (if do_strip then strip s else s)).

Definition text_column (header : option string) (index : option Z) (default : value)
    (do_strip : bool) (not_null : bool) (name : string) : Column :=
  mk_Column
    (mk_ColumnSpec header index default false not_null None
       (text_parse do_strip)
       (fun v => if is_none v then VStr "" else v)
       (fun _ => Ok tt))
    name.

Definition int_parse (raw : value) : result value :=
  if none_or_empty raw then Ok (VInt 0)
  else bind_result (py_int raw) (fun z => Ok (VInt z)).

Definition int_column (header : option string) (index : option Z) (default : value)
    (not_null : bool) (name : string) : Column :=
  mk_Column
    (mk_ColumnSpec header index default false not_null None
       int_parse (fun v => v) (fun _ => Ok tt))
    name.

Definition mem_string (s : string) (l : list string) : bool :=
  existsb (String.eqb s) l.

Definition bool_parse (raw : value) : result value :=
  if none_or_empty raw then Ok (VBool false)
  else
    match raw with
    | VBool b => Ok raw
    | _ =>
        let s := lower (strip (str raw)) in
        if mem_string s ["true"; "t"; "yes"; "y"; "1"] then Ok (VBool true)
        else if mem_string s ["false"; "f"; "no"; "n"; "0"] then Ok (VBool false)
        else Raise (ValueError ("Invalid boolean: " +:+ str raw))
    end.

Definition bool_column (header : option string) (index : option Z) (default : value)
    (name : string) : Column :=
  mk_Column
    (mk_ColumnSpec header index default false false None
       bool_parse (fun v => v) (fun _ => Ok tt))
    name.

Definition _DATE_FORMATS : list string :=
  [ "%d-%b-%Y";    (* 01-JUN-2025 *)
    "%d-%b-%y";    (* 01-JUN-25 *)
    "%d %b %Y";    (* 01 JUN 2025 *)
    "%d %b %y";    (* 01 JUN 25 *)
    "%d/%b/%Y";    (* 01/JUN/2025 *)
    "%Y-%m-%d";    (* 2025-06-01 *)
    "%Y/%m/%d";    (* 2025/06/01 *)
    "%m/%d/%Y";    (* 06/01/2025 *)
    "%m/%d/%y";    (* 06/01/25 *)
    "%d/%m/%Y";    (* 01/06/2025 *)
    "%d/%m/%y" ].  (* 01/06/25 *)

Section DateColumn.
Context {lib : DateLib}.

(** The loop over the patterns: the first one that parses is
    returned. *)
Fixpoint try_formats (s_norm : string) (fmts : list string) : option datetime :=
  match fmts with
  | [] => None
  | fmt :: rest =>
      match strptime s_norm fmt with
      | Some dt => Some dt
      | None => try_formats s_norm rest
      end
  end.

Definition date_parse (raw : value) : result value :=
  if none_or_empty raw then Raise (ValueError "Date Value was empty")
  else
    match raw with
    | VDate d => Ok raw
    | VDateTime dt => Ok (VDate (dt_date dt))
    | _ =>
        let s := strip (str raw) in
        if String.eqb s "" then Raise (ValueError "Date Value was empty")
        else
          match fromisoformat s with
          | Some dt => Ok (VDate (dt_date dt))
          | None =>
              match try_formats (upper s) _DATE_FORMATS with
              | Some dt => Ok (VDate (dt_date dt))
              | None => Raise (ValueError ("Invalid date value: " +:+ repr raw))
              end
          end
    end.

Definition date_column (header : option string) (index : option Z) (default : value)
    (name : string) : Column :=
  mk_Column
    (mk_ColumnSpec header index default false false None
       date_parse (fun v => v) (fun _ => Ok tt))
    name.
End DateColumn.

Example date_parse_ex1 :
  date_parse (lib := python_dates) (VStr "01/06/25") = Ok (VDate (mk_date 2025 1 6)).
Proof. reflexivity. Qed.

Example date_parse_ex2 :
  date_parse (lib := python_dates) (VStr " 13/06/2025 ") = Ok (VDate (mk_date 2025 6 13)).
Proof. reflexivity. Qed.

Example date_parse_ex3 :
  date_parse (lib := python_dates) (VInt 5) = Raise (ValueError "Invalid date value: 5").
Proof. reflexivity. Qed.

Example bool_parse_ex : bool_parse (VInt 1) = Ok (VBool true).
Proof. reflexivity. Qed.

(** ** [orm.py]: names *)

Definition newline : ascii := chr 10.

Inductive sub_mode := Scan | Cap | Low.

(** [re.sub("(.)([A-Z][a-z]+)", r"\1_\2", name)].  [Scan] looks for
    the next match; [Cap] copies the capital of a match; [Low] copies
    its run of small letters. *)
Fixpoint sub_word (m : sub_mode) (l : list ascii) : list ascii :=
  match l with
  | [] => []
  | c :: t =>
      let scan :=
        match t with
        | u :: v :: _ =>
            if negb (Ascii.eqb c newline) && is_upper u && is_lower v
            then c :: "_"%char :: sub_word Cap t
            else c :: sub_word Scan t
        | _ => c :: sub_word Scan t
        end in
      match m with
      | Cap => c :: sub_word Low t
      | Low => if is_lower c then c :: sub_word Low t else scan
      | Scan => scan
      end
  end.

(** [re.sub("([a-z0-9])([A-Z])", r"\1_\2", s1)]; [skip] copies the
    capital of a match. *)
Fixpoint sub_hump (skip : bool) (l : list ascii) : list ascii :=
  match l with
  | [] => []
  | c :: t =>
      if skip then c :: sub_hump false t
      else
        match t with
        | u :: _ =>
            if (is_lower c || is_digit c) && is_upper u
            then c :: "_"%char :: sub_hump true t
            else c :: sub_hump false t
        | [] => [c]
        end
  end.

Definition _camel_to_snake (name : string) : string :=
  let s1 := sub_word Scan (chars name) in
  let s2 := sub_hump false s1 in
  lower (of_chars s2).

Definition _pluralize (s : string) : string :=
  if endswith s "s" then s else s +:+ "s".

Example camel_ex1 : _camel_to_snake "ManufacturingPlant" = "manufacturing_plant".
Proof. reflexivity. Qed.

Example camel_ex2 : _camel_to_snake "HTTPServer2Go" = "http_server2_go".
Proof. reflexivity. Qed.

(** ** [orm.py]: classes, records, worksheets *)

(** A record: its [_values] dictionary. *)
Abbreviation Obj := (gmap string value).

(** A record class: its [__name__], its annotated fields in definition
    order, each with the [Column] found under that attribute if there
    is one, and its [validate] method if it has one. *)
Record Class := mk_Class {
  cls_name : string;
  cls_annotations : list (string * option Column);
  cls_validate : option (Obj -> result unit) }.

(** Class objects are told apart by identity. *)
Abbreviation typ := positive.

Record SheetSpec := mk_SheetSpec {
  sheet_name : string;
  models : list typ;
  title_row : Z;
  header_row : Z;
  data_start_row : Z;
  template_table_gap : Z }.

(** The worksheet as the engine shows it: the largest used row and
    column, the raw value of each cell, the display width set on a
    column.  Rows and columns count from 1.  Reading a cell is an
    observation: it leaves the sheet and its bounds as they are. *)
Record Worksheet := mk_Worksheet {
  max_row : Z;
  max_column : Z;
  cell_value : Z -> Z -> value;
  column_width : Z -> option Z }.

(** A document: its sheets by name, in the order of [sheetnames]. *)
Abbreviation Workbook := (list (string * Worksheet)).

Definition sheetnames (wb : Workbook) : list string := map fst wb.

Fixpoint get_sheet (wb : Workbook) (name : string) : option Worksheet :=
  match wb with
  | [] => None
  | (n, ws) :: rest => if String.eqb n name then Some ws else get_sheet rest name
  end.

(** [wb.create_sheet(title)] gives an empty sheet. *)
Definition empty_sheet : Worksheet :=
  mk_Worksheet 1 1 (fun _ _ => VNone) (fun _ => None).

(** [ws.cell(row, column, value)] *)
Definition write_cell (ws : Worksheet) (row column : Z) (v : value) : Worksheet :=
  mk_Worksheet (Z.max (max_row ws) row) (Z.max (max_column ws) column)
    (fun r c => if (r =? row) && (c =? column) then v else cell_value ws r c)
    (column_width ws).

(** [ws.merge_cells] over one row: every cell of the range but the
    first becomes a merged cell, whose value is [None]. *)
Definition merge_cells (ws : Worksheet) (row start_column end_column : Z) : Worksheet :=
  if start_column <? end_column then
    mk_Worksheet (Z.max (max_row ws) row) (Z.max (max_column ws) end_column)
      (fun r c => if (r =? row) && (start_column <? c) && (c <=? end_column)
                  then VNone else cell_value ws r c)
      (column_width ws)
  else ws.

Definition set_column_width (ws : Worksheet) (column w : Z) : Worksheet :=
  mk_Worksheet (max_row ws) (max_column ws) (cell_value ws)
    (fun c => if c =? column then Some w else column_width ws c).

(** [range(n)] *)
Definition range (n : nat) : list Z := map Z.of_nat (seq 0 n).

Definition _get_model_columns (model : Class) : list Column :=
  omap snd (cls_annotations model).

Definition _normalize_header (v : value) : string :=
  if is_none v then "" else strip (str v).

Definition _row_is_blank (values : list value) : bool :=
  forallb (fun v => String.eqb (_normalize_header v) "") values.

Definition _instantiate_model (model : Class) : Obj :=
  fold_left (fun (vals : Obj) col => <[col_name col := spec_default (col_spec col)]> vals)
    (_get_model_columns model) ∅.

Definition _repo_name_for_model (model : Class) : string :=
  _pluralize (_camel_to_snake (cls_name model)).

Definition _display_name_for_model (model : Class) : string :=
  title (replace_char "_"%char " "%char (_repo_name_for_model model)).

(** ** The heap of lists

    A [Repository] is a list object: the orchestrator holds it both in
    [_repos] and in an attribute, and callers hold what [all] returns.
    Lists live in a store and are referred to by location. *)

Abbreviation loc := positive.
Abbreviation store := (gmap loc (list Obj)).

(** Computations that read and write the store and may raise; the
    store survives an exception. *)
Definition M (A : Type) : Type := store -> store * result A.

Definition ret {A} (a : A) : M A := fun st => (st, Ok a).
Definition raise {A} (e : exn) : M A := fun st => (st, Raise e).
Definition bind {A B} (m : M A) (k : A -> M B) : M B :=
  fun st => match m st with
            | (st', Ok a) => k a st'
            | (st', Raise e) => (st', Raise e)
            end.
Definition lift {A} (r : result A) : M A := fun st => (st, r).

Notation "'let*' x ':=' m 'in' k" := (bind m (fun x => k))
  (at level 10, x pattern, m at level 100, k at level 200).
Notation "m ';;' k" := (bind m (fun _ => k))
  (at level 100, k at level 200, right associativity).

Definition contents (l : loc) (st : store) : list Obj := default [] (st !! l).

(** [Repository()] and [list(...)]: a new list object. *)
Definition new_list (xs : list Obj) : M loc :=
  fun st => let l := fresh (dom st) in (<[l := xs]> st, Ok l).

(** [repo.clear()] *)
Definition list_clear (l : loc) : M unit :=
  fun st => (<[l := []]> st, Ok tt).

(** [repo.append(obj)] *)
Definition list_append (l : loc) (obj : Obj) : M unit :=
  fun st => (<[l := contents l st ++ [obj]]> st, Ok tt).

(** [Repository.all]: [list(self)]. *)
Definition all (self : loc) : M loc :=
  fun st => new_list (contents self st) st.

(** Any change a caller makes to a list it holds. *)
Definition list_mutate (l : loc) (f : list Obj -> list Obj) : M unit :=
  fun st => (<[l := f (contents l st)]> st, Ok tt).

(** ** [orm.py]: [ExcelFile] *)

(** The orchestrator: [sheets], [_repos], and the attributes that
    [setattr] has added (each names a repository). *)
Record ExcelFile := mk_ExcelFile {
  sheets : list SheetSpec;
  _repos : gmap typ loc;
  repo_attrs : gmap string loc }.

(** What [ExcelFile] and [object] define. *)
Definition class_attrs : list string :=
  [ "__init__"; "generate_template"; "_write_sheet_template"; "load_data";
    "_parse_sheet"; "_find_header";
    "__class__"; "__delattr__"; "__dict__"; "__dir__"; "__doc__"; "__eq__";
    "__format__"; "__ge__"; "__getattribute__"; "__getstate__"; "__gt__";
    "__hash__"; "__init_subclass__"; "__le__"; "__lt__"; "__module__"; "__ne__";
    "__new__"; "__reduce__"; "__reduce_ex__"; "__repr__"; "__setattr__";
    "__sizeof__"; "__str__"; "__subclasshook__"; "__weakref__" ].

(** What [__init__] has assigned before its loop. *)
Definition own_attrs : list string := ["sheets"; "_repos"].

Definition hasattr (self : ExcelFile) (name : string) : bool :=
  mem_string name own_attrs || mem_string name class_attrs
  || bool_decide (is_Some (repo_attrs self !! name)).

Section Orm.
(** The classes of the program, by identity. *)
Variable class_of : typ -> Class.

Definition repo_name (model : typ) : string := _repo_name_for_model (class_of model).

Definition duplicate_repo_name (model : typ) : exn :=
  ValueError ("Duplicate repo name '" +:+ repo_name model +:+ "' for model "
              +:+ cls_name (class_of model)).

(** The body of the inner loop of [__init__]. *)
Definition register (self : ExcelFile) (model : typ) : M ExcelFile :=
  if hasattr self (repo_name model) then raise (duplicate_repo_name model)
  else
    let* repo := new_list [] in
    ret (mk_ExcelFile (sheets self) (<[model := repo]> (_repos self))
           (<[repo_name model := repo]> (repo_attrs self))).

Fixpoint register_all (ms : list typ) (self : ExcelFile) : M ExcelFile :=
  match ms with
  | [] => ret self
  | model :: rest => let* self' := register self model in register_all rest self'
  end.

Definition __init__ (sheets : list SheetSpec) : M ExcelFile :=
  register_all (flat_map models sheets) (mk_ExcelFile sheets ∅ ∅).

(** *** Template layout *)

(** [c.spec.header or c.name] *)
Definition header_or_name (c : Column) : string :=
  match spec_header (col_spec c) with
  | Some h => if String.eqb h "" then col_name c else h
  | None => col_name c
  end.

Definition strlen (s : string) : Z := Z.of_nat (String.length s).

(** The loop over [enumerate(headers)], from index [j]. *)
Fixpoint write_headers (ws : Worksheet) (row start_col : Z) (j : Z) (headers : list string)
  : Worksheet :=
  match headers with
  | [] => ws
  | h :: rest =>
      let c := start_col + j in
      let ws1 := write_cell ws row c (VStr h) in
      let ws2 := set_column_width ws1 c (Z.max 12 (Z.min 40 (strlen h + 4))) in
      write_headers ws2 row start_col (j + 1) rest
  end.

(** The loop over [spec.models], from the column [current_col]. *)
Fixpoint write_blocks (ws : Worksheet) (spec : SheetSpec) (current_col : Z) (ms : list typ)
  : Worksheet :=
  match ms with
  | [] => ws
  | model :: rest =>
      let cols := _get_model_columns (class_of model) in
      let headers := map header_or_name cols in
      let width := Z.of_nat (length headers) in
      let start_col := current_col in
      let end_col := current_col + width - 1 in
      let ws1 := merge_cells ws (title_row spec) start_col end_col in
      let ws2 := write_cell ws1 (title_row spec) start_col
                   (VStr (_display_name_for_model (class_of model))) in
      let ws3 := write_headers ws2 (header_row spec) start_col 0 headers in
      write_blocks ws3 spec (end_col + 1 + template_table_gap spec) rest
  end.

Definition _write_sheet_template (ws : Worksheet) (spec : SheetSpec) : Worksheet :=
  write_blocks ws spec 1 (models spec).

(** *** Header location *)

Definition expected_headers (model : typ) : list string :=
  map (fun c => _normalize_header (match spec_header (col_spec c) with
                                   | Some h => VStr h
                                   | None => VNone
                                   end))
      (_get_model_columns (class_of model)).

(** The normalized header cells of a candidate block. *)
Definition actual_headers (ws : Worksheet) (r start_col : Z) (width : nat) : list string :=
  map (fun j => _normalize_header (cell_value ws r (start_col + j))) (range width).

(** The loop over [range(1, max_c - width + 2)]: [n] candidates are
    left, the next one is [start_col].  The columns tried are
    returned with the result. *)
Fixpoint find_from (ws : Worksheet) (r : Z) (expected : list string)
    (start_col : Z) (n : nat) : list Z * option (Z * Z) :=
  match n with
  | O => ([], None)
  | S k =>
      if bool_decide (actual_headers ws r start_col (length expected) = expected)
      then ([start_col], Some (r, start_col))
      else
        let '(tried, found) := find_from ws r expected (start_col + 1) k in
        (start_col :: tried, found)
  end.

Definition find_header_run (ws : Worksheet) (spec : SheetSpec) (model : typ)
  : list Z * option (Z * Z) :=
  let expected := expected_headers model in
  match expected with
  | [] => ([], None)
  | _ =>
      let r := header_row spec in
      let width := Z.of_nat (length expected) in
      let max_c := if max_column ws =? 0 then 0 else max_column ws in
      find_from ws r expected 1 (Z.to_nat (max_c - width + 2 - 1))
  end.

Definition _find_header (ws : Worksheet) (spec : SheetSpec) (model : typ)
  : option (Z * Z) :=
  snd (find_header_run ws spec model).

(** *** Row loading *)

Definition row_values (ws : Worksheet) (r start_col : Z) (width : nat) : list value :=
  map (fun j => cell_value ws r (start_col + j)) (range width).

(** [col.spec.excludes and row_vals[i] in col.spec.excludes], for
    some column. *)
Definition excluded (cols : list Column) (row_vals : list value) : bool :=
  existsb (fun '(col, raw) =>
             match spec_excludes (col_spec col) with
             | Some (x :: xs) => py_in raw (x :: xs)
             | _ => false
             end)
          (zip cols row_vals).

(** [setattr(obj, col.name, parsed)]: the descriptor validates, then
    stores. *)
Definition set_field (obj : Obj) (col : Column) (v : value) : result Obj :=
  bind_result (validate col v) (fun _ => Ok (<[col_name col := v]> obj)).

Fixpoint set_fields (obj : Obj) (fields : list (Column * value)) : result Obj :=
  match fields with
  | [] => Ok obj
  | (col, raw) :: rest =>
      bind_result (parse_cell col raw) (fun parsed =>
      bind_result (set_field obj col parsed) (fun obj' =>
      set_fields obj' rest))
  end.

(** A surviving row: build the record, validate it, append it. *)
Definition load_row (model : Class) (repo : loc) (row_vals : list value) : M unit :=
  let* obj := lift (set_fields (_instantiate_model model)
                      (zip (_get_model_columns model) row_vals)) in
  (match cls_validate model with
   | Some hook => lift (hook obj)
   | None => ret tt
   end);;
  list_append repo obj.

(** The [while r <= ws.max_row] loop; [n] rows are left. *)
Fixpoint scan_rows (ws : Worksheet) (model : Class) (repo : loc) (start_col : Z)
    (r : Z) (n : nat) : M unit :=
  match n with
  | O => ret tt
  | S k =>
      let cols := _get_model_columns model in
      let row_vals := row_values ws r start_col (length cols) in
      if _row_is_blank row_vals then ret tt
      else if excluded cols row_vals then scan_rows ws model repo start_col (r + 1) k
      else load_row model repo row_vals;; scan_rows ws model repo start_col (r + 1) k
  end.

(** The rows from [r] to the last row of the sheet. *)
Definition scan_from (ws : Worksheet) (model : Class) (repo : loc) (start_col r : Z)
  : M unit :=
  scan_rows ws model repo start_col r (Z.to_nat (max_row ws + 1 - r)).

Definition missing_repo (model : typ) : exn :=
  KeyError (cls_name (class_of model)).

(** The body of the loop of [_parse_sheet]. *)
Definition parse_model (self : ExcelFile) (ws : Worksheet) (spec : SheetSpec)
    (model : typ) : M unit :=
  match _find_header ws spec model with
  | None => ret tt
  | Some (_, start_col) =>
      match _repos self !! model with
      | Some repo => scan_from ws (class_of model) repo start_col (data_start_row spec)
      | None => raise (missing_repo model)
      end
  end.

Fixpoint parse_models (self : ExcelFile) (ws : Worksheet) (spec : SheetSpec)
    (ms : list typ) : M unit :=
  match ms with
  | [] => ret tt
  | model :: rest => parse_model self ws spec model;; parse_models self ws spec rest
  end.

Definition _parse_sheet (self : ExcelFile) (ws : Worksheet) (spec : SheetSpec) : M unit :=
  parse_models self ws spec (models spec).

Definition missing_sheet (name : string) : exn :=
  ValueError ("Workbook missing sheet '" +:+ name +:+ "'").

Fixpoint clear_all (repos : list loc) : M unit :=
  match repos with
  | [] => ret tt
  | l :: rest => list_clear l;; clear_all rest
  end.

(** The loop over [self.sheets]. *)
Fixpoint load_sheets (self : ExcelFile) (wb : Workbook) (specs : list SheetSpec) : M unit :=
  match specs with
  | [] => ret tt
  | sheet_spec :: rest =>
      if negb (mem_string (sheet_name sheet_spec) (sheetnames wb)) then
        raise (missing_sheet (sheet_name sheet_spec))
      else
        match get_sheet wb (sheet_name sheet_spec) with
        | Some ws => _parse_sheet self ws sheet_spec;; load_sheets self wb rest
        | None => raise (KeyError (sheet_name sheet_spec))
        end
  end.

(** [load_data], from the opened document on. *)
Definition load_data (self : ExcelFile) (wb : Workbook) : M unit :=
  clear_all (map snd (map_to_list (_repos self)));;
  load_sheets self wb (sheets self).

(** The records a caller finds under the repository of a class. *)
Definition repository (self : ExcelFile) (model : typ) (st : store) : option (list Obj) :=
  match _repos self !! model with
  | Some l => st !! l
  | None => None
  end.
End Orm.

(** ** The classes of the test suite *)

Definition Car : Class :=
  mk_Class "Car"
    [ ("make", Some (text_column (Some "Make") None VNone true true "make"));
      ("model", Some (text_column (Some "Model") None VNone true true "model"));
      ("year", Some (int_column (Some "Year") None VNone true "year")) ]
    None.

Definition ManufacturingPlant : Class :=
  mk_Class "ManufacturingPlant"
    [ ("name", Some (text_column (Some "Factory Name") None VNone true true "name"));
      ("location", Some (text_column (Some "Location") None VNone true false "location")) ]
    None.

(** A class without columns, and one whose column declares no header. *)
Definition Marker : Class := mk_Class "Marker" [("note", None)] None.

Definition Tag : Class :=
  mk_Class "Tag" [("label", Some (text_column None None VNone true false "label"))] None.

(** A class whose column excludes the raw value ["TOTAL"]. *)
Definition Line : Class :=
  mk_Class "Line"
    [ ("item", Some (mk_Column
         (mk_ColumnSpec (Some "Item") None VNone false false (Some [VStr "TOTAL"])
            (text_parse true) (fun v => v) (fun _ => Ok tt)) "item")) ]
    None.

(** A class whose only header is also a header of
    [ManufacturingPlant]. *)
Definition Site : Class :=
  mk_Class "Site"
    [("location", Some (text_column (Some "Location") None VNone true false "location"))]
    None.

Definition test_classes (t : typ) : Class :=
  match t with
  | 1%positive => Car
  | 2%positive => ManufacturingPlant
  | 3%positive => Marker
  | 4%positive => Tag
  | 5%positive => Line
  | 6%positive => Site
  | _ => Car                      (* further classes named [Car] *)
  end.

Definition cars_spec : SheetSpec := mk_SheetSpec "Cars" [1%positive; 2%positive] 1 2 3 2.

(** A sheet given by its rows, from row 1 and column 1. *)
Definition sheet_of_rows (rows : list (list value)) : Worksheet :=
  mk_Worksheet
    (Z.max 1 (Z.of_nat (length rows)))
    (Z.max 1 (fold_right Z.max 0 (map (fun row => Z.of_nat (length row)) rows)))
    (fun r c =>
       if (1 <=? r) && (1 <=? c) then
         nth (Z.to_nat (c - 1)) (nth (Z.to_nat (r - 1)) rows []) VNone
       else VNone)
    (fun _ => None).

Definition cars_sheet : Worksheet :=
  sheet_of_rows
    [ [VStr "Cars"; VNone; VNone; VNone; VNone; VStr "Manufacturing Plants"; VNone];
      [VStr "Make"; VStr "Model"; VStr "Year"; VNone; VNone; VStr "Factory Name"; VStr "Location"];
      [VStr "Toyota"; VStr "Camry"; VInt 2020; VNone; VNone; VStr "Plant 1"; VStr "NJ"];
      [VStr "Honda"; VStr "Civic"; VStr "2019"; VNone; VNone; VStr "Plant 2"; VStr "PA"] ].

Definition car (make model : string) (y : Z) : Obj :=
  <["make" := VStr make]> (<["model" := VStr model]> (<["year" := VInt y]> ∅)).

Definition plant (name location : string) : Obj :=
  <["name" := VStr name]> (<["location" := VStr location]> ∅).

(** [test_load_data_end_to_end] *)
Example load_data_end_to_end :
  exists self st0 st1,
    __init__ test_classes [cars_spec] ∅ = (st0, Ok self) /\
    load_data test_classes self [("Cars", cars_sheet)] st0 = (st1, Ok tt) /\
    repository self 1%positive st1
      = Some [car "Toyota" "Camry" 2020; car "Honda" "Civic" 2019] /\
    repository self 2%positive st1
      = Some [plant "Plant 1" "NJ"; plant "Plant 2" "PA"].
Proof.
  eexists _, _, _. split; [vm_compute; reflexivity|].
  split; vm_compute; split; reflexivity.
Qed.

(** [test_generate_template_creates_sheet_and_titles_and_headers] *)
Example template_layout :
  let ws := _write_sheet_template test_classes empty_sheet cars_spec in
  map (cell_value ws 1) [1; 2; 6] = [VStr "Cars"; VNone; VStr "Manufacturing Plants"] /\
  map (cell_value ws 2) [1; 2; 3; 4; 5; 6; 7]
    = [VStr "Make"; VStr "Model"; VStr "Year"; VNone; VNone;
       VStr "Factory Name"; VStr "Location"] /\
  max_column ws = 7 /\ max_row ws = 2.
Proof. vm_compute. repeat split; reflexivity. Qed.

(** * Properties *)

(** ** Column coercions *)

Section DateColumnFacts.
Context {lib : DateLib}.

(** The loop returns the first pattern that parses. *)
Lemma try_formats_Some (s : string) (fmts : list string) (dt : datetime) :
  try_formats s fmts = Some dt <->
  exists (i : nat) (fmt : string),
    fmts !! i = Some fmt /\ strptime s fmt = Some dt /\
    forall (j : nat) (fmt' : string),
      (j < i)%nat -> fmts !! j = Some fmt' -> strptime s fmt' = None.
Proof.
  induction fmts as [|f fmts IH]; simpl.
  - split; [discriminate|]. intros (i & fmt & Hi & _). destruct i; discriminate.
  - destruct (strptime s f) eqn:Hf.
    + split.
      * intros [= <-]. exists 0%nat, f. repeat split; auto. intros j ? Hj. lia.
      * intros (i & fmt & Hi & Hs & Hprev). destruct i as [|i].
        -- simpl in Hi. injection Hi as <-. congruence.
        -- specialize (Hprev 0%nat f ltac:(lia) eq_refl). congruence.
    + rewrite IH. split.
      * intros (i & fmt & Hi & Hs & Hprev). exists (S i), fmt.
        repeat split; auto. intros [|j] fmt' Hj Hl.
        -- simpl in Hl. injection Hl as <-. exact Hf.
        -- simpl in Hl. apply (Hprev j); [lia|exact Hl].
      * intros (i & fmt & Hi & Hs & Hprev). destruct i as [|i].
        -- simpl in Hi. injection Hi as <-. congruence.
        -- exists i, fmt. repeat split; auto. intros j fmt' Hj Hl.
           apply (Hprev (S j)); [lia|exact Hl].
Qed.

(** On a text that is not empty once trimmed: the ISO parse first,
    then the patterns. *)
Lemma date_parse_text (s : string) :
  strip s <> "" ->
  date_parse (VStr s) =
    match fromisoformat (strip s) with
    | Some dt => Ok (VDate (dt_date dt))
    | None =>
        match try_formats (upper (strip s)) _DATE_FORMATS with
        | Some dt => Ok (VDate (dt_date dt))
        | None => Raise (ValueError ("Invalid date value: " +:+ repr (VStr s)))
        end
    end.
Proof.
  intros Hne. unfold date_parse, none_or_empty. simpl.
  destruct (String.eqb s "") eqn:Hs.
  - apply String.eqb_eq in Hs. subst s. exfalso. apply Hne. reflexivity.
  - destruct (String.eqb (strip s) "") eqn:Hs'.
    + apply String.eqb_eq in Hs'. contradiction.
    + reflexivity.
Qed.

Lemma date_parse_blank (s : string) :
  strip s = "" -> date_parse (VStr s) = Raise (ValueError "Date Value was empty").
Proof.
  intros He. unfold date_parse, none_or_empty. simpl.
  destruct (String.eqb s ""); [reflexivity|]. rewrite He. reflexivity.
Qed.
End DateColumnFacts.

(** The outcome of the pattern list, said without the loop: pattern
    number [i] parses and no earlier one does. *)
Definition first_pattern {lib : DateLib} (text : string) (d : date) : Prop :=
  exists (i : nat) (fmt : string) (dt : datetime),
    _DATE_FORMATS !! i = Some fmt /\ strptime text fmt = Some dt /\
    (forall (j : nat) (fmt' : string),
        (j < i)%nat -> _DATE_FORMATS !! j = Some fmt' -> strptime text fmt' = None) /\
    d = dt_date dt.

(** A text parses to [d] exactly when its ISO parse gives [d], or the
    ISO parse fails and the first pattern that parses gives [d]. *)
Definition iso_then_patterns {lib : DateLib} (s : string) (d : date) : Prop :=
  (exists dt, fromisoformat (strip s) = Some dt /\ d = dt_date dt) \/
  (fromisoformat (strip s) = None /\ first_pattern (upper (strip s)) d).

Lemma date_parse_Ok_iff {lib : DateLib} (s : string) (d : date) :
  strip s <> "" ->
  date_parse (VStr s) = Ok (VDate d) <-> iso_then_patterns s d.
Proof.
  intros Hne. rewrite (date_parse_text s Hne). unfold iso_then_patterns, first_pattern.
  destruct (fromisoformat (strip s)) as [dt|] eqn:Hiso.
  - split.
    + intros [= <-]. left. eauto.
    + intros [(dt' & [= <-] & ->)|[? _]]; [reflexivity|discriminate].
  - destruct (try_formats (upper (strip s)) _DATE_FORMATS) as [dt|] eqn:Htry.
    + apply try_formats_Some in Htry as (i & fmt & Hi & Hs & Hprev). split.
      * intros [= <-]. right. split; [reflexivity|]. exists i, fmt, dt. auto.
      * intros [(? & ? & _)|(_ & i' & fmt' & dt' & Hi' & Hs' & Hprev' & ->)];
          [discriminate|].
        destruct (Nat.lt_trichotomy i i') as [Hlt|[->|Hlt]].
        -- rewrite (Hprev' _ _ Hlt Hi) in Hs. discriminate.
        -- congruence.
        -- rewrite (Hprev _ _ Hlt Hi') in Hs'. discriminate.
    + split; [discriminate|].
      intros [(? & ? & _)|(_ & i & fmt & dt & Hi & Hs & Hprev & _)]; [discriminate|].
      assert (try_formats (upper (strip s)) _DATE_FORMATS = Some dt) as Hc
        by (apply try_formats_Some; eauto).
      congruence.
Qed.

(** C7. Date parsing of a text tries the ISO-8601 parse first and takes
    its date; only when that fails does it try the patterns, in the
    order of the list, and the first one that parses wins.  This holds
    whatever the two library parsers do, for every text that is not
    empty once trimmed, and with the modelled library for every text.
    The patterns MM/DD/YYYY and MM/DD/YY come before DD/MM/YYYY and
    DD/MM/YY, and "01/06/25" parses as the 6th of January 2025. *)
Theorem date_parse_precedence :
  (forall (lib : DateLib) (s : string) (d : date),
      strip s <> "" ->
      date_parse (VStr s) = Ok (VDate d) <-> iso_then_patterns s d) /\
  (forall (s : string) (d : date),
      s <> "" ->
      date_parse (lib := python_dates) (VStr s) = Ok (VDate d)
      <-> iso_then_patterns (lib := python_dates) s d) /\
  (_DATE_FORMATS !! 7%nat = Some "%m/%d/%Y" /\ _DATE_FORMATS !! 8%nat = Some "%m/%d/%y" /\
   _DATE_FORMATS !! 9%nat = Some "%d/%m/%Y" /\ _DATE_FORMATS !! 10%nat = Some "%d/%m/%y") /\
  date_parse (lib := python_dates) (VStr "01/06/25") = Ok (VDate (mk_date 2025 1 6)).
Proof.
  split; [intros lib s d; apply date_parse_Ok_iff|].
  split; [|split; [repeat split|reflexivity]].
  intros s d _.
  destruct (String.eqb (strip s) "") eqn:Hs.
  - apply String.eqb_eq in Hs.
    rewrite (date_parse_blank (lib := python_dates) s Hs).
    unfold iso_then_patterns, first_pattern. rewrite Hs. split; [discriminate|].
    intros [(dt & Hiso & _)|(_ & i & fmt & dt & Hi & Hp & Hprev & _)].
    + vm_compute in Hiso. discriminate.
    + assert (try_formats (lib := python_dates) (upper "") _DATE_FORMATS = Some dt) as Hc
        by (apply try_formats_Some; eauto).
      vm_compute in Hc. discriminate.
  - apply date_parse_Ok_iff. intros He. rewrite He in Hs. discriminate.
Qed.

Lemma date_parse_precedence_witness :
  strip "01/06/25" <> "" /\
  iso_then_patterns (lib := python_dates) "01/06/25" (mk_date 2025 1 6).
Proof.
  split; [discriminate|].
  apply (proj1 date_parse_precedence python_dates "01/06/25" (mk_date 2025 1 6));
    [discriminate|reflexivity].
Defined.

(** The claim of the coercion table about the empty date, as the
    specification words it. *)
Definition empty_date_message_as_specified : Prop :=
  exists e, date_parse (lib := python_dates) (VStr "") = Raise e /\
            exn_message e = "empty date".

Lemma empty_date_message_differs : ~ empty_date_message_as_specified.
Proof. intros (e & He & Hm). vm_compute in He. injection He as <-. discriminate. Qed.

(** C8 (amended). The literal table of coercions: integer parse of ""
    is 0 and of "2019" is 2019; boolean parse of "Y" is true, of "0"
    is false, and of "maybe" fails; date parse of "01-JUN-2025" and of
    "2025-06-01" is 2025-06-01; date parse of "" fails, and the
    message of the error is "Date Value was empty". *)
Theorem coercion_table :
  int_parse (VStr "") = Ok (VInt 0) /\
  int_parse (VStr "2019") = Ok (VInt 2019) /\
  bool_parse (VStr "Y") = Ok (VBool true) /\
  bool_parse (VStr "0") = Ok (VBool false) /\
  bool_parse (VStr "maybe") = Raise (ValueError "Invalid boolean: maybe") /\
  date_parse (lib := python_dates) (VStr "01-JUN-2025") = Ok (VDate (mk_date 2025 6 1)) /\
  date_parse (lib := python_dates) (VStr "2025-06-01") = Ok (VDate (mk_date 2025 6 1)) /\
  date_parse (lib := python_dates) (VStr "") = Raise (ValueError "Date Value was empty") /\
  exn_message (ValueError "Date Value was empty") = "Date Value was empty".
Proof. repeat split; reflexivity. Qed.

(** ** Repository *)

Lemma contents_insert (l : loc) (xs : list Obj) (st : store) :
  contents l (<[l := xs]> st) = xs.
Proof. unfold contents. by rewrite lookup_insert_eq. Qed.

Lemma contents_insert_ne (l l' : loc) (xs : list Obj) (st : store) :
  l <> l' -> contents l' (<[l := xs]> st) = contents l' st.
Proof. intros Hne. unfold contents. by rewrite lookup_insert_ne. Qed.

Lemma fresh_not_in_store (l : loc) (st : store) :
  is_Some (st !! l) -> fresh (dom st) <> l.
Proof.
  intros Hl Heq. apply elem_of_dom in Hl. rewrite <- Heq in Hl.
  exact (is_fresh (dom st) Hl).
Qed.

(** C9. [all] returns a new list whose elements are those of the
    repository, in order: the list is an object of its own, any change
    made to it leaves the repository as it was, and a second call made
    before any load returns a list with the same elements. *)
Theorem all_returns_copy (self : loc) (st : store) :
  is_Some (st !! self) ->
  exists (l1 : loc) (st1 : store),
    all self st = (st1, Ok l1) /\
    l1 <> self /\ st !! l1 = None /\
    contents l1 st1 = contents self st /\
    st1 !! self = st !! self /\
    (forall f : list Obj -> list Obj,
        (list_mutate l1 f st1).1 !! self = st !! self) /\
    (exists (l2 : loc) (st2 : store),
        all self st1 = (st2, Ok l2) /\ l2 <> l1 /\ l2 <> self /\
        contents l2 st2 = contents l1 st2 /\
        st2 !! self = st !! self).
Proof.
  intros Hself.
  pose proof (fresh_not_in_store self st Hself) as Hne.
  set (l1 := fresh (dom st)) in *.
  set (st1 := <[l1 := contents self st]> st).
  assert (st !! l1 = None) as Hfresh
    by (apply not_elem_of_dom; apply is_fresh).
  assert (st1 !! self = st !! self) as Hsame
    by (unfold st1; by rewrite lookup_insert_ne).
  exists l1, st1. repeat split; auto.
  - unfold st1. apply contents_insert.
  - intros f. unfold list_mutate. simpl. rewrite lookup_insert_ne; auto.
  - assert (is_Some (st1 !! self)) as Hself1 by (by rewrite Hsame).
    assert (is_Some (st1 !! l1)) as Hl1 by (unfold st1; rewrite lookup_insert_eq; eauto).
    pose proof (fresh_not_in_store self st1 Hself1) as Hne2.
    pose proof (fresh_not_in_store l1 st1 Hl1) as Hne1.
    set (l2 := fresh (dom st1)) in *.
    exists l2, (<[l2 := contents self st1]> st1). repeat split; auto.
    + rewrite contents_insert, contents_insert_ne by auto.
      unfold st1 at 2. rewrite contents_insert.
      unfold contents. by rewrite Hsame.
    + rewrite lookup_insert_ne; auto.
Qed.

Lemma all_returns_copy_witness :
  exists (l1 : loc) (st1 : store),
    all 1%positive {[ 1%positive := [car "Toyota" "Camry" 2020] ]} = (st1, Ok l1) /\
    contents l1 st1 = [car "Toyota" "Camry" 2020].
Proof.
  destruct (all_returns_copy 1%positive {[ 1%positive := [car "Toyota" "Camry" 2020] ]})
    as (l1 & st1 & Hall & _ & _ & Hc & _).
  - rewrite lookup_singleton_eq. eexists. reflexivity.
  - exists l1, st1. split; [exact Hall|]. rewrite Hc. reflexivity.
Defined.

(** ** Row loading *)

(** The integers [lo], [lo + 1], ... below [hi]. *)
Definition interval (lo hi : Z) : list Z :=
  map (fun i => lo + Z.of_nat i) (seq 0 (Z.to_nat (hi - lo))).

(** Loading a given list of rows, each one either excluded or turned
    into a record; no row is tested for blankness. *)
Fixpoint load_rows (model : Class) (repo : loc) (rows : list (list value)) : M unit :=
  match rows with
  | [] => ret tt
  | row_vals :: rest =>
      if excluded (_get_model_columns model) row_vals then load_rows model repo rest
      else load_row model repo row_vals;; load_rows model repo rest
  end.

Lemma interval_cons (lo hi : Z) :
  lo < hi -> interval lo hi = lo :: interval (lo + 1) hi.
Proof.
  intros Hlt. unfold interval.
  replace (Z.to_nat (hi - lo)) with (S (Z.to_nat (hi - (lo + 1)))) by lia.
  simpl. f_equal; [lia|]. rewrite <- seq_shift, map_map.
  apply map_ext. intros i. lia.
Qed.

Lemma interval_nil (lo : Z) : interval lo lo = [].
Proof. unfold interval. by rewrite Z.sub_diag. Qed.

Lemma scan_from_step (ws : Worksheet) (model : Class) (repo : loc) (start_col r : Z) :
  r <= max_row ws ->
  scan_from ws model repo start_col r =
    let cols := _get_model_columns model in
    let row_vals := row_values ws r start_col (length cols) in
    if _row_is_blank row_vals then ret tt
    else if excluded cols row_vals then scan_from ws model repo start_col (r + 1)
    else load_row model repo row_vals;; scan_from ws model repo start_col (r + 1).
Proof.
  intros Hr. unfold scan_from.
  replace (Z.to_nat (max_row ws + 1 - r)) with (S (Z.to_nat (max_row ws + 1 - (r + 1))))
    by lia.
  reflexivity.
Qed.

Lemma scan_from_until_blank (ws : Worksheet) (model : Class) (repo : loc) (start_col : Z)
    (k : nat) (r0 : Z) :
  let width := length (_get_model_columns model) in
  r0 + Z.of_nat k <= max_row ws ->
  (forall r, r0 <= r < r0 + Z.of_nat k ->
             _row_is_blank (row_values ws r start_col width) = false) ->
  _row_is_blank (row_values ws (r0 + Z.of_nat k) start_col width) = true ->
  scan_from ws model repo start_col r0 =
    load_rows model repo
      (map (fun r => row_values ws r start_col width) (interval r0 (r0 + Z.of_nat k))).
Proof.
  intros width. revert r0. induction k as [|k IH]; intros r0 Hmax Hfull Hblank.
  - rewrite Z.add_0_r in *. rewrite interval_nil. simpl.
    rewrite scan_from_step by lia. simpl. fold width. by rewrite Hblank.
  - rewrite interval_cons by lia. simpl.
    rewrite scan_from_step by lia. simpl. fold width.
    rewrite (Hfull r0) by lia.
    replace (r0 + Z.of_nat (S k)) with ((r0 + 1) + Z.of_nat k) in * by lia.
    rewrite (IH (r0 + 1)); auto.
    intros r Hr. apply Hfull. lia.
Qed.

Lemma scan_rows_ext (ws ws' : Worksheet) (model : Class) (repo : loc) (start_col : Z)
    (n : nat) (r : Z) :
  (forall r' c, r <= r' -> cell_value ws' r' c = cell_value ws r' c) ->
  scan_rows ws' model repo start_col r n = scan_rows ws model repo start_col r n.
Proof.
  revert r. induction n as [|n IH]; intros r Hsame; [reflexivity|].
  simpl.
  assert (row_values ws' r start_col (length (_get_model_columns model))
          = row_values ws r start_col (length (_get_model_columns model))) as ->.
  { unfold row_values. apply map_ext. intros j. apply Hsame. lia. }
  rewrite (IH (r + 1)); [reflexivity|]. intros r' c Hr'. apply Hsame. lia.
Qed.

(** C4. Row scanning starts at the data start row and stops at the
    first row that is blank across the width of the block: the rows
    loaded are exactly the rows before it, and nothing at or below it
    is looked at, so that a sheet which differs only below the blank
    row loads the same records. *)
Theorem scan_stops_at_first_blank_row (ws : Worksheet) (model : Class) (repo : loc)
    (start_col r0 b : Z) :
  let width := length (_get_model_columns model) in
  r0 <= b <= max_row ws ->
  (forall r, r0 <= r < b -> _row_is_blank (row_values ws r start_col width) = false) ->
  _row_is_blank (row_values ws b start_col width) = true ->
  scan_from ws model repo start_col r0 =
    load_rows model repo (map (fun r => row_values ws r start_col width) (interval r0 b))
  /\
  forall ws' : Worksheet,
    b <= max_row ws' ->
    (forall r c, r <= b -> cell_value ws' r c = cell_value ws r c) ->
    scan_from ws' model repo start_col r0 = scan_from ws model repo start_col r0.
Proof.
  intros width Hb Hfull Hblank.
  assert (forall w : Worksheet,
             b <= max_row w ->
             (forall r c, r <= b -> cell_value w r c = cell_value ws r c) ->
             scan_from w model repo start_col r0 =
               load_rows model repo
                 (map (fun r => row_values ws r start_col width) (interval r0 b))) as Hgen.
  { intros w Hw Hsame.
    assert (forall r, r <= b -> row_values w r start_col width = row_values ws r start_col width)
      as Hrows.
    { intros r Hr. unfold row_values. apply map_ext. intros j. by apply Hsame. }
    replace b with (r0 + Z.of_nat (Z.to_nat (b - r0))) by lia.
    rewrite (scan_from_until_blank w model repo start_col (Z.to_nat (b - r0)) r0).
    - f_equal. apply map_ext_in. intros r Hr. apply Hrows.
      unfold interval in Hr. apply in_map_iff in Hr as (i & <- & Hi).
      apply in_seq in Hi. lia.
    - lia.
    - intros r Hr. fold width. rewrite Hrows by lia. apply Hfull. lia.
    - fold width. rewrite Hrows by lia.
      replace (r0 + Z.of_nat (Z.to_nat (b - r0))) with b by lia. exact Hblank. }
  split.
  - apply Hgen; [lia|auto].
  - intros ws' Hmax Hsame. rewrite (Hgen ws' Hmax Hsame). symmetry. apply Hgen; [lia|auto].
Qed.

(** Two populated rows, a blank row, then a populated row. *)
Definition blank_row_sheet : Worksheet :=
  sheet_of_rows
    [ [VStr "Cars"; VNone; VNone];
      [VStr "Make"; VStr "Model"; VStr "Year"];
      [VStr "Toyota"; VStr "Camry"; VInt 2020];
      [VStr "Honda"; VStr "Civic"; VStr "2019"];
      [VNone; VStr "  "; VNone];
      [VStr "Ford"; VStr "Focus"; VInt 2018] ].

Lemma scan_stops_at_first_blank_row_witness :
  contents 1%positive (scan_from blank_row_sheet Car 1%positive 1 3 ∅).1
  = [car "Toyota" "Camry" 2020; car "Honda" "Civic" 2019].
Proof.
  rewrite (proj1 (scan_stops_at_first_blank_row blank_row_sheet Car 1%positive 1 3 5
                    ltac:(vm_compute; split; discriminate)
                    ltac:(intros r Hr; assert (r = 3 \/ r = 4) as [-> | ->] by lia;
                          reflexivity)
                    ltac:(reflexivity))).
  vm_compute. reflexivity.
Defined.

Example blank_row_terminates_load :
  exists self st0 st1,
    __init__ test_classes [mk_SheetSpec "Cars" [1%positive] 1 2 3 2] ∅ = (st0, Ok self) /\
    load_data test_classes self [("Cars", blank_row_sheet)] st0 = (st1, Ok tt) /\
    repository self 1%positive st1
      = Some [car "Toyota" "Camry" 2020; car "Honda" "Civic" 2019].
Proof.
  eexists _, _, _. split; [vm_compute; reflexivity|].
  split; vm_compute; reflexivity.
Qed.

Lemma excluded_member (cols : list Column) (row_vals : list value)
    (i : nat) (col : Column) (raw : value) (xs : list value) :
  cols !! i = Some col -> row_vals !! i = Some raw ->
  spec_excludes (col_spec col) = Some xs -> py_in raw xs = true ->
  excluded cols row_vals = true.
Proof.
  intros Hc Hr Hx Hin. unfold excluded. apply existsb_exists.
  exists (col, raw). split.
  - apply list_elem_of_In. apply list_elem_of_lookup. exists i.
    rewrite lookup_zip_with, Hc, Hr. reflexivity.
  - simpl. rewrite Hx. destruct xs; [discriminate|exact Hin].
Qed.

(** C6. A row that is not blank and in which the raw value of some
    column belongs to that column's exclusion set is skipped: scanning
    from that row is scanning from the next one, with the store as it
    was, whatever the parsers would have made of the row. *)
Theorem excluded_row_is_skipped (ws : Worksheet) (model : Class) (repo : loc)
    (start_col r : Z) (i : nat) (col : Column) (raw : value) (xs : list value) :
  let cols := _get_model_columns model in
  let row_vals := row_values ws r start_col (length cols) in
  r <= max_row ws ->
  _row_is_blank row_vals = false ->
  cols !! i = Some col -> row_vals !! i = Some raw ->
  spec_excludes (col_spec col) = Some xs -> py_in raw xs = true ->
  scan_from ws model repo start_col r = scan_from ws model repo start_col (r + 1).
Proof.
  intros cols row_vals Hr Hblank Hc Hraw Hx Hin.
  rewrite scan_from_step by exact Hr. simpl.
  fold cols. fold row_vals. rewrite Hblank.
  by rewrite (excluded_member cols row_vals i col raw xs).
Qed.

(** A total line between two items; its text would load as a record
    if it were not excluded. *)
Definition lines_sheet : Worksheet :=
  sheet_of_rows
    [ [VStr "Lines"];
      [VStr "Item"];
      [VStr "TOTAL"];
      [VStr "bolt"];
      [VStr "TOTAL"];
      [VStr "nut"] ].

Lemma excluded_row_is_skipped_witness :
  contents 1%positive (scan_from lines_sheet Line 1%positive 1 3 ∅).1
  = [ {[ "item" := VStr "bolt" ]}; {[ "item" := VStr "nut" ]} ].
Proof.
  rewrite (excluded_row_is_skipped lines_sheet Line 1%positive 1 3 0
             (mk_Column (mk_ColumnSpec (Some "Item") None VNone false false
                           (Some [VStr "TOTAL"]) (text_parse true) (fun v => v)
                           (fun _ => Ok tt)) "item")
             (VStr "TOTAL") [VStr "TOTAL"]
             ltac:(vm_compute; discriminate) eq_refl eq_refl eq_refl eq_refl eq_refl).
  vm_compute. reflexivity.
Defined.

(** ** Header location *)

(** What the loop over the candidates returns: the first candidate at
    which the block matches, having tried every candidate up to it. *)
Lemma find_from_spec (ws : Worksheet) (r : Z) (expected : list string) (n : nat) (c0 : Z) :
  let here c := actual_headers ws r c (length expected) = expected in
  match find_from ws r expected c0 n with
  | (tried, Some (r', c)) =>
      r' = r /\ c0 <= c < c0 + Z.of_nat n /\ here c /\
      (forall c', c0 <= c' < c -> ~ here c') /\ tried = interval c0 (c + 1)
  | (tried, None) =>
      (forall c', c0 <= c' < c0 + Z.of_nat n -> ~ here c') /\
      tried = interval c0 (c0 + Z.of_nat n)
  end.
Proof.
  intros here. revert c0. induction n as [|n IH]; intros c0.
  - simpl. split; [intros c' Hc'; lia|]. rewrite Z.add_0_r. by rewrite interval_nil.
  - simpl. case_bool_decide as Hm.
    + split; [reflexivity|]. split; [lia|]. split; [exact Hm|]. split.
      * intros c' Hc'. lia.
      * rewrite interval_cons by lia. by rewrite interval_nil.
    + specialize (IH (c0 + 1)).
      destruct (find_from ws r expected (c0 + 1) n) as [tried [[r' c]|]].
      * destruct IH as (-> & Hc & Hhere & Hfirst & ->).
        split; [reflexivity|]. split; [lia|]. split; [exact Hhere|]. split.
        -- intros c' Hc'. destruct (decide (c' = c0)) as [->|]; [exact Hm|].
           apply Hfirst. lia.
        -- by rewrite (interval_cons c0) by lia.
      * destruct IH as (Hnone & ->). split.
        -- intros c' Hc'. destruct (decide (c' = c0)) as [->|]; [exact Hm|].
           apply Hnone. lia.
        -- rewrite (interval_cons c0) by lia. f_equal. f_equal. lia.
Qed.

Section HeaderFacts.
Variable class_of : typ -> Class.

Lemma expected_headers_length (model : typ) :
  length (expected_headers class_of model) = length (_get_model_columns (class_of model)).
Proof. unfold expected_headers. by rewrite length_map. Qed.

Lemma find_header_run_nonempty (ws : Worksheet) (spec : SheetSpec) (model : typ) :
  _get_model_columns (class_of model) <> [] ->
  find_header_run class_of ws spec model =
    find_from ws (header_row spec) (expected_headers class_of model) 1
      (Z.to_nat (max_column ws - Z.of_nat (length (expected_headers class_of model)) + 1)).
Proof.
  intros Hne. unfold find_header_run.
  destruct (expected_headers class_of model) as [|h t] eqn:He.
  - exfalso. apply Hne. apply length_zero_iff_nil.
    rewrite <- expected_headers_length, He. reflexivity.
  - f_equal. destruct (max_column ws =? 0) eqn:Hz; [apply Z.eqb_eq in Hz; rewrite Hz|]; lia.
Qed.

(** A class without columns is not looked for. *)
Lemma find_header_run_empty (ws : Worksheet) (spec : SheetSpec) (model : typ) :
  _get_model_columns (class_of model) = [] ->
  find_header_run class_of ws spec model = ([], None).
Proof.
  intros He. unfold find_header_run, expected_headers. rewrite He. reflexivity.
Qed.

(** The locator, said without the loop. *)
Lemma find_header_run_spec (ws : Worksheet) (spec : SheetSpec) (model : typ) :
  _get_model_columns (class_of model) <> [] ->
  let expected := expected_headers class_of model in
  let last := max_column ws - Z.of_nat (length expected) + 1 in
  let here c := actual_headers ws (header_row spec) c (length expected) = expected in
  match find_header_run class_of ws spec model with
  | (tried, Some (r, c)) =>
      r = header_row spec /\ 1 <= c <= last /\ here c /\
      (forall c', 1 <= c' < c -> ~ here c') /\ tried = interval 1 (c + 1)
  | (tried, None) =>
      (forall c', 1 <= c' <= last -> ~ here c') /\ tried = interval 1 (Z.max 1 (last + 1))
  end.
Proof.
  intros Hne expected last here. rewrite (find_header_run_nonempty ws spec model Hne).
  fold expected. fold last.
  pose proof (find_from_spec ws (header_row spec) expected (Z.to_nat last) 1) as Hs.
  simpl in Hs. fold here in Hs.
  destruct (find_from ws (header_row spec) expected 1 (Z.to_nat last)) as [tried [[r c]|]].
  - destruct Hs as (-> & Hc & Hhere & Hfirst & ->). repeat split; auto; lia.
  - destruct Hs as (Hnone & ->). split.
    + intros c' Hc'. apply Hnone. lia.
    + f_equal. lia.
Qed.
End HeaderFacts.

(** ** Which lists a computation writes *)

(** The computation changes no list outside [P]. *)
Definition writes_within {A} (P : loc -> Prop) (m : M A) : Prop :=
  forall (st : store) (l : loc), ~ P l -> (m st).1 !! l = st !! l.

Lemma writes_ret {A} (P : loc -> Prop) (a : A) : writes_within P (ret a).
Proof. intros st l _. reflexivity. Qed.

Lemma writes_raise {A} (P : loc -> Prop) (e : exn) : writes_within P (raise (A := A) e).
Proof. intros st l _. reflexivity. Qed.

Lemma writes_lift {A} (P : loc -> Prop) (r : result A) : writes_within P (lift r).
Proof. intros st l _. reflexivity. Qed.

Lemma writes_bind {A B} (P : loc -> Prop) (m : M A) (k : A -> M B) :
  writes_within P m -> (forall a, writes_within P (k a)) -> writes_within P (bind m k).
Proof.
  intros Hm Hk st l Hl. unfold bind. specialize (Hm st l Hl).
  destruct (m st) as [st' [a|e]]; simpl in *.
  - rewrite (Hk a st' l Hl). exact Hm.
  - exact Hm.
Qed.

Lemma writes_weaken {A} (P Q : loc -> Prop) (m : M A) :
  (forall l, P l -> Q l) -> writes_within P m -> writes_within Q m.
Proof. intros HPQ Hm st l Hl. apply Hm. intros HP. apply Hl, HPQ, HP. Qed.

Lemma writes_list_append (repo : loc) (obj : Obj) :
  writes_within (eq repo) (list_append repo obj).
Proof. intros st l Hl. unfold list_append. simpl. by rewrite lookup_insert_ne. Qed.

Lemma writes_load_row (model : Class) (repo : loc) (row_vals : list value) :
  writes_within (eq repo) (load_row model repo row_vals).
Proof.
  unfold load_row. apply writes_bind; [apply writes_lift|]. intros obj.
  apply writes_bind.
  - destruct (cls_validate model); [apply writes_lift|apply writes_ret].
  - intros _. apply writes_list_append.
Qed.

Lemma writes_scan_rows (ws : Worksheet) (model : Class) (repo : loc) (start_col : Z)
    (n : nat) (r : Z) :
  writes_within (eq repo) (scan_rows ws model repo start_col r n).
Proof.
  revert r. induction n as [|n IH]; intros r; simpl; [apply writes_ret|].
  destruct (_row_is_blank _); [apply writes_ret|].
  destruct (excluded _ _); [apply IH|].
  apply writes_bind; [apply writes_load_row|]. intros _. apply IH.
Qed.

Lemma clear_all_lookup (ls : list loc) (st : store) (l : loc) :
  (clear_all ls st).1 !! l = if decide (l ∈ ls) then Some [] else st !! l.
Proof.
  revert st. induction ls as [|a ls IH]; intros st.
  - destruct (decide (l ∈ [])) as [Hin|_]; [|reflexivity].
    by apply not_elem_of_nil in Hin.
  - change ((clear_all ls (<[a := []]> st)).1 !! l
            = if decide (l ∈ a :: ls) then Some [] else st !! l).
    rewrite IH.
    destruct (decide (l ∈ ls)) as [Hin|Hnin]; destruct (decide (l ∈ a :: ls)) as [Hin'|Hnin'].
    + reflexivity.
    + exfalso. apply Hnin'. by apply list_elem_of_further.
    + apply elem_of_cons in Hin' as [->|]; [|contradiction]. by rewrite lookup_insert_eq.
    + rewrite lookup_insert_ne; [reflexivity|]. intros ->. apply Hnin'. apply list_elem_of_here.
Qed.

Lemma clear_all_ok (ls : list loc) (st : store) : (clear_all ls st).2 = Ok tt.
Proof. revert st. induction ls as [|a ls IH]; intros st; simpl; [done|]. apply IH. Qed.

Lemma repo_locs_elem (repos : gmap typ loc) (l : loc) :
  l ∈ map snd (map_to_list repos) <-> exists t, repos !! t = Some l.
Proof.
  rewrite list_elem_of_In, in_map_iff. split.
  - intros ([t l'] & <- & Hin). exists t.
    apply list_elem_of_In in Hin. by apply elem_of_map_to_list in Hin.
  - intros (t & Ht). exists (t, l). split; [done|].
    apply list_elem_of_In. by apply elem_of_map_to_list.
Qed.

Section LoadFacts.
Variable class_of : typ -> Class.

(** The lists a class's block is loaded into: its repository, when
    its header is found. *)
Definition loads_into (self : ExcelFile) (ws : Worksheet) (spec : SheetSpec) (model : typ)
    (l : loc) : Prop :=
  _repos self !! model = Some l /\ _find_header class_of ws spec model <> None.

Lemma writes_parse_model (self : ExcelFile) (ws : Worksheet) (spec : SheetSpec) (model : typ) :
  writes_within (loads_into self ws spec model) (parse_model class_of self ws spec model).
Proof.
  unfold parse_model, loads_into.
  destruct (_find_header class_of ws spec model) as [[r c]|]; [|apply writes_ret].
  destruct (_repos self !! model) as [repo|]; [|apply writes_raise].
  apply (writes_weaken (eq repo)).
  - intros l <-. split; [reflexivity|discriminate].
  - apply writes_scan_rows.
Qed.

Lemma writes_parse_models (self : ExcelFile) (ws : Worksheet) (spec : SheetSpec)
    (ms : list typ) :
  writes_within (fun l => exists t, t ∈ ms /\ loads_into self ws spec t l)
    (parse_models class_of self ws spec ms).
Proof.
  induction ms as [|t ms IH]; simpl; [apply writes_ret|].
  apply writes_bind.
  - apply (writes_weaken (loads_into self ws spec t)); [|apply writes_parse_model].
    intros l Hl. exists t. split; [apply list_elem_of_here|exact Hl].
  - intros _. eapply writes_weaken; [|exact IH].
    intros l (t' & Hin & Hl). exists t'. split; [by apply list_elem_of_further|done].
Qed.

Lemma writes_load_sheets (self : ExcelFile) (wb : Workbook) (specs : list SheetSpec) :
  writes_within
    (fun l => exists spec ws t,
         spec ∈ specs /\ get_sheet wb (sheet_name spec) = Some ws /\
         t ∈ models spec /\ loads_into self ws spec t l)
    (load_sheets class_of self wb specs).
Proof.
  induction specs as [|spec specs IH]; simpl; [apply writes_ret|].
  destruct (negb _); [apply writes_raise|].
  destruct (get_sheet wb (sheet_name spec)) as [ws|] eqn:Hws; [|apply writes_raise].
  apply writes_bind.
  - eapply writes_weaken; [|apply writes_parse_models].
    intros l (t & Hin & Hl). exists spec, ws, t.
    split; [apply list_elem_of_here|]. auto.
  - intros _. eapply writes_weaken; [|exact IH].
    intros l (spec' & ws' & t & Hin & Hws' & Ht & Hl). exists spec', ws', t.
    split; [by apply list_elem_of_further|]. auto.
Qed.

(** After [load_data], a repository that no block was loaded into is
    empty, whether the load succeeded or not. *)
Lemma load_data_not_loaded (self : ExcelFile) (wb : Workbook) (model : typ) (l : loc)
    (st : store) :
  _repos self !! model = Some l ->
  (forall spec ws t,
      spec ∈ sheets self -> get_sheet wb (sheet_name spec) = Some ws ->
      t ∈ models spec -> ~ loads_into self ws spec t l) ->
  repository self model (load_data class_of self wb st).1 = Some [].
Proof.
  intros Hl Hnot. unfold repository. rewrite Hl. unfold load_data, bind.
  pose proof (clear_all_lookup (map snd (map_to_list (_repos self))) st l) as Hclear.
  pose proof (clear_all_ok (map snd (map_to_list (_repos self))) st) as Hok.
  destruct (clear_all _ st) as [st1 r]. simpl in *. subst r.
  rewrite decide_True in Hclear by (apply repo_locs_elem; eauto).
  rewrite (writes_load_sheets self wb (sheets self) st1 l); [exact Hclear|].
  intros (spec & ws & t & Hin & Hws & Ht & Hload). exact (Hnot spec ws t Hin Hws Ht Hload).
Qed.
End LoadFacts.

(** ** Construction *)

Lemma chars_app (s1 s2 : string) : chars (s1 +:+ s2) = chars s1 ++ chars s2.
Proof. induction s1 as [|c s1 IH]; simpl; [reflexivity|]. by rewrite IH. Qed.

Lemma pluralize_ends_s (s : string) : endswith (_pluralize s) "s" = true.
Proof.
  unfold _pluralize. destruct (endswith s "s") eqn:He; [exact He|].
  unfold endswith. rewrite chars_app, rev_app_distr. reflexivity.
Qed.

(** No attribute of the class itself is a plural. *)
Lemma plural_not_class_attr (s : string) : mem_string (_pluralize s) class_attrs = false.
Proof.
  destruct (mem_string (_pluralize s) class_attrs) eqn:Hm; [|reflexivity].
  apply existsb_exists in Hm as (n & Hin & Heq). apply String.eqb_eq in Heq. subst n.
  assert (forallb (fun n => negb (endswith n "s")) class_attrs = true) as Hall
    by reflexivity.
  rewrite forallb_forall in Hall. specialize (Hall _ Hin).
  rewrite pluralize_ends_s in Hall. discriminate.
Qed.

Section InitFacts.
Variable class_of : typ -> Class.

Lemma hasattr_repo_name (self : ExcelFile) (t : typ) :
  mem_string (repo_name class_of t) own_attrs = false ->
  hasattr self (repo_name class_of t) = bool_decide (is_Some (repo_attrs self !! repo_name class_of t)).
Proof.
  intros Hown. unfold hasattr. rewrite Hown.
  unfold repo_name, _repo_name_for_model. by rewrite plural_not_class_attr.
Qed.

(** What holds of the orchestrator while [__init__] runs: a class that
    has a repository has it under its derived name, the repository is
    empty, and no two classes share one. *)
Record registered (self : ExcelFile) (st : store) : Prop := mk_registered {
  reg_attr : forall t l, _repos self !! t = Some l ->
                         repo_attrs self !! repo_name class_of t = Some l;
  reg_empty : forall t l, _repos self !! t = Some l -> st !! l = Some [];
  reg_inj : forall t1 t2 l, _repos self !! t1 = Some l -> _repos self !! t2 = Some l ->
                            t1 = t2 }.

Lemma registered_init (sheets : list SheetSpec) (st : store) :
  registered (mk_ExcelFile sheets ∅ ∅) st.
Proof. split; simpl; intros *; rewrite lookup_empty; discriminate. Qed.

Lemma register_inv (self self' : ExcelFile) (t : typ) (st st' : store) :
  registered self st ->
  register class_of self t st = (st', Ok self') ->
  hasattr self (repo_name class_of t) = false /\
  let l := fresh (dom st) in
  st' = <[l := []]> st /\
  self' = mk_ExcelFile (sheets self) (<[t := l]> (_repos self))
            (<[repo_name class_of t := l]> (repo_attrs self)) /\
  _repos self !! t = None /\ repo_attrs self !! repo_name class_of t = None /\
  registered self' st'.
Proof.
  intros [Hattr Hempty Hinj]. unfold register.
  destruct (hasattr self (repo_name class_of t)) eqn:Hhas; [discriminate|].
  intros [= <- <-]. split; [reflexivity|]. simpl.
  assert (repo_attrs self !! repo_name class_of t = None) as Hfree.
  { unfold hasattr in Hhas. apply orb_false_elim in Hhas as [_ Hd].
    apply bool_decide_eq_false in Hd. destruct (repo_attrs self !! repo_name class_of t); [|done].
    exfalso. apply Hd. eauto. }
  assert (_repos self !! t = None) as Hnew.
  { destruct (_repos self !! t) as [l|] eqn:Hl; [|done].
    rewrite (Hattr _ _ Hl) in Hfree. discriminate. }
  assert (forall t' l', _repos self !! t' = Some l' -> l' <> fresh (dom st)) as Hold.
  { intros t' l' Hl' Heq. apply (fresh_not_in_store l' st); [|done].
    rewrite (Hempty _ _ Hl'). eauto. }
  repeat split; auto; simpl.
  - intros t' l'. destruct (decide (t = t')) as [<-|Hne].
    + rewrite !lookup_insert_eq. done.
    + rewrite lookup_insert_ne by done. intros Hl'.
      rewrite lookup_insert_ne; [by apply Hattr|].
      intros Heq. rewrite Heq, (Hattr _ _ Hl') in Hfree. discriminate.
  - intros t' l'. destruct (decide (t = t')) as [<-|Hne].
    + rewrite lookup_insert_eq. intros [= <-]. by rewrite lookup_insert_eq.
    + rewrite lookup_insert_ne by done. intros Hl'.
      rewrite lookup_insert_ne; [by eapply Hempty|]. intros Heq. by eapply Hold.
  - intros t1 t2 l'.
    destruct (decide (t = t1)) as [<-|Hne1]; destruct (decide (t = t2)) as [<-|Hne2];
      [done|..].
    + rewrite lookup_insert_eq, lookup_insert_ne by done. intros [= <-] Hl2.
      by apply Hold in Hl2.
    + rewrite lookup_insert_eq, lookup_insert_ne by done. intros Hl1 [= <-].
      by apply Hold in Hl1.
    + rewrite !lookup_insert_ne by done. apply Hinj.
Qed.

Lemma register_all_ok (ms : list typ) (self self' : ExcelFile) (st st' : store) :
  registered self st ->
  register_all class_of ms self st = (st', Ok self') ->
  registered self' st' /\ sheets self' = sheets self /\
  (forall t, t ∈ ms -> is_Some (_repos self' !! t)) /\
  (forall t l, _repos self !! t = Some l -> _repos self' !! t = Some l).
Proof.
  revert self st. induction ms as [|t ms IH]; intros self st Hreg; simpl.
  - intros [= <- <-]. split; [done|]. split; [done|]. split; [|done].
    intros t Ht. by apply not_elem_of_nil in Ht.
  - unfold bind. destruct (register class_of self t st) as [st1 [self1|e]] eqn:Hstep;
      [|discriminate].
    intros Hrest.
    destruct (register_inv _ _ _ _ _ Hreg Hstep) as (_ & _ & Hself1 & Hnew & _ & Hreg1).
    destruct (IH _ _ Hreg1 Hrest) as (Hreg' & Hsheets & Hall & Hmono).
    assert (_repos self1 !! t = Some (fresh (dom st))) as Ht1
      by (rewrite Hself1; simpl; apply lookup_insert_eq).
    split; [done|]. split; [|split].
    + rewrite Hsheets, Hself1. reflexivity.
    + intros t' Ht'. apply elem_of_cons in Ht' as [->|Ht']; [|by apply Hall].
      rewrite (Hmono _ _ Ht1). eauto.
    + intros t' l' Hl'. apply Hmono. rewrite Hself1. simpl.
      rewrite lookup_insert_ne; [done|]. intros <-. rewrite Hnew in Hl'. discriminate.
Qed.

Lemma register_all_error (ms : list typ) (self : ExcelFile) (st st' : store) (e : exn) :
  register_all class_of ms self st = (st', Raise e) ->
  exists t, t ∈ ms /\ e = duplicate_repo_name class_of t.
Proof.
  revert self st. induction ms as [|t ms IH]; intros self st; simpl; [discriminate|].
  unfold bind. destruct (register class_of self t st) as [st1 [self1|e1]] eqn:Hstep.
  - intros Hrest. destruct (IH _ _ Hrest) as (t' & Hin & He).
    exists t'. split; [by apply list_elem_of_further|done].
  - intros [= <- <-]. exists t. split; [apply list_elem_of_here|].
    unfold register in Hstep. destruct (hasattr self (repo_name class_of t)); [|discriminate].
    by injection Hstep as _ <-.
Qed.

(** [__init__] goes through exactly when the derived names are new
    and differ from one another. *)
Lemma register_all_succeeds (ms : list typ) (self : ExcelFile) (st : store) :
  registered self st ->
  (forall t, t ∈ ms -> mem_string (repo_name class_of t) own_attrs = false) ->
  (exists st' self', register_all class_of ms self st = (st', Ok self')) <->
  NoDup (map (repo_name class_of) ms) /\ forall t, t ∈ ms -> repo_attrs self !! repo_name class_of t = None.
Proof.
  revert self st. induction ms as [|t ms IH]; intros self st Hreg Hown; simpl.
  - split; [|eauto]. intros _. split; [apply NoDup_nil_2|].
    intros t Ht. by apply not_elem_of_nil in Ht.
  - assert (forall t', t' ∈ ms -> mem_string (repo_name class_of t') own_attrs = false) as Hown'
      by (intros t' Ht'; apply Hown; by apply list_elem_of_further).
    unfold bind. destruct (register class_of self t st) as [st1 [self1|e]] eqn:Hstep.
    + destruct (register_inv _ _ _ _ _ Hreg Hstep) as (_ & _ & Hself1 & _ & Hfree & Hreg1).
      rewrite (IH self1 st1 Hreg1 Hown'). rewrite Hself1. simpl.
      rewrite NoDup_cons. split.
      * intros [Hnd Hnone]. split; [split; [|done]|].
        -- intros Hin. apply list_elem_of_fmap in Hin as (t' & Heq & Ht').
           specialize (Hnone _ Ht'). rewrite <- Heq, lookup_insert_eq in Hnone.
           discriminate.
        -- intros t' Ht'. apply elem_of_cons in Ht' as [->|Ht']; [done|].
           specialize (Hnone _ Ht'). apply lookup_insert_None in Hnone. tauto.
      * intros [[Hnin Hnd] Hnone]. split; [done|]. intros t' Ht'.
        apply lookup_insert_None. split.
        -- apply Hnone. by apply list_elem_of_further.
        -- intros Heq. apply Hnin. rewrite Heq. by apply list_elem_of_fmap_2.
    + split; [intros (? & ? & [=])|]. intros [_ Hnone]. exfalso.
      unfold register in Hstep.
      rewrite hasattr_repo_name in Hstep by (apply Hown; apply list_elem_of_here).
      rewrite (Hnone t) in Hstep by apply list_elem_of_here.
      rewrite bool_decide_eq_false_2 in Hstep; [discriminate|].
      intros [? [=]].
Qed.
End InitFacts.

Lemma flat_map_elem {A B} (f : A -> list B) (l : list A) (a : A) (x : B) :
  a ∈ l -> x ∈ f a -> x ∈ flat_map f l.
Proof.
  intros Ha Hx. apply list_elem_of_In, in_flat_map. exists a.
  split; by apply list_elem_of_In.
Qed.

(** In a list of lists without repetition, an element tells its list. *)
Lemma flat_map_NoDup_unique {A B} (f : A -> list B) (l : list A) (a b : A) (x : B) :
  NoDup (flat_map f l) -> a ∈ l -> b ∈ l -> x ∈ f a -> x ∈ f b -> a = b.
Proof.
  induction l as [|c l IH]; simpl; intros Hnd Ha Hb Hxa Hxb.
  - by apply not_elem_of_nil in Ha.
  - apply NoDup_app in Hnd as (_ & Hdisj & Hnd).
    apply elem_of_cons in Ha as [->|Ha]; apply elem_of_cons in Hb as [->|Hb].
    + reflexivity.
    + exfalso. apply (Hdisj x Hxa). by apply (flat_map_elem f l b).
    + exfalso. apply (Hdisj x Hxb). by apply (flat_map_elem f l a).
    + by apply IH.
Qed.

Section InitResults.
Variable class_of : typ -> Class.

Lemma register_all_fresh (ms : list typ) (self self' : ExcelFile) (st st' : store) :
  registered class_of self st ->
  register_all class_of ms self st = (st', Ok self') ->
  NoDup ms /\ forall t, t ∈ ms -> _repos self !! t = None.
Proof.
  revert self st. induction ms as [|t ms IH]; intros self st Hreg; simpl.
  - intros _. split; [apply NoDup_nil_2|]. intros t Ht. by apply not_elem_of_nil in Ht.
  - unfold bind. destruct (register class_of self t st) as [st1 [self1|e]] eqn:Hstep;
      [|discriminate].
    intros Hrest.
    destruct (register_inv _ _ _ _ _ _ Hreg Hstep) as (_ & _ & Hself1 & Hnew & _ & Hreg1).
    destruct (IH _ _ Hreg1 Hrest) as (Hnd & Hnone).
    rewrite Hself1 in Hnone. simpl in Hnone. split.
    + apply NoDup_cons. split; [|done]. intros Hin.
      specialize (Hnone _ Hin). rewrite lookup_insert_eq in Hnone. discriminate.
    + intros t' Ht'. apply elem_of_cons in Ht' as [->|Ht']; [done|].
      specialize (Hnone _ Ht'). apply lookup_insert_None in Hnone. tauto.
Qed.

(** What a successful construction leaves. *)
Lemma init_ok (specs : list SheetSpec) (st st' : store) (self : ExcelFile) :
  __init__ class_of specs st = (st', Ok self) ->
  registered class_of self st' /\ sheets self = specs /\
  (forall t, t ∈ flat_map models specs -> is_Some (_repos self !! t)) /\
  NoDup (flat_map models specs).
Proof.
  unfold __init__. intros Hinit.
  pose proof (registered_init class_of specs st) as Hreg.
  destruct (register_all_ok _ _ _ _ _ _ Hreg Hinit) as (Hreg' & Hsheets & Hall & _).
  destruct (register_all_fresh _ _ _ _ _ Hreg Hinit) as (Hnd & _).
  auto.
Qed.

(** A class whose header is not found on its sheet ends the load with
    an empty repository. *)
Lemma unlocated_repository_empty (specs : list SheetSpec) (st0 st1 st : store)
    (self : ExcelFile) (wb : Workbook) (spec : SheetSpec) (model : typ) :
  __init__ class_of specs st0 = (st1, Ok self) ->
  spec ∈ specs -> model ∈ models spec ->
  (forall ws, get_sheet wb (sheet_name spec) = Some ws ->
              _find_header class_of ws spec model = None) ->
  repository self model (load_data class_of self wb st).1 = Some [].
Proof.
  intros Hinit Hspec Hmodel Hnone.
  destruct (init_ok _ _ _ _ Hinit) as ([_ _ Hinj] & Hsheets & Hall & Hnd).
  destruct (Hall model (flat_map_elem _ _ _ _ Hspec Hmodel)) as [l Hl].
  apply (load_data_not_loaded class_of self wb model l st Hl).
  intros spec' ws' t' Hspec' Hws' Ht' [Hl' Hfound].
  rewrite Hsheets in Hspec'.
  assert (t' = model) as -> by (eapply Hinj; eauto).
  assert (spec' = spec) as -> by (eapply flat_map_NoDup_unique; eauto).
  apply Hfound. by apply Hnone.
Qed.
End InitResults.

(** ** The orchestrator: construction *)

(** One class listed on two sheets. *)
Definition fleet_specs : list SheetSpec :=
  [ mk_SheetSpec "Cars" [1%positive] 1 2 3 2;
    mk_SheetSpec "Fleet" [1%positive] 1 2 3 2 ].

(** Construction fails exactly when two different classes derive the
    same name: the reading of the specification. *)
Definition fails_iff_two_classes_collide (class_of : typ -> Class)
    (specs : list SheetSpec) : Prop :=
  (exists st e, __init__ class_of specs ∅ = (st, Raise e)) <->
  (exists t1 t2, t1 ∈ flat_map models specs /\ t2 ∈ flat_map models specs /\
                 t1 <> t2 /\ repo_name class_of t1 = repo_name class_of t2).

Lemma same_class_twice_fails :
  (exists st, __init__ test_classes fleet_specs ∅
              = (st, Raise (ValueError "Duplicate repo name 'cars' for model Car"))) /\
  ~ fails_iff_two_classes_collide test_classes fleet_specs.
Proof.
  split; [eexists; vm_compute; reflexivity|].
  intros [Hfail _]. destruct Hfail as (t1 & t2 & H1 & H2 & Hne & _).
  - eexists _, _. vm_compute. reflexivity.
  - simpl in H1, H2.
    apply elem_of_cons in H1 as [->|H1]; [|apply elem_of_cons in H1 as [->|H1]];
      try (by apply not_elem_of_nil in H1);
      (apply elem_of_cons in H2 as [->|H2]; [|apply elem_of_cons in H2 as [->|H2]]);
      try (by apply not_elem_of_nil in H2); by apply Hne.
Qed.

(** C3 (amended). [__init__] reads nothing but the sheet
    specifications.  Where no class derives the name of one of the
    orchestrator's own attributes, it fails, with the duplicate-name
    error, if and only if two entries of the sheet specifications, two
    classes or one class listed twice, derive the same repository
    name.  When it succeeds, every class listed has one repository of
    its own, empty, held in [_repos] and exposed under the derived
    name. *)
Theorem init_fails_iff_name_repeats (class_of : typ -> Class) (specs : list SheetSpec)
    (st : store) :
  let listed := flat_map models specs in
  (forall t, t ∈ listed -> mem_string (repo_name class_of t) own_attrs = false) ->
  ((exists st' e, __init__ class_of specs st = (st', Raise e))
   <-> ~ NoDup (map (repo_name class_of) listed)) /\
  (forall st' e, __init__ class_of specs st = (st', Raise e) ->
                 exists t, t ∈ listed /\ e = duplicate_repo_name class_of t) /\
  (forall st' self,
      __init__ class_of specs st = (st', Ok self) ->
      sheets self = specs /\
      forall t, t ∈ listed ->
        exists l, _repos self !! t = Some l /\
                  repo_attrs self !! repo_name class_of t = Some l /\
                  st' !! l = Some [] /\
                  (forall t', _repos self !! t' = Some l -> t' = t)).
Proof.
  intros listed Hown.
  pose proof (registered_init class_of specs st) as Hreg.
  pose proof (register_all_succeeds class_of listed _ st Hreg Hown) as Hiff.
  split; [|split].
  - unfold __init__. fold listed. split.
    + intros (st' & e & Hfail) Hnd.
      destruct (proj2 Hiff) as (st'' & self & Hok).
      { split; [done|]. intros t _. apply lookup_empty. }
      rewrite Hok in Hfail. discriminate.
    + intros Hdup.
      destruct (register_all class_of listed (mk_ExcelFile specs ∅ ∅) st)
        as [st' [self|e]] eqn:Hrun; [|eauto].
      exfalso. apply Hdup. apply Hiff. eauto.
  - intros st' e Hfail. eapply register_all_error. exact Hfail.
  - intros st' self Hok.
    destruct (init_ok class_of specs st st' self Hok) as ([Hattr Hempty Hinj] & Hs & Hall & _).
    split; [done|]. intros t Ht. destruct (Hall t Ht) as [l Hl].
    exists l. split; [done|]. split; [by apply Hattr|]. split; [by eapply Hempty|].
    intros t' Hl'. by apply (Hinj t' t l).
Qed.

Lemma init_fails_iff_name_repeats_witness :
  exists st' e, __init__ test_classes fleet_specs ∅ = (st', Raise e).
Proof.
  apply (proj1 (init_fails_iff_name_repeats test_classes fleet_specs ∅
    ltac:(intros t Ht; simpl in Ht;
          apply elem_of_cons in Ht as [->|Ht];
            [reflexivity|apply elem_of_cons in Ht as [->|Ht];
               [reflexivity|by apply not_elem_of_nil in Ht]]))).
  intros Hnd. vm_compute in Hnd. apply NoDup_cons in Hnd as [Hnin _].
  apply Hnin. apply list_elem_of_here.
Defined.

(** ** The orchestrator: loading *)

Lemma parse_model_not_found (class_of : typ -> Class) (self : ExcelFile) (ws : Worksheet)
    (spec : SheetSpec) (model : typ) (st : store) :
  _find_header class_of ws spec model = None ->
  parse_model class_of self ws spec model st = (st, Ok tt).
Proof. intros Hnone. unfold parse_model. by rewrite Hnone. Qed.

Lemma interval_clip (lo hi : Z) : interval lo (Z.max lo hi) = interval lo hi.
Proof. unfold interval. f_equal. f_equal. lia. Qed.

(** The block of a class without columns matches trivially at column
    1, and yet is not found. *)
Lemma empty_schema_matches_unfound :
  let expected := expected_headers test_classes 3%positive in
  1 <= max_column cars_sheet - Z.of_nat (length expected) + 1 /\
  actual_headers cars_sheet (header_row cars_spec) 1 (length expected) = expected /\
  _find_header test_classes cars_sheet cars_spec 3%positive = None.
Proof. vm_compute. repeat split; discriminate. Qed.

(** C5 (amended). For a class with at least one column, the locator
    tries the start columns 1, 2, ... in turn, up to the last one that
    leaves room for the block, and returns the first at which the
    normalized cells of the header row equal the expected labels, one
    by one.  When the sheet is narrower than the block or no candidate
    matches, nothing is found; the rows of that class are then not
    read, no error is raised for it, and its repository is empty when
    the load ends. *)
Theorem find_header_first_match (class_of : typ -> Class) (ws : Worksheet)
    (spec : SheetSpec) (model : typ) :
  _get_model_columns (class_of model) <> [] ->
  let expected := expected_headers class_of model in
  let width := length expected in
  let last := max_column ws - Z.of_nat width + 1 in
  let here c := actual_headers ws (header_row spec) c width = expected in
  match find_header_run class_of ws spec model with
  | (tried, Some (r, c)) =>
      r = header_row spec /\ 1 <= c <= last /\ here c /\
      (forall c', 1 <= c' < c -> ~ here c') /\ tried = interval 1 (c + 1)
  | (tried, None) =>
      (forall c', 1 <= c' <= last -> ~ here c') /\ tried = interval 1 (last + 1)
  end /\
  (max_column ws < Z.of_nat width -> _find_header class_of ws spec model = None) /\
  (_find_header class_of ws spec model = None ->
   (forall self st, parse_model class_of self ws spec model st = (st, Ok tt)) /\
   (forall specs st0 st1 self wb st,
       __init__ class_of specs st0 = (st1, Ok self) ->
       spec ∈ specs -> model ∈ models spec ->
       get_sheet wb (sheet_name spec) = Some ws ->
       repository self model (load_data class_of self wb st).1 = Some [])).
Proof.
  intros Hne expected width last here.
  pose proof (find_header_run_spec class_of ws spec model Hne) as Hrun.
  simpl in Hrun. fold expected width last here in Hrun.
  split; [|split].
  - destruct (find_header_run class_of ws spec model) as [tried [[r c]|]]; [exact Hrun|].
    destruct Hrun as [Hnone ->]. split; [exact Hnone|]. apply interval_clip.
  - intros Hnarrow. unfold _find_header.
    destruct (find_header_run class_of ws spec model) as [tried [[r c]|]]; [|reflexivity].
    destruct Hrun as (_ & Hc & _). lia.
  - intros Hnone. split.
    + intros self st. by apply parse_model_not_found.
    + intros specs st0 st1 self wb st Hinit Hspec Hmodel Hws.
      apply (unlocated_repository_empty class_of specs st0 st1 st self wb spec model);
        auto.
      intros ws' Hws'. rewrite Hws in Hws'. by injection Hws' as <-.
Qed.

Lemma find_header_first_match_witness :
  _find_header test_classes cars_sheet cars_spec 2%positive = Some (2, 6) /\
  actual_headers cars_sheet 2 1 2 <> ["Factory Name"; "Location"].
Proof.
  destruct (find_header_first_match test_classes cars_sheet cars_spec 2%positive
              ltac:(discriminate)) as [Hrun _].
  assert (find_header_run test_classes cars_sheet cars_spec 2%positive
          = ([1; 2; 3; 4; 5; 6], Some (2, 6))) as Hval by (vm_compute; reflexivity).
  rewrite Hval in Hrun. destruct Hrun as (_ & _ & _ & Hfirst & _).
  split; [unfold _find_header; by rewrite Hval|apply Hfirst; lia].
Defined.

(** C10. A class whose schema has no column is never located: the
    locator answers "not found" for every sheet without trying any
    column, the rows of the class are not read and no error is raised
    for it, and its repository is empty when a load ends. *)
Theorem empty_schema_never_located (class_of : typ -> Class) (spec : SheetSpec)
    (model : typ) :
  _get_model_columns (class_of model) = [] ->
  (forall ws, find_header_run class_of ws spec model = ([], None)) /\
  (forall self ws st, parse_model class_of self ws spec model st = (st, Ok tt)) /\
  (forall specs st0 st1 self wb st,
      __init__ class_of specs st0 = (st1, Ok self) ->
      spec ∈ specs -> model ∈ models spec ->
      repository self model (load_data class_of self wb st).1 = Some []).
Proof.
  intros Hempty.
  assert (forall ws, find_header_run class_of ws spec model = ([], None)) as Hrun
    by (intros ws; by apply find_header_run_empty).
  assert (forall ws, _find_header class_of ws spec model = None) as Hnone
    by (intros ws; unfold _find_header; by rewrite Hrun).
  split; [exact Hrun|]. split.
  - intros self ws st. by apply parse_model_not_found.
  - intros specs st0 st1 self wb st Hinit Hspec Hmodel.
    apply (unlocated_repository_empty class_of specs st0 st1 st self wb spec model); auto.
Qed.

Lemma empty_schema_never_located_witness :
  find_header_run test_classes cars_sheet cars_spec 3%positive = ([], None).
Proof.
  exact (proj1 (empty_schema_never_located test_classes cars_spec 3%positive eq_refl)
           cars_sheet).
Defined.

Lemma mem_string_elem (s : string) (l : list string) : mem_string s l = true <-> s ∈ l.
Proof.
  unfold mem_string. rewrite existsb_exists. split.
  - intros (x & Hin & Heq). apply String.eqb_eq in Heq. subst x. by apply list_elem_of_In.
  - intros Hin. exists s. split; [by apply list_elem_of_In|apply String.eqb_refl].
Qed.

Lemma load_sheets_app (class_of : typ -> Class) (self : ExcelFile) (wb : Workbook)
    (pre rest : list SheetSpec) (st : store) :
  load_sheets class_of self wb (pre ++ rest) st =
    match load_sheets class_of self wb pre st with
    | (st', Ok _) => load_sheets class_of self wb rest st'
    | (st', Raise e) => (st', Raise e)
    end.
Proof.
  revert st. induction pre as [|s pre IH]; intros st; simpl; [reflexivity|].
  destruct (negb _); [reflexivity|].
  destruct (get_sheet wb (sheet_name s)) as [ws|]; [|reflexivity].
  unfold bind. destruct (_parse_sheet class_of self ws s st) as [st1 [[]|e]]; [|reflexivity].
  apply IH.
Qed.

(** A spreadsheet without the sheet ["Cars"]. *)
Definition wrong_workbook : Workbook := [("NotCars", empty_sheet)].

(** [test_load_data_missing_sheet_raises], after a first load: the
    error is raised, and the records of the first load are gone. *)
Lemma missing_sheet_clears_repositories :
  exists self st0 st1 st2,
    __init__ test_classes [cars_spec] ∅ = (st0, Ok self) /\
    load_data test_classes self [("Cars", cars_sheet)] st0 = (st1, Ok tt) /\
    load_data test_classes self wrong_workbook st1
      = (st2, Raise (ValueError "Workbook missing sheet 'Cars'")) /\
    repository self 1%positive st1
      = Some [car "Toyota" "Camry" 2020; car "Honda" "Civic" 2019] /\
    repository self 1%positive st2 = Some [] /\
    st2 <> st1.
Proof.
  eexists _, _, _, _. split; [vm_compute; reflexivity|].
  split; [vm_compute; reflexivity|]. split; [vm_compute; reflexivity|].
  split; [vm_compute; reflexivity|]. split; [vm_compute; reflexivity|].
  intros Heq. apply (f_equal (fun st : store => st !! 1%positive)) in Heq.
  vm_compute in Heq. discriminate.
Qed.

(** C1 (amended). When the sheet of some specification is absent from
    the document, [load_data] does not succeed.  It first empties
    every repository; it then loads the sheets of the specifications
    listed before the absent one, and, unless one of them raises
    first, raises the missing-sheet error with the store as those
    loads left it.  When the absent sheet is that of the first
    specification, every repository is left empty. *)
Theorem load_data_missing_sheet (class_of : typ -> Class) (self : ExcelFile)
    (wb : Workbook) (pre post : list SheetSpec) (spec : SheetSpec) (st : store) :
  sheets self = pre ++ spec :: post ->
  sheet_name spec ∉ sheetnames wb ->
  let cleared := (clear_all (map snd (map_to_list (_repos self))) st).1 in
  (forall t l, _repos self !! t = Some l -> cleared !! l = Some []) /\
  (forall l, (forall t, _repos self !! t <> Some l) -> cleared !! l = st !! l) /\
  match load_sheets class_of self wb pre cleared with
  | (st', Ok _) =>
      load_data class_of self wb st = (st', Raise (missing_sheet (sheet_name spec)))
  | (st', Raise e) => load_data class_of self wb st = (st', Raise e)
  end /\
  (pre = [] ->
   load_data class_of self wb st = (cleared, Raise (missing_sheet (sheet_name spec)))).
Proof.
  intros Hsheets Hmissing cleared.
  assert (forall st', load_sheets class_of self wb (spec :: post) st'
                      = (st', Raise (missing_sheet (sheet_name spec)))) as Hstop.
  { intros st'. simpl.
    destruct (mem_string (sheet_name spec) (sheetnames wb)) eqn:Hm; [|reflexivity].
    apply mem_string_elem in Hm. contradiction. }
  assert (load_data class_of self wb st
          = load_sheets class_of self wb (pre ++ spec :: post) cleared) as Hload.
  { unfold load_data, bind, cleared. rewrite Hsheets.
    pose proof (clear_all_ok (map snd (map_to_list (_repos self))) st) as Hok.
    destruct (clear_all _ st) as [st1 r]. simpl in *. by subst r. }
  split; [|split; [|split]].
  - intros t l Hl. unfold cleared. rewrite clear_all_lookup.
    rewrite decide_True; [done|]. apply repo_locs_elem. eauto.
  - intros l Hl. unfold cleared. rewrite clear_all_lookup.
    rewrite decide_False; [done|]. intros Hin. apply repo_locs_elem in Hin as [t Ht].
    by apply (Hl t).
  - rewrite Hload, load_sheets_app.
    destruct (load_sheets class_of self wb pre cleared) as [st' [[]|e]]; [|reflexivity].
    apply Hstop.
  - intros ->. rewrite Hload. apply Hstop.
Qed.

Lemma load_data_missing_sheet_witness :
  load_data test_classes (mk_ExcelFile [cars_spec] {[ 1%positive := 1%positive ]} ∅)
    wrong_workbook {[ 1%positive := [car "Toyota" "Camry" 2020] ]}
  = ({[ 1%positive := [] ]}, Raise (ValueError "Workbook missing sheet 'Cars'")).
Proof.
  destruct (load_data_missing_sheet test_classes
              (mk_ExcelFile [cars_spec] {[ 1%positive := 1%positive ]} ∅)
              wrong_workbook [] [] cars_spec {[ 1%positive := [car "Toyota" "Camry" 2020] ]}
              eq_refl) as (_ & _ & _ & Hfirst).
  - intros Hin. apply list_elem_of_In in Hin. simpl in Hin.
    destruct Hin as [Heq|[]]. discriminate.
  - rewrite (Hfirst eq_refl). vm_compute. reflexivity.
Defined.

(** ** Template layout *)

(** The column at which the loop of [_write_sheet_template] starts
    the block number [k], the cursor being at [current_col]. *)
Fixpoint block_start (class_of : typ -> Class) (spec : SheetSpec) (current_col : Z)
    (ms : list typ) (k : nat) : Z :=
  match k, ms with
  | S k', m :: rest =>
      let width := Z.of_nat (length (_get_model_columns (class_of m))) in
      block_start class_of spec (current_col + width - 1 + 1 + template_table_gap spec) rest k'
  | _, _ => current_col
  end.

Definition tags_spec : SheetSpec := mk_SheetSpec "Tags" [4%positive] 1 2 3 2.
Definition sites_spec : SheetSpec := mk_SheetSpec "Sites" [2%positive; 6%positive] 1 2 3 2.

(** Two templates.  A column without a declared header is written
    under its field name and looked for under the empty label: its
    block is not found.  A block whose labels also occur further left
    is found there, not where the template placed it. *)
Lemma template_block_not_located :
  (map (fun c => _normalize_header (VStr (header_or_name c))) (_get_model_columns Tag)
     = ["label"] /\
   expected_headers test_classes 4%positive = [""] /\
   _find_header test_classes (_write_sheet_template test_classes empty_sheet tags_spec)
     tags_spec 4%positive = None) /\
  (block_start test_classes sites_spec 1 (models sites_spec) 1 = 5 /\
   _find_header test_classes (_write_sheet_template test_classes empty_sheet sites_spec)
     sites_spec 6%positive = Some (2, 2)).
Proof. vm_compute. repeat split; reflexivity. Qed.

Lemma write_headers_cells (row start_col : Z) (headers : list string) (ws : Worksheet) (j : Z) :
  let ws' := write_headers ws row start_col j headers in
  (forall (i : nat) (h : string),
      headers !! i = Some h ->
      cell_value ws' row (start_col + j + Z.of_nat i) = VStr h) /\
  (forall r c, c < start_col + j -> cell_value ws' r c = cell_value ws r c) /\
  max_column ws <= max_column ws' /\
  (headers <> [] -> start_col + j + Z.of_nat (length headers) - 1 <= max_column ws').
Proof.
  revert ws j. induction headers as [|h headers IH]; intros ws j; simpl.
  - split; [intros i h Hi; discriminate|]. split; [done|]. split; [lia|done].
  - set (ws2 := set_column_width (write_cell ws row (start_col + j) (VStr h)) (start_col + j)
                  (Z.max 12 (Z.min 40 (strlen h + 4)))).
    destruct (IH ws2 (j + 1)) as (Hcells & Hframe & Hmono & Hmax).
    assert (max_column ws2 = Z.max (max_column ws) (start_col + j)) as Hm2 by reflexivity.
    split; [|split; [|split]].
    + intros [|i] h' Hi; simpl in Hi.
      * injection Hi as <-. rewrite Z.add_0_r, Hframe by lia.
        simpl. by rewrite !Z.eqb_refl.
      * replace (start_col + j + Z.of_nat (S i)) with (start_col + (j + 1) + Z.of_nat i)
          by lia.
        by apply Hcells.
    + intros r c Hc. rewrite Hframe by lia. simpl.
      destruct (c =? start_col + j) eqn:Hcj; [lia|]. by rewrite andb_false_r.
    + lia.
    + intros _. destruct headers as [|h' headers'].
      * simpl in *. lia.
      * specialize (Hmax ltac:(discriminate)). simpl length in *. lia.
Qed.

Section TemplateFacts.
Variable class_of : typ -> Class.
Variable spec : SheetSpec.
Hypothesis gap_nonneg : 0 <= template_table_gap spec.

(** The blocks are written from the cursor rightwards. *)
Lemma write_blocks_frame (ms : list typ) (ws : Worksheet) (current_col : Z) :
  (forall r c, c < current_col ->
               cell_value (write_blocks class_of ws spec current_col ms) r c
               = cell_value ws r c) /\
  max_column ws <= max_column (write_blocks class_of ws spec current_col ms).
Proof.
  revert ws current_col. induction ms as [|m ms IH]; intros ws cur; simpl; [split; [done|lia]|].
  set (cols := _get_model_columns (class_of m)).
  set (width := Z.of_nat (length (map header_or_name cols))).
  set (ws1 := merge_cells ws (title_row spec) cur (cur + width - 1)).
  set (ws2 := write_cell ws1 (title_row spec) cur (VStr (_display_name_for_model (class_of m)))).
  set (ws3 := write_headers ws2 (header_row spec) cur 0 (map header_or_name cols)).
  destruct (IH ws3 (cur + width - 1 + 1 + template_table_gap spec)) as [Hframe Hmono].
  destruct (write_headers_cells (header_row spec) cur (map header_or_name cols) ws2 0)
    as (_ & Hframe3 & Hmono3 & _). fold ws3 in Hframe3, Hmono3.
  assert (0 <= width) as Hw by (unfold width; lia).
  assert (forall r c, c < cur -> cell_value ws1 r c = cell_value ws r c) as Hframe1.
  { intros r c Hc. unfold ws1, merge_cells.
    destruct (cur <? cur + width - 1); [|done]. simpl.
    destruct (cur <? c) eqn:Hlt; [lia|]. by rewrite andb_false_r. }
  assert (max_column ws <= max_column ws1) as Hmono1.
  { unfold ws1, merge_cells. destruct (cur <? cur + width - 1); simpl; lia. }
  split.
  - intros r c Hc. rewrite Hframe by lia. rewrite Hframe3 by lia. unfold ws2. simpl.
    destruct (c =? cur) eqn:Hcc; [lia|]. rewrite andb_false_r. by apply Hframe1.
  - assert (max_column ws1 <= max_column ws2) by (unfold ws2; simpl; lia). lia.
Qed.

(** The header row of block [k] holds the labels of its class, and
    the sheet is at least as wide as the block reaches. *)
Lemma write_blocks_block (k : nat) (ms : list typ) (ws : Worksheet) (current_col : Z)
    (model : typ) :
  ms !! k = Some model ->
  let headers := map header_or_name (_get_model_columns (class_of model)) in
  let placed := block_start class_of spec current_col ms k in
  let ws' := write_blocks class_of ws spec current_col ms in
  current_col <= placed /\
  (forall (i : nat) (h : string),
      headers !! i = Some h ->
      cell_value ws' (header_row spec) (placed + Z.of_nat i) = VStr h) /\
  (headers <> [] -> placed + Z.of_nat (length headers) - 1 <= max_column ws').
Proof.
  revert ms ws current_col. induction k as [|k IH]; intros [|m ms] ws cur Hk;
    try discriminate; simpl in Hk.
  - injection Hk as ->. simpl.
    set (cols := _get_model_columns (class_of model)).
    set (width := Z.of_nat (length (map header_or_name cols))).
    set (ws1 := merge_cells ws (title_row spec) cur (cur + width - 1)).
    set (ws2 := write_cell ws1 (title_row spec) cur
                  (VStr (_display_name_for_model (class_of model)))).
    set (ws3 := write_headers ws2 (header_row spec) cur 0 (map header_or_name cols)).
    destruct (write_blocks_frame ms ws3 (cur + width - 1 + 1 + template_table_gap spec))
      as [Hframe Hmono].
    destruct (write_headers_cells (header_row spec) cur (map header_or_name cols) ws2 0)
      as (Hcells & _ & _ & Hmax). fold ws3 in Hcells, Hmax.
    split; [lia|]. split.
    + intros i h Hi. rewrite Hframe.
      * rewrite <- (Hcells i h Hi). f_equal. lia.
      * apply lookup_lt_Some in Hi. unfold width. lia.
    + intros Hne. specialize (Hmax Hne). lia.
  - simpl.
    set (width := Z.of_nat (length (_get_model_columns (class_of m)))).
    rewrite length_map. fold width.
    set (ws3 := write_headers _ _ _ _ _).
    destruct (IH ms ws3 (cur + width - 1 + 1 + template_table_gap spec) Hk)
      as (Hle & Hcells & Hmax).
    split; [unfold width in *; lia|]. split; [exact Hcells|exact Hmax].
Qed.
End TemplateFacts.

Lemma actual_headers_of_cells (ws : Worksheet) (r : Z) (headers : list string) (c0 : Z) :
  (forall (i : nat) (h : string),
      headers !! i = Some h -> cell_value ws r (c0 + Z.of_nat i) = VStr h) ->
  actual_headers ws r c0 (length headers)
  = map (fun h => _normalize_header (VStr h)) headers.
Proof.
  revert c0. induction headers as [|h headers IH]; intros c0 Hcells; [reflexivity|].
  unfold actual_headers, range in *. simpl. f_equal.
  - by rewrite (Hcells 0%nat h eq_refl).
  - rewrite <- (IH (c0 + 1)).
    + rewrite <- seq_shift, !map_map. apply map_ext. intros i. do 2 f_equal. lia.
    + intros i h' Hi. rewrite <- (Hcells (S i) h' Hi). f_equal. lia.
Qed.

(** The column declares a header: one is given, and it is not the
    empty string. *)
Definition declares_header (c : Column) : Prop :=
  exists h, spec_header (col_spec c) = Some h /\ h <> "".

Lemma declared_header_label (c : Column) :
  declares_header c ->
  _normalize_header (VStr (header_or_name c))
  = _normalize_header (match spec_header (col_spec c) with
                       | Some h => VStr h
                       | None => VNone
                       end).
Proof.
  intros (h & Hh & Hne). unfold header_or_name. rewrite Hh.
  destruct (String.eqb h "") eqn:He; [|reflexivity].
  apply String.eqb_eq in He. contradiction.
Qed.

(** C2 (amended). On a sheet specification with 1-based, distinct
    title and header rows, a gap that is not negative and classes that
    all have a column: for a class whose columns all declare a header,
    the labels the template writes equal, once normalized, the labels
    the locator expects; on the freshly written template they stand on
    the header row at the block's column, and the locator finds the
    class at the first column where they match, which is at or before
    the block's column: the block's column itself when the labels
    match nowhere to the left of it, as for the first block. *)
Theorem template_block_located (class_of : typ -> Class) (spec : SheetSpec)
    (k : nat) (model : typ) :
  1 <= title_row spec -> 1 <= header_row spec -> title_row spec <> header_row spec ->
  0 <= template_table_gap spec ->
  (forall t, t ∈ models spec -> _get_model_columns (class_of t) <> []) ->
  models spec !! k = Some model ->
  (forall c, c ∈ _get_model_columns (class_of model) -> declares_header c) ->
  let expected := expected_headers class_of model in
  let ws := _write_sheet_template class_of empty_sheet spec in
  let placed := block_start class_of spec 1 (models spec) k in
  let here c := actual_headers ws (header_row spec) c (length expected) = expected in
  map (fun c => _normalize_header (VStr (header_or_name c)))
      (_get_model_columns (class_of model)) = expected /\
  here placed /\
  exists c, _find_header class_of ws spec model = Some (header_row spec, c) /\
            1 <= c <= placed /\
            (forall c', 1 <= c' < c -> ~ here c') /\
            ((forall c', 1 <= c' < placed -> ~ here c') -> c = placed) /\
            (k = 0%nat -> c = 1).
Proof.
  intros _ _ _ Hgap Hcols Hk Hdecl expected ws placed here.
  assert (_get_model_columns (class_of model) <> []) as Hne
    by (apply Hcols; by eapply list_elem_of_lookup_2).
  assert (map (fun c => _normalize_header (VStr (header_or_name c)))
              (_get_model_columns (class_of model)) = expected) as Hlabels.
  { unfold expected, expected_headers. apply map_ext_in. intros c Hc.
    apply declared_header_label, Hdecl. by apply list_elem_of_In. }
  destruct (write_blocks_block class_of spec Hgap k (models spec) empty_sheet 1 model Hk)
    as (Hle & Hcells & Hmax).
  fold placed in Hle, Hcells, Hmax.
  change (write_blocks class_of empty_sheet spec 1 (models spec)) with ws in Hcells, Hmax.
  assert (length expected = length (map header_or_name (_get_model_columns (class_of model))))
    as Hlen by (unfold expected, expected_headers; by rewrite !length_map).
  assert (here placed) as Hhere.
  { unfold here. rewrite Hlen, (actual_headers_of_cells _ _ _ _ Hcells), map_map.
    exact Hlabels. }
  assert (placed <= max_column ws - Z.of_nat (length expected) + 1) as Hroom.
  { rewrite Hlen. specialize (Hmax ltac:(intros Hnil; apply Hne;
      by apply map_eq_nil in Hnil)). lia. }
  split; [exact Hlabels|]. split; [exact Hhere|].
  pose proof (find_header_run_spec class_of ws spec model Hne) as Hrun.
  simpl in Hrun. fold expected in Hrun. fold here in Hrun. unfold _find_header.
  destruct (find_header_run class_of ws spec model) as [tried [[r c]|]].
  - destruct Hrun as (-> & Hc & Hhc & Hfirst & _). exists c.
    assert (c <= placed) as Hcp.
    { destruct (Z_le_gt_dec c placed) as [|Hgt]; [done|].
      exfalso. apply (Hfirst placed); [lia|exact Hhere]. }
    split; [reflexivity|]. split; [lia|]. split; [exact Hfirst|]. split.
    + intros Hleft. destruct (Z_le_gt_dec placed c) as [|Hgt]; [lia|].
      exfalso. apply (Hleft c); [lia|exact Hhc].
    + intros ->. simpl in placed. unfold placed in Hcp.
      destruct (models spec); simpl in Hcp; lia.
  - destruct Hrun as [Hnone _]. exfalso. apply (Hnone placed); [lia|exact Hhere].
Qed.

Lemma template_block_located_witness :
  _find_header test_classes (_write_sheet_template test_classes empty_sheet cars_spec)
    cars_spec 2%positive = Some (2, 6).
Proof.
  destruct (template_block_located test_classes cars_spec 1 2%positive)
    as (_ & _ & c & Hfound & Hc & _ & Hplaced & _).
  - simpl. lia.
  - simpl. lia.
  - discriminate.
  - simpl. lia.
  - intros t Ht. simpl in Ht.
    apply elem_of_cons in Ht as [->|Ht]; [discriminate|].
    apply elem_of_cons in Ht as [->|Ht]; [discriminate|].
    by apply not_elem_of_nil in Ht.
  - reflexivity.
  - intros c Hc. apply list_elem_of_In in Hc. simpl in Hc.
    destruct Hc as [<- | [<- | Hf] ]; [| |destruct Hf];
      eexists; (split; [reflexivity|discriminate]).
  - rewrite Hfound. f_equal. f_equal. apply Hplaced.
    intros c' Hc'. change (block_start test_classes cars_spec 1 (models cars_spec) 1)
      with 6 in Hc'.
    assert (c' = 1 \/ c' = 2 \/ c' = 3 \/ c' = 4 \/ c' = 5) as Hcases by lia.
    destruct Hcases as [-> | [-> | [-> | [-> | ->]]]]; vm_compute; discriminate.
Defined.

(** * Further properties *)

(** ** Strings *)

(** The list is empty or starts with a character that is not white
    space. *)
Definition no_leading_space (l : list ascii) : Prop :=
  match l with
  | c :: _ => is_space c = false
  | [] => True
  end.

Lemma lstrip_no_leading_space (l : list ascii) : no_leading_space (lstrip_chars l).
Proof.
  induction l as [|c l IH]; simpl; [exact I|].
  destruct (is_space c) eqn:Hc; [exact IH|exact Hc].
Qed.

Lemma lstrip_fixed (l : list ascii) : no_leading_space l -> lstrip_chars l = l.
Proof. destruct l as [|c l]; simpl; [reflexivity|]. by intros ->. Qed.

Lemma lstrip_snoc (l : list ascii) (c : ascii) :
  is_space c = false -> lstrip_chars (l ++ [c]) = lstrip_chars l ++ [c].
Proof.
  intros Hc. induction l as [|a l IH]; simpl.
  - by rewrite Hc.
  - destruct (is_space a); [exact IH|reflexivity].
Qed.

Lemma strip_chars_no_leading_space (l : list ascii) : no_leading_space (strip_chars l).
Proof.
  unfold strip_chars. pose proof (lstrip_no_leading_space l) as Ha.
  destruct (lstrip_chars l) as [|c a]; [exact I|]. simpl in Ha.
  simpl rev. rewrite lstrip_snoc by exact Ha. rewrite rev_app_distr. exact Ha.
Qed.

Lemma strip_chars_fixed (l : list ascii) :
  no_leading_space l -> no_leading_space (rev l) -> strip_chars l = l.
Proof.
  intros Hl Hr. unfold strip_chars.
  rewrite (lstrip_fixed l Hl), (lstrip_fixed (rev l) Hr). apply rev_involutive.
Qed.

Lemma strip_chars_idempotent (l : list ascii) : strip_chars (strip_chars l) = strip_chars l.
Proof.
  apply strip_chars_fixed; [apply strip_chars_no_leading_space|].
  unfold strip_chars. rewrite rev_involutive. apply lstrip_no_leading_space.
Qed.

Lemma strip_idempotent (s : string) : strip (strip s) = strip s.
Proof.
  unfold strip. rewrite list_ascii_of_string_of_list_ascii.
  by rewrite strip_chars_idempotent.
Qed.

(** X1. Normalizing a header is idempotent: a cell that holds an
    already normalized label normalizes to that label. *)
Theorem normalize_header_idempotent (v : value) :
  _normalize_header (VStr (_normalize_header v)) = _normalize_header v.
Proof.
  unfold _normalize_header at 1. simpl.
  destruct v; simpl; try apply strip_idempotent. reflexivity.
Qed.

(** X2. Text parsing with trimming returns a text without white space
    at either end, on which parsing again changes nothing. *)
Theorem text_parse_stable (raw : value) :
  exists s, text_parse true raw = Ok (VStr s) /\
            no_leading_space (chars s) /\ no_leading_space (rev (chars s)) /\
            text_parse true (VStr s) = Ok (VStr s).
Proof.
  destruct (is_none raw) eqn:Hn.
  - exists "". unfold text_parse. rewrite Hn. repeat split; reflexivity.
  - exists (strip (str raw)). unfold text_parse. rewrite Hn. simpl.
    split; [reflexivity|]. unfold strip at 1 2.
    rewrite list_ascii_of_string_of_list_ascii. split; [|split].
    + apply strip_chars_no_leading_space.
    + unfold strip_chars. rewrite rev_involutive. apply lstrip_no_leading_space.
    + by rewrite strip_idempotent.
Qed.

(** ** Names *)

Definition no_capital (l : list ascii) : bool := forallb (fun c => negb (is_upper c)) l.

Lemma to_lower_not_upper (c : ascii) : is_upper (to_lower c) = false.
Proof.
  destruct c as [[] [] [] [] [] [] [] []]; reflexivity.
Qed.

Lemma sub_word_no_capital (l : list ascii) (m : sub_mode) :
  no_capital l = true -> sub_word m l = l.
Proof.
  revert m. induction l as [|c t IH]; intros m Hl; [reflexivity|].
  simpl in Hl. apply andb_true_iff in Hl as [Hc Ht].
  assert (forall m', sub_word m' t = t) as IH' by (intros m'; by apply IH).
  assert (match t with
          | u :: v :: _ =>
              if negb (Ascii.eqb c newline) && is_upper u && is_lower v
              then c :: "_"%char :: sub_word Cap t
              else c :: sub_word Scan t
          | _ => c :: sub_word Scan t
          end = c :: t) as Hscan.
  { destruct t as [|u [|v t']]; rewrite ?IH'; try reflexivity.
    simpl in Ht. apply andb_true_iff in Ht as [Hu _].
    apply negb_true_iff in Hu. rewrite Hu, andb_false_r. reflexivity. }
  simpl. destruct m.
  - exact Hscan.
  - by rewrite IH'.
  - destruct (is_lower c); [by rewrite IH'|exact Hscan].
Qed.

Lemma sub_hump_no_capital (l : list ascii) (skip : bool) :
  no_capital l = true -> sub_hump skip l = l.
Proof.
  revert skip. induction l as [|c t IH]; intros skip Hl; [reflexivity|].
  simpl in Hl. apply andb_true_iff in Hl as [Hc Ht]. simpl.
  destruct skip; [by rewrite IH|].
  destruct t as [|u t']; [reflexivity|].
  assert (is_upper u = false) as Hu.
  { simpl in Ht. apply andb_true_iff in Ht as [Hu _]. by apply negb_true_iff in Hu. }
  rewrite Hu, andb_false_r. by rewrite IH.
Qed.

Lemma map_to_lower_no_capital (l : list ascii) :
  no_capital l = true -> map to_lower l = l.
Proof.
  induction l as [|c t IH]; intros Hl; [reflexivity|].
  simpl in Hl. apply andb_true_iff in Hl as [Hc Ht]. simpl.
  rewrite (IH Ht). unfold to_lower. apply negb_true_iff in Hc. by rewrite Hc.
Qed.

(** X3. The snake form of a name has no capital letter, and a name
    without capital letters is its own snake form; so converting twice
    is converting once. *)
Theorem camel_to_snake_fixed :
  (forall name, no_capital (chars (_camel_to_snake name)) = true) /\
  (forall name, no_capital (chars name) = true -> _camel_to_snake name = name) /\
  (forall name, _camel_to_snake (_camel_to_snake name) = _camel_to_snake name).
Proof.
  assert (forall name, no_capital (chars (_camel_to_snake name)) = true) as Hlow.
  { intros name. unfold _camel_to_snake, lower.
    rewrite !list_ascii_of_string_of_list_ascii.
    unfold no_capital. rewrite forallb_forall. intros c Hc.
    apply in_map_iff in Hc as (c' & <- & _). by rewrite to_lower_not_upper. }
  assert (forall name, no_capital (chars name) = true -> _camel_to_snake name = name)
    as Hfix.
  { intros name Hn. unfold _camel_to_snake, lower.
    rewrite (sub_word_no_capital _ _ Hn), (sub_hump_no_capital _ _ Hn).
    rewrite !string_of_list_ascii_of_string.
    rewrite (map_to_lower_no_capital _ Hn). apply string_of_list_ascii_of_string. }
  split; [exact Hlow|]. split; [exact Hfix|].
  intros name. apply Hfix, Hlow.
Qed.

Lemma camel_to_snake_fixed_witness : _camel_to_snake "manufacturing_plant" = "manufacturing_plant".
Proof. apply (proj1 (proj2 camel_to_snake_fixed)). reflexivity. Defined.



(** ** Records *)

(** [Column.__get__] on a record: [obj._values.get(self.name)]. *)
Definition get_field (self : Column) (obj : Obj) : value :=
  default VNone (obj !! col_name self).

(** The record of a surviving row: fields parsed and set in schema
    order, then the whole-record check. *)
Definition build_record (model : Class) (row_vals : list value) : result Obj :=
  bind_result (set_fields (_instantiate_model model)
                 (zip (_get_model_columns model) row_vals))
    (fun obj =>
       match cls_validate model with
       | Some hook => bind_result (hook obj) (fun _ => Ok obj)
       | None => Ok obj
       end).

Lemma load_row_build (model : Class) (repo : loc) (row_vals : list value) (st : store) :
  load_row model repo row_vals st =
    match build_record model row_vals with
    | Ok obj => (<[repo := contents repo st ++ [obj]]> st, Ok tt)
    | Raise e => (st, Raise e)
    end.
Proof.
  unfold load_row, build_record, bind, lift, bind_result.
  destruct (set_fields _ _) as [obj|e]; [|reflexivity].
  destruct (cls_validate model) as [hook|]; [|reflexivity].
  destruct (hook obj) as [[]|e]; reflexivity.
Qed.

(** X5. Setting a field stores the value only if it passes the
    column's validation; the value is then what reading the field
    returns, and the other fields are as they were. *)
Theorem set_field_get_field (obj : Obj) (col : Column) (v : value) :
  (validate col v = Ok tt ->
   exists obj', set_field obj col v = Ok obj' /\
                get_field col obj' = v /\
                forall other, col_name other <> col_name col ->
                              get_field other obj' = get_field other obj) /\
  (forall e, validate col v = Raise e -> set_field obj col v = Raise e).
Proof.
  unfold set_field, get_field. split.
  - intros ->. simpl. eexists. split; [reflexivity|]. split.
    + by rewrite lookup_insert_eq.
    + intros other Hne. by rewrite lookup_insert_ne.
  - intros e ->. reflexivity.
Qed.

Lemma set_field_get_field_witness :
  exists obj', set_field ∅ (int_column (Some "Year") None VNone true "year") (VInt 2020)
               = Ok obj' /\
               get_field (int_column (Some "Year") None VNone true "year") obj' = VInt 2020.
Proof.
  destruct (proj1 (set_field_get_field ∅ (int_column (Some "Year") None VNone true "year")
                     (VInt 2020)) eq_refl) as (obj' & Hset & Hget & _).
  exists obj'. split; [exact Hset|exact Hget].
Defined.

(** A column that must not be null rejects [None] and the empty
    string, with a message that names the field; any other value goes
    to the column's own validator. *)
Theorem validate_not_null (col : Column) (v : value) :
  spec_not_null (col_spec col) = true ->
  (v = VNone \/ v = VStr "" ->
   validate col v = Raise (ValueError (col_name col +:+ " cannot be null/empty"))) /\
  (v <> VNone -> v <> VStr "" -> validate col v = spec_validator (col_spec col) v).
Proof.
  intros Hnn. unfold validate. rewrite Hnn. split.
  - intros [-> | ->]; reflexivity.
  - intros Hnone Hempty.
    destruct v as [|s| | | |]; try reflexivity; [contradiction|].
    simpl. destruct (String.eqb s "") eqn:Hs; [|reflexivity].
    apply String.eqb_eq in Hs. subst s. contradiction.
Qed.

Lemma validate_not_null_witness :
  validate (text_column (Some "Make") None VNone true true "make") (VStr "")
  = Raise (ValueError "make cannot be null/empty").
Proof.
  apply (proj1 (validate_not_null (text_column (Some "Make") None VNone true true "make")
                  (VStr "") eq_refl)).
  by right.
Defined.

Lemma instantiate_fold (cols : list Column) (vals : Obj) (name : string) :
  (forall col, col ∈ cols -> col_name col <> name) ->
  fold_left (fun (vals : Obj) col => <[col_name col := spec_default (col_spec col)]> vals)
    cols vals !! name = vals !! name.
Proof.
  revert vals. induction cols as [|c cols IH]; intros vals Hnot; [reflexivity|].
  simpl. rewrite IH.
  - apply lookup_insert_ne. apply Hnot. apply list_elem_of_here.
  - intros col Hcol. apply Hnot. by apply list_elem_of_further.
Qed.

(** X6. A new record holds the default of every column of its class
    (when no two columns share a name) and nothing else. *)
Theorem instantiate_model_defaults (model : Class) :
  NoDup (map col_name (_get_model_columns model)) ->
  (forall col, col ∈ _get_model_columns model ->
               _instantiate_model model !! col_name col = Some (spec_default (col_spec col))) /\
  (forall name, (forall col, col ∈ _get_model_columns model -> col_name col <> name) ->
                _instantiate_model model !! name = None).
Proof.
  unfold _instantiate_model. intros Hnd. split.
  - generalize (∅ : Obj) as vals.
    induction (_get_model_columns model) as [|c cols IH]; intros vals col Hcol.
    + by apply not_elem_of_nil in Hcol.
    + simpl in Hnd. apply NoDup_cons in Hnd as [Hnin Hnd]. simpl.
      apply elem_of_cons in Hcol as [->|Hcol]; [|by apply IH].
      rewrite instantiate_fold; [apply lookup_insert_eq|].
      intros col Hcol Heq. apply Hnin. rewrite <- Heq. by apply list_elem_of_fmap_2.
  - intros name Hnot. rewrite instantiate_fold by exact Hnot. apply lookup_empty.
Qed.

Lemma instantiate_model_defaults_witness :
  _instantiate_model Car !! "year" = Some VNone.
Proof.
  assert (NoDup (map col_name (_get_model_columns Car))) as Hnd.
  { simpl. repeat (apply NoDup_cons; split;
      [intros Hin; repeat (apply elem_of_cons in Hin as [Hin|Hin]; [discriminate|]);
       by apply not_elem_of_nil in Hin|]).
    apply NoDup_nil_2. }
  apply (proj1 (instantiate_model_defaults Car Hnd)
           (int_column (Some "Year") None VNone true "year")).
  apply list_elem_of_In. simpl. auto.
Defined.

Lemma set_fields_lookup (fields : list (Column * value)) (obj obj' : Obj) :
  NoDup (map (fun f => col_name (fst f)) fields) ->
  set_fields obj fields = Ok obj' ->
  (forall col raw, (col, raw) ∈ fields ->
     exists parsed, parse_cell col raw = Ok parsed /\ validate col parsed = Ok tt /\
                    obj' !! col_name col = Some parsed) /\
  (forall name, (forall col raw, (col, raw) ∈ fields -> col_name col <> name) ->
                obj' !! name = obj !! name).
Proof.
  revert obj. induction fields as [|[c r] fields IH]; intros obj Hnd Hset; simpl in *.
  - injection Hset as <-. split; [|done].
    intros col raw Hin. by apply not_elem_of_nil in Hin.
  - apply NoDup_cons in Hnd as [Hnin Hnd].
    destruct (parse_cell c r) as [parsed|e] eqn:Hparse; [|discriminate].
    unfold bind_result at 1 in Hset. unfold set_field in Hset.
    destruct (validate c parsed) as [[]|e] eqn:Hval; [|discriminate].
    unfold bind_result at 1 2 in Hset.
    destruct (IH _ Hnd Hset) as [Hin Hout].
    assert (forall col raw, (col, raw) ∈ fields -> col_name col <> col_name c) as Hfresh.
    { intros col raw Hcol Heq. apply Hnin. rewrite <- Heq.
      by apply (list_elem_of_fmap_2 (fun f => col_name (fst f)) _ (col, raw)). }
    split.
    + intros col raw Hcol. apply elem_of_cons in Hcol as [[= -> ->]|Hcol]; [|by eapply Hin].
      exists parsed. split; [done|]. split; [done|].
      rewrite (Hout _ Hfresh). apply lookup_insert_eq.
    + intros name Hname. rewrite Hout.
      * apply lookup_insert_ne. apply (Hname c r). apply list_elem_of_here.
      * intros col raw Hcol. apply (Hname col raw). by apply list_elem_of_further.
Qed.

(** X7. In a record built from a row, every field holds the parsed
    raw cell of its column, the value has passed the column's
    validation, and a field that must not be null holds neither
    [None] nor the empty string. *)
Theorem build_record_fields (model : Class) (row_vals : list value) (obj : Obj) :
  NoDup (map col_name (_get_model_columns model)) ->
  length row_vals = length (_get_model_columns model) ->
  build_record model row_vals = Ok obj ->
  forall (i : nat) (col : Column) (raw : value),
    _get_model_columns model !! i = Some col -> row_vals !! i = Some raw ->
    exists parsed,
      parse_cell col raw = Ok parsed /\ validate col parsed = Ok tt /\
      get_field col obj = parsed /\
      (spec_not_null (col_spec col) = true -> parsed <> VNone /\ parsed <> VStr "").
Proof.
  intros Hnd Hlen Hbuild i col raw Hcol Hraw. unfold build_record in Hbuild.
  destruct (set_fields _ _) as [obj0|e] eqn:Hset; [|discriminate]. simpl in Hbuild.
  assert (obj0 = obj) as ->.
  { destruct (cls_validate model) as [hook|]; [|by injection Hbuild].
    destruct (hook obj0) as [[]|e]; [by injection Hbuild|discriminate]. }
  apply set_fields_lookup in Hset as [Hin _].
  - destruct (Hin col raw) as (parsed & Hparse & Hval & Hget).
    { apply list_elem_of_lookup. exists i. by rewrite lookup_zip_with, Hcol, Hraw. }
    exists parsed. split; [done|]. split; [done|]. split.
    + unfold get_field. by rewrite Hget.
    + intros Hnn. unfold validate in Hval. rewrite Hnn in Hval. simpl in Hval.
      split; intros ->; discriminate.
  - replace (map (fun f => col_name (fst f)) (zip (_get_model_columns model) row_vals))
      with (map col_name (_get_model_columns model)); [exact Hnd|].
    rewrite <- (map_map fst col_name). f_equal. symmetry.
    apply (fst_zip (_get_model_columns model) row_vals). lia.
Qed.

Lemma build_record_fields_witness :
  exists parsed,
    parse_cell (int_column (Some "Year") None VNone true "year") (VStr "2019") = Ok parsed /\
    get_field (int_column (Some "Year") None VNone true "year") (car "Honda" "Civic" 2019)
    = parsed.
Proof.
  assert (NoDup (map col_name (_get_model_columns Car))) as Hnd.
  { simpl. repeat (apply NoDup_cons; split;
      [intros Hin; repeat (apply elem_of_cons in Hin as [Hin|Hin]; [discriminate|]);
       by apply not_elem_of_nil in Hin|]).
    apply NoDup_nil_2. }
  destruct (build_record_fields Car [VStr "Honda"; VStr "Civic"; VStr "2019"]
              (car "Honda" "Civic" 2019) Hnd eq_refl ltac:(vm_compute; reflexivity)
              2%nat (int_column (Some "Year") None VNone true "year") (VStr "2019")
              eq_refl eq_refl) as (parsed & Hparse & _ & Hget & _).
  exists parsed. split; [exact Hparse|exact Hget].
Defined.

(** ** Scanning a block *)

(** The rows of a block from row [r] down to the first blank row or
    the end of the sheet, [n] rows being left. *)
Fixpoint data_rows (ws : Worksheet) (width : nat) (start_col r : Z) (n : nat)
  : list (list value) :=
  match n with
  | O => []
  | S k =>
      let row_vals := row_values ws r start_col width in
      if _row_is_blank row_vals then []
      else row_vals :: data_rows ws width start_col (r + 1) k
  end.

(** The data rows of the block of a class that are not excluded. *)
Definition block_rows (ws : Worksheet) (model : Class) (start_col r : Z)
  : list (list value) :=
  List.filter (fun row_vals => negb (excluded (_get_model_columns model) row_vals))
    (data_rows ws (length (_get_model_columns model)) start_col r
       (Z.to_nat (max_row ws + 1 - r))).

(** Row by row, the records are those of the rows. *)
Definition records_of (model : Class) (rows : list (list value)) (objs : list Obj) : Prop :=
  Forall2 (fun row_vals obj => build_record model row_vals = Ok obj) rows objs.

Lemma scan_rows_data_rows (ws : Worksheet) (model : Class) (repo : loc) (start_col : Z)
    (n : nat) (r : Z) :
  scan_rows ws model repo start_col r n =
    load_rows model repo
      (data_rows ws (length (_get_model_columns model)) start_col r n).
Proof.
  revert r. induction n as [|n IH]; intros r; [reflexivity|]. simpl.
  destruct (_row_is_blank _); [reflexivity|]. simpl. by rewrite IH.
Qed.

Lemma load_rows_outcome (model : Class) (repo : loc) (rows : list (list value)) (st : store) :
  let kept := List.filter (fun row_vals =>
                             negb (excluded (_get_model_columns model) row_vals)) rows in
  match load_rows model repo rows st with
  | (st', Ok _) =>
      exists objs, records_of model kept objs /\
                   contents repo st' = contents repo st ++ objs
  | (st', Raise e) =>
      exists pre row_vals post objs,
        kept = pre ++ row_vals :: post /\ records_of model pre objs /\
        build_record model row_vals = Raise e /\
        contents repo st' = contents repo st ++ objs
  end.
Proof.
  revert st. induction rows as [|row rows IH]; intros st; simpl.
  - exists []. split; [constructor|]. by rewrite app_nil_r.
  - destruct (excluded (_get_model_columns model) row) eqn:Hex; simpl; [apply IH|].
    unfold bind. rewrite load_row_build.
    destruct (build_record model row) as [obj|e] eqn:Hbuild.
    + specialize (IH (<[repo := contents repo st ++ [obj]]> st)).
      rewrite contents_insert in IH.
      destruct (load_rows model repo rows _) as [st' [[]|e]].
      * destruct IH as (objs & Hrec & Hc). exists (obj :: objs).
        split; [by constructor|]. by rewrite Hc, <- app_assoc.
      * destruct IH as (pre & bad & post & objs & Hk & Hrec & Hbad & Hc).
        exists (row :: pre), bad, post, (obj :: objs).
        split; [by rewrite Hk|]. split; [by constructor|]. split; [done|].
        by rewrite Hc, <- app_assoc.
    + eexists [], row, _, []. split; [reflexivity|]. split; [constructor|].
      split; [done|]. by rewrite app_nil_r.
Qed.

(** X8. Scanning a block only appends to the repository, in row
    order.  When it succeeds, the records appended are those of the
    data rows that are not excluded, one for one.  When it fails, the
    error is that of the first such row whose record cannot be built,
    the records of the rows before it have been appended, and no
    later row has left anything. *)
Theorem scan_from_outcome (ws : Worksheet) (model : Class) (repo : loc) (start_col r : Z)
    (st : store) :
  (forall l, l <> repo ->
             (scan_from ws model repo start_col r st).1 !! l = st !! l) /\
  match scan_from ws model repo start_col r st with
  | (st', Ok _) =>
      exists objs, records_of model (block_rows ws model start_col r) objs /\
                   contents repo st' = contents repo st ++ objs
  | (st', Raise e) =>
      exists pre row_vals post objs,
        block_rows ws model start_col r = pre ++ row_vals :: post /\
        records_of model pre objs /\
        build_record model row_vals = Raise e /\
        contents repo st' = contents repo st ++ objs
  end.
Proof.
  split.
  - intros l Hl. apply (writes_scan_rows ws model repo start_col). congruence.
  - unfold scan_from, block_rows. rewrite scan_rows_data_rows. apply load_rows_outcome.
Qed.

(** A year that is not a number, between two good rows. *)
Definition bad_year_sheet : Worksheet :=
  sheet_of_rows
    [ [VStr "Cars"; VNone; VNone];
      [VStr "Make"; VStr "Model"; VStr "Year"];
      [VStr "Toyota"; VStr "Camry"; VInt 2020];
      [VStr "Honda"; VStr "Civic"; VStr "new"];
      [VStr "Ford"; VStr "Focus"; VInt 2018] ].

Example scan_from_bad_year :
  scan_from bad_year_sheet Car 1%positive 1 3 ∅
  = ({[ 1%positive := [car "Toyota" "Camry" 2020] ]},
     Raise (ValueError "invalid literal for int() with base 10: 'new'")).
Proof. vm_compute. reflexivity. Qed.

Lemma scan_from_outcome_witness :
  (scan_from bad_year_sheet Car 1%positive 1 3 {[ 2%positive := [] ]}).1 !! 2%positive
  = Some [].
Proof.
  rewrite (proj1 (scan_from_outcome bad_year_sheet Car 1%positive 1 3 {[ 2%positive := [] ]})
             2%positive ltac:(discriminate)).
  apply lookup_singleton_eq.
Defined.

(** ** A successful load *)

Lemma bind_Ok {A B} (m : M A) (k : A -> M B) (st st' : store) (b : B) :
  bind m k st = (st', Ok b) ->
  exists st1 a, m st = (st1, Ok a) /\ k a st1 = (st', Ok b).
Proof.
  unfold bind. destruct (m st) as [st1 [a|e]]; [eauto|discriminate].
Qed.

Lemma load_rows_keeps_list (model : Class) (repo : loc) (rows : list (list value))
    (st : store) :
  is_Some (st !! repo) -> is_Some ((load_rows model repo rows st).1 !! repo).
Proof.
  revert st. induction rows as [|row rows IH]; intros st Hst; simpl; [exact Hst|].
  destruct (excluded _ row); [by apply IH|].
  unfold bind. rewrite load_row_build.
  destruct (build_record model row) as [obj|e]; [|exact Hst].
  apply IH. rewrite lookup_insert_eq. eauto.
Qed.

Section LoadRecords.
Variable class_of : typ -> Class.

Lemma parse_models_app (self : ExcelFile) (ws : Worksheet) (spec : SheetSpec)
    (ms1 ms2 : list typ) (st : store) :
  parse_models class_of self ws spec (ms1 ++ ms2) st =
    match parse_models class_of self ws spec ms1 st with
    | (st', Ok _) => parse_models class_of self ws spec ms2 st'
    | (st', Raise e) => (st', Raise e)
    end.
Proof.
  revert st. induction ms1 as [|m ms1 IH]; intros st; simpl; [reflexivity|].
  unfold bind. destruct (parse_model class_of self ws spec m st) as [st1 [[]|e]];
    [apply IH|reflexivity].
Qed.

(** A repository is written by the block of its own class only. *)
Lemma parse_models_other (self : ExcelFile) (ws : Worksheet) (spec : SheetSpec)
    (ms : list typ) (model : typ) (l : loc) (st : store) :
  (forall t1 t2 l', _repos self !! t1 = Some l' -> _repos self !! t2 = Some l' -> t1 = t2) ->
  _repos self !! model = Some l -> model ∉ ms ->
  (parse_models class_of self ws spec ms st).1 !! l = st !! l.
Proof.
  intros Hinj Hl Hnot. apply (writes_parse_models class_of self ws spec ms).
  intros (t & Hin & Ht & _). apply Hnot. by rewrite (Hinj model t l Hl Ht).
Qed.

Lemma load_sheets_other (self : ExcelFile) (wb : Workbook) (specs : list SheetSpec)
    (model : typ) (l : loc) (st : store) :
  (forall t1 t2 l', _repos self !! t1 = Some l' -> _repos self !! t2 = Some l' -> t1 = t2) ->
  _repos self !! model = Some l -> model ∉ flat_map models specs ->
  (load_sheets class_of self wb specs st).1 !! l = st !! l.
Proof.
  intros Hinj Hl Hnot. apply (writes_load_sheets class_of self wb specs).
  intros (spec & ws & t & Hspec & _ & Ht & Hload & _). apply Hnot.
  rewrite (Hinj model t l Hl Hload). by apply (flat_map_elem models specs spec).
Qed.

(** X9. After a successful load by an orchestrator that [__init__]
    has built, the repository of a class whose header was found holds
    exactly the records of the data rows of its block that are not
    excluded, in row order, whatever it held before. *)
Theorem load_data_records (specs : list SheetSpec) (st0 st1 st st' : store)
    (self : ExcelFile) (wb : Workbook) (spec : SheetSpec) (model : typ)
    (ws : Worksheet) (r c : Z) :
  __init__ class_of specs st0 = (st1, Ok self) ->
  spec ∈ specs -> model ∈ models spec ->
  get_sheet wb (sheet_name spec) = Some ws ->
  _find_header class_of ws spec model = Some (r, c) ->
  load_data class_of self wb st = (st', Ok tt) ->
  exists objs,
    repository self model st' = Some objs /\
    records_of (class_of model)
      (block_rows ws (class_of model) c (data_start_row spec)) objs.
Proof.
  intros Hinit Hspec Hmodel Hws Hfound Hload.
  destruct (init_ok _ _ _ _ _ Hinit) as ([_ _ Hinj] & Hsheets & Hall & Hnd).
  destruct (Hall model (flat_map_elem _ _ _ _ Hspec Hmodel)) as [l Hl].
  apply list_elem_of_split in Hspec as (pre & post & ->).
  apply list_elem_of_split in Hmodel as (mpre & mpost & Hms).
  rewrite flat_map_app in Hnd. simpl in Hnd. rewrite Hms in Hnd.
  apply NoDup_app in Hnd as (_ & Hpre & Hnd).
  apply NoDup_app in Hnd as (Hnd & Hpost & _).
  apply NoDup_app in Hnd as (_ & Hmpre & Hnd).
  apply NoDup_cons in Hnd as [Hmpost _].
  assert (model ∉ flat_map models pre) as Hnpre.
  { intros Hin. apply (Hpre model Hin). apply elem_of_app. left.
    apply elem_of_app. right. apply list_elem_of_here. }
  assert (model ∉ flat_map models post) as Hnpost.
  { intros Hin. apply (Hpost model); [|exact Hin].
    apply elem_of_app. right. apply list_elem_of_here. }
  assert (model ∉ mpre) as Hnmpre.
  { intros Hin. apply (Hmpre model Hin). apply list_elem_of_here. }
  unfold repository. rewrite Hl.
  unfold load_data in Hload. apply bind_Ok in Hload as (stc & [] & Hclear & Hload).
  assert (stc !! l = Some []) as Hcleared.
  { pose proof (clear_all_lookup (map snd (map_to_list (_repos self))) st l) as Hlk.
    rewrite Hclear in Hlk. simpl in Hlk. rewrite Hlk.
    rewrite decide_True; [done|]. apply repo_locs_elem. eauto. }
  rewrite Hsheets, load_sheets_app in Hload.
  pose proof (load_sheets_other self wb pre model l stc Hinj Hl Hnpre) as Hfpre.
  destruct (load_sheets class_of self wb pre stc) as [sta [[]|e]]; [|discriminate].
  simpl in Hfpre, Hload.
  destruct (negb _); [discriminate|]. rewrite Hws in Hload.
  apply bind_Ok in Hload as (stb & [] & Hsheet & Hload).
  pose proof (load_sheets_other self wb post model l stb Hinj Hl Hnpost) as Hfpost.
  rewrite Hload in Hfpost. simpl in Hfpost. rewrite Hfpost.
  unfold _parse_sheet in Hsheet. rewrite Hms, parse_models_app in Hsheet.
  pose proof (parse_models_other self ws spec mpre model l sta Hinj Hl Hnmpre) as Hfmpre.
  destruct (parse_models class_of self ws spec mpre sta) as [stm [[]|e]]; [|discriminate].
  simpl in Hfmpre, Hsheet.
  apply bind_Ok in Hsheet as (stn & [] & Hblock & Hrest).
  pose proof (parse_models_other self ws spec mpost model l stn Hinj Hl Hmpost) as Hfmpost.
  rewrite Hrest in Hfmpost. simpl in Hfmpost. rewrite Hfmpost.
  unfold parse_model in Hblock. rewrite Hfound, Hl in Hblock.
  assert (stm !! l = Some []) as Hempty by (by rewrite Hfmpre, Hfpre).
  unfold scan_from in Hblock. rewrite scan_rows_data_rows in Hblock.
  pose proof (load_rows_outcome (class_of model) l
                (data_rows ws (length (_get_model_columns (class_of model))) c
                   (data_start_row spec) (Z.to_nat (max_row ws + 1 - data_start_row spec)))
                stm) as Hout.
  pose proof (load_rows_keeps_list (class_of model) l
                (data_rows ws (length (_get_model_columns (class_of model))) c
                   (data_start_row spec) (Z.to_nat (max_row ws + 1 - data_start_row spec)))
                stm ltac:(rewrite Hempty; eauto)) as Hkeep.
  rewrite Hblock in Hout, Hkeep. simpl in Hout, Hkeep.
  destruct Hout as (objs & Hrec & Hc). exists objs. split; [|exact Hrec].
  destruct Hkeep as [xs Hxs]. rewrite Hxs. f_equal.
  unfold contents in Hc. rewrite Hxs, Hempty in Hc. exact Hc.
Qed.
End LoadRecords.

Lemma load_data_records_witness :
  exists self st1 st' objs,
    __init__ test_classes [cars_spec] ∅ = (st1, Ok self) /\
    load_data test_classes self [("Cars", cars_sheet)] st1 = (st', Ok tt) /\
    repository self 2%positive st' = Some objs /\
    records_of ManufacturingPlant (block_rows cars_sheet ManufacturingPlant 6 3) objs.
Proof.
  assert (exists self st1 st',
             __init__ test_classes [cars_spec] ∅ = (st1, Ok self) /\
             load_data test_classes self [("Cars", cars_sheet)] st1 = (st', Ok tt))
    as (self & st1 & st' & Hinit & Hload).
  { eexists _, _, _. split; [vm_compute; reflexivity|]. vm_compute. reflexivity. }
  destruct (load_data_records test_classes [cars_spec] ∅ st1 st1 st' self
              [("Cars", cars_sheet)] cars_spec 2%positive cars_sheet 2 6 Hinit)
    as (objs & Hrepo & Hrec).
  - apply list_elem_of_here.
  - apply list_elem_of_further, list_elem_of_here.
  - vm_compute. reflexivity.
  - vm_compute. reflexivity.
  - exact Hload.
  - exists self, st1, st', objs. split; [exact Hinit|]. split; [exact Hload|].
    split; [exact Hrepo|exact Hrec].
Defined.

(** ** What a load reads and writes *)

(** The computation reads the store inside [P] only: on two stores
    that agree there it ends alike and leaves stores that agree
    there. *)
Definition reads_within {A} (P : loc -> Prop) (m : M A) : Prop :=
  forall st st' : store,
    (forall l, P l -> st !! l = st' !! l) ->
    (m st).2 = (m st').2 /\ forall l, P l -> (m st).1 !! l = (m st').1 !! l.

Lemma reads_pure {A} (P : loc -> Prop) (r : result A) : reads_within P (lift r).
Proof. intros st st' Hagree. split; [reflexivity|exact Hagree]. Qed.

Lemma reads_bind {A B} (P : loc -> Prop) (m : M A) (k : A -> M B) :
  reads_within P m -> (forall a, reads_within P (k a)) -> reads_within P (bind m k).
Proof.
  intros Hm Hk st st' Hagree. unfold bind.
  destruct (Hm st st' Hagree) as [Hres Hst].
  destruct (m st) as [st1 [a|e]], (m st') as [st1' [a'|e']]; simpl in *;
    try discriminate.
  - injection Hres as <-. by apply Hk.
  - injection Hres as <-. split; [reflexivity|exact Hst].
Qed.

Lemma reads_list_append (P : loc -> Prop) (repo : loc) (obj : Obj) :
  P repo -> reads_within P (list_append repo obj).
Proof.
  intros Hrepo st st' Hagree. unfold list_append, contents. simpl.
  split; [reflexivity|]. intros l Hl. rewrite (Hagree repo Hrepo).
  destruct (decide (repo = l)) as [->|Hne].
  - by rewrite !lookup_insert_eq.
  - rewrite !lookup_insert_ne by done. by apply Hagree.
Qed.

Lemma reads_scan_rows (P : loc -> Prop) (ws : Worksheet) (model : Class) (repo : loc)
    (start_col : Z) (n : nat) (r : Z) :
  P repo -> reads_within P (scan_rows ws model repo start_col r n).
Proof.
  intros Hrepo. revert r. induction n as [|n IH]; intros r; simpl;
    [apply (reads_pure P (Ok tt))|].
  destruct (_row_is_blank _); [apply (reads_pure P (Ok tt))|].
  destruct (excluded _ _); [apply IH|].
  apply reads_bind; [|intros _; apply IH].
  unfold load_row. apply reads_bind; [apply reads_pure|]. intros obj.
  apply reads_bind; [|intros _; by apply reads_list_append].
  destruct (cls_validate model); [apply reads_pure|apply (reads_pure P (Ok tt))].
Qed.

Section LoadReads.
Variable class_of : typ -> Class.
Variable self : ExcelFile.

(** The lists the orchestrator holds as repositories. *)
Definition is_repository (l : loc) : Prop := exists t, _repos self !! t = Some l.

Lemma reads_load_sheets (wb : Workbook) (specs : list SheetSpec) :
  reads_within is_repository (load_sheets class_of self wb specs).
Proof.
  induction specs as [|spec specs IH]; simpl; [apply (reads_pure _ (Ok tt))|].
  destruct (negb _); [apply (reads_pure _ (Raise _))|].
  destruct (get_sheet wb (sheet_name spec)) as [ws|]; [|apply (reads_pure _ (Raise _))].
  apply reads_bind; [|intros _; exact IH].
  unfold _parse_sheet. induction (models spec) as [|m ms IHm]; simpl;
    [apply (reads_pure _ (Ok tt))|].
  apply reads_bind; [|intros _; exact IHm].
  unfold parse_model. destruct (_find_header class_of ws spec m) as [[r c]|];
    [|apply (reads_pure _ (Ok tt))].
  destruct (_repos self !! m) as [repo|] eqn:Hrepo; [|apply (reads_pure _ (Raise _))].
  apply reads_scan_rows. by exists m.
Qed.

Lemma cleared_agree (st st' : store) (l : loc) :
  is_repository l ->
  (clear_all (map snd (map_to_list (_repos self))) st).1 !! l
  = (clear_all (map snd (map_to_list (_repos self))) st').1 !! l.
Proof.
  intros Hl. rewrite !clear_all_lookup.
  rewrite !decide_True; [done|by apply repo_locs_elem..].
Qed.

(** X10. What a load returns and leaves in the repositories depends
    on the document only, not on what the repositories, or any other
    list, held before; loading the same document again gives the same
    repositories. *)
Theorem load_data_forgets (wb : Workbook) (st st' : store) :
  (load_data class_of self wb st).2 = (load_data class_of self wb st').2 /\
  (forall t, repository self t (load_data class_of self wb st).1
             = repository self t (load_data class_of self wb st').1) /\
  (forall t, repository self t (load_data class_of self wb (load_data class_of self wb st).1).1
             = repository self t (load_data class_of self wb st).1).
Proof.
  assert (forall s s' : store,
             (load_data class_of self wb s).2 = (load_data class_of self wb s').2 /\
             forall l, is_repository l ->
                       (load_data class_of self wb s).1 !! l
                       = (load_data class_of self wb s').1 !! l) as Hgen.
  { intros s s'. unfold load_data, bind.
    pose proof (clear_all_ok (map snd (map_to_list (_repos self))) s) as Hok.
    pose proof (clear_all_ok (map snd (map_to_list (_repos self))) s') as Hok'.
    pose proof (fun l => cleared_agree s s' l) as Hagree.
    destruct (clear_all _ s) as [sc r], (clear_all _ s') as [sc' r'].
    simpl in *. subst r r'. by apply reads_load_sheets. }
  assert (forall s s' t,
             repository self t (load_data class_of self wb s).1
             = repository self t (load_data class_of self wb s').1) as Hrepo.
  { intros s s' t. unfold repository.
    destruct (_repos self !! t) as [l|] eqn:Hl; [|reflexivity].
    apply Hgen. by exists t. }
  split; [apply Hgen|]. split; [apply Hrepo|]. intros t. apply Hrepo.
Qed.

(** X11. A load writes the repositories and nothing else: any other
    list, such as one that [all] returned earlier, is left as it was,
    whether the load succeeds or fails. *)
Theorem load_data_keeps_other_lists (wb : Workbook) (st : store) (l : loc) :
  ~ is_repository l ->
  (load_data class_of self wb st).1 !! l = st !! l.
Proof.
  intros Hl. unfold load_data, bind.
  pose proof (clear_all_lookup (map snd (map_to_list (_repos self))) st l) as Hclear.
  pose proof (clear_all_ok (map snd (map_to_list (_repos self))) st) as Hok.
  destruct (clear_all _ st) as [sc r]. simpl in *. subst r.
  rewrite decide_False in Hclear by (intros Hin; by apply repo_locs_elem in Hin).
  rewrite (writes_load_sheets class_of self wb (sheets self) sc l); [exact Hclear|].
  intros (spec & ws & t & _ & _ & _ & Hload & _). apply Hl. by exists t.
Qed.
End LoadReads.

Lemma load_data_keeps_other_lists_witness :
  (load_data test_classes (mk_ExcelFile [cars_spec] {[ 1%positive := 1%positive ]} ∅)
     wrong_workbook
     {[ 1%positive := [car "Toyota" "Camry" 2020]; 2%positive := [car "Toyota" "Camry" 2020] ]}).1
    !! 2%positive
  = Some [car "Toyota" "Camry" 2020].
Proof.
  rewrite load_data_keeps_other_lists; [reflexivity|].
  intros [t Ht]. cbn [_repos] in Ht. destruct (decide (t = 1%positive)) as [->|Hne].
  - rewrite lookup_singleton_eq in Ht. discriminate.
  - rewrite lookup_singleton_ne in Ht by done. discriminate.
Defined.

(** X12. [__init__] leaves every list that exists as it is, whether
    it succeeds or fails: it only makes new ones. *)
Theorem init_keeps_lists (class_of : typ -> Class) (specs : list SheetSpec)
    (st st' : store) (r : result ExcelFile) (l : loc) :
  __init__ class_of specs st = (st', r) ->
  is_Some (st !! l) -> st' !! l = st !! l.
Proof.
  unfold __init__. generalize (mk_ExcelFile specs ∅ ∅) as self.
  revert st. induction (flat_map models specs) as [|t ms IH]; intros st self; simpl.
  - by intros [= <- _].
  - unfold bind, register.
    destruct (hasattr self (repo_name class_of t)); [by intros [= <- _]|].
    simpl. intros Hrun Hl.
    rewrite (IH _ _ Hrun).
    + apply lookup_insert_ne. by apply fresh_not_in_store.
    + rewrite lookup_insert_ne; [done|]. by apply fresh_not_in_store.
Qed.

Lemma init_keeps_lists_witness :
  (__init__ test_classes [cars_spec] {[ 1%positive := [car "Toyota" "Camry" 2020] ]}).1
    !! 1%positive
  = Some [car "Toyota" "Camry" 2020].
Proof.
  rewrite (init_keeps_lists test_classes [cars_spec] _ _ _ 1%positive
             (surjective_pairing _)).
  - apply lookup_singleton_eq.
  - rewrite lookup_singleton_eq. eauto.
Defined.

(** ** The layout of a template *)

Definition clamp_width (h : string) : Z := Z.max 12 (Z.min 40 (strlen h + 4)).

Lemma write_headers_layout (row start_col : Z) (headers : list string) (ws : Worksheet)
    (j : Z) :
  let ws' := write_headers ws row start_col j headers in
  (forall (i : nat) (h : string),
      headers !! i = Some h ->
      column_width ws' (start_col + j + Z.of_nat i) = Some (clamp_width h)) /\
  (forall c, c < start_col + j -> column_width ws' c = column_width ws c) /\
  (forall r c, r <> row -> cell_value ws' r c = cell_value ws r c).
Proof.
  revert ws j. induction headers as [|h headers IH]; intros ws j; simpl.
  - split; [intros i h Hi; discriminate|]. split; done.
  - set (ws2 := set_column_width (write_cell ws row (start_col + j) (VStr h)) (start_col + j)
                  (Z.max 12 (Z.min 40 (strlen h + 4)))).
    destruct (IH ws2 (j + 1)) as (Hwidths & Hframe & Hrows).
    split; [|split].
    + intros [|i] h' Hi; simpl in Hi.
      * injection Hi as <-. rewrite Z.add_0_r, Hframe by lia.
        simpl. by rewrite Z.eqb_refl.
      * replace (start_col + j + Z.of_nat (S i)) with (start_col + (j + 1) + Z.of_nat i)
          by lia.
        by apply Hwidths.
    + intros c Hc. rewrite Hframe by lia. simpl.
      destruct (c =? start_col + j) eqn:Hcj; [lia|reflexivity].
    + intros r c Hr. rewrite Hrows by done. simpl.
      destruct (r =? row) eqn:Hrr; [lia|reflexivity].
Qed.

Section TemplateLayout.
Variable class_of : typ -> Class.
Variable spec : SheetSpec.
Hypothesis gap_nonneg : 0 <= template_table_gap spec.

Definition block_width (m : typ) : Z := Z.of_nat (length (_get_model_columns (class_of m))).

Lemma write_blocks_rest (ms : list typ) (ws : Worksheet) (current_col : Z) :
  let ws' := write_blocks class_of ws spec current_col ms in
  (forall c, c < current_col -> column_width ws' c = column_width ws c) /\
  (forall r c, r <> title_row spec -> r <> header_row spec ->
               cell_value ws' r c = cell_value ws r c).
Proof.
  revert ws current_col. induction ms as [|m ms IH]; intros ws cur; simpl; [done|].
  set (headers := map header_or_name (_get_model_columns (class_of m))).
  set (width := Z.of_nat (length headers)).
  set (ws1 := merge_cells ws (title_row spec) cur (cur + width - 1)).
  set (ws2 := write_cell ws1 (title_row spec) cur (VStr (_display_name_for_model (class_of m)))).
  set (ws3 := write_headers ws2 (header_row spec) cur 0 headers).
  destruct (IH ws3 (cur + width - 1 + 1 + template_table_gap spec)) as [Hw Hc].
  destruct (write_headers_layout (header_row spec) cur headers ws2 0) as (_ & Hw3 & Hc3).
  fold ws3 in Hw3, Hc3.
  assert (0 <= width) by (unfold width; lia).
  split.
  - intros c Hlt. rewrite Hw by lia. rewrite Hw3 by lia. unfold ws2, ws1, merge_cells.
    simpl. by destruct (cur <? cur + width - 1).
  - intros r c Ht Hh. rewrite Hc, Hc3 by done. unfold ws2. simpl.
    destruct (r =? title_row spec) eqn:Hrt; [lia|]. simpl.
    unfold ws1, merge_cells. destruct (cur <? cur + width - 1); [|done].
    simpl. by rewrite Hrt.
Qed.

(** The start of block [k] is the cursor plus the widths and gaps of
    the blocks before it. *)
Lemma block_start_sum (k : nat) (ms : list typ) (current_col : Z) :
  (k <= length ms)%nat ->
  block_start class_of spec current_col ms k
  = current_col + foldr Z.add 0 (map (fun m => block_width m + template_table_gap spec)
                                    (take k ms)).
Proof.
  revert ms current_col. induction k as [|k IH]; intros ms cur Hk; simpl.
  - destruct ms; simpl; lia.
  - destruct ms as [|m ms]; simpl in *; [lia|].
    rewrite IH by lia. unfold block_width. lia.
Qed.

Lemma write_blocks_layout (k : nat) (ms : list typ) (ws : Worksheet) (current_col : Z)
    (model : typ) :
  title_row spec <> header_row spec ->
  ms !! k = Some model -> 0 < block_width model ->
  let cols := _get_model_columns (class_of model) in
  let placed := block_start class_of spec current_col ms k in
  let ws' := write_blocks class_of ws spec current_col ms in
  cell_value ws' (title_row spec) placed = VStr (_display_name_for_model (class_of model)) /\
  (forall j, 0 < j < block_width model -> cell_value ws' (title_row spec) (placed + j) = VNone) /\
  (forall (i : nat) (col : Column),
      cols !! i = Some col ->
      column_width ws' (placed + Z.of_nat i) = Some (clamp_width (header_or_name col))).
Proof.
  intros Hrows. revert ms ws current_col. induction k as [|k IH]; intros [|m ms] ws cur Hk Hw;
    try discriminate; simpl in Hk.
  - injection Hk as ->. simpl.
    set (headers := map header_or_name (_get_model_columns (class_of model))).
    set (width := Z.of_nat (length headers)).
    assert (width = block_width model) as Hwidth
      by (unfold width, headers, block_width; by rewrite length_map).
    set (ws1 := merge_cells ws (title_row spec) cur (cur + width - 1)).
    set (ws2 := write_cell ws1 (title_row spec) cur
                  (VStr (_display_name_for_model (class_of model)))).
    set (ws3 := write_headers ws2 (header_row spec) cur 0 headers).
    destruct (write_blocks_frame class_of spec gap_nonneg ms ws3
                (cur + width - 1 + 1 + template_table_gap spec)) as [Hframe _].
    destruct (write_blocks_rest ms ws3 (cur + width - 1 + 1 + template_table_gap spec))
      as [Hwframe _].
    destruct (write_headers_layout (header_row spec) cur headers ws2 0)
      as (Hwidths & _ & Hother). fold ws3 in Hwidths, Hother.
    split; [|split].
    + rewrite Hframe by lia. rewrite Hother by done. unfold ws2. simpl.
      by rewrite !Z.eqb_refl.
    + intros j Hj. rewrite Hframe by lia. rewrite Hother by done. unfold ws2. simpl.
      destruct (cur + j =? cur) eqn:Hc; [lia|]. rewrite andb_false_r.
      unfold ws1, merge_cells.
      destruct (cur <? cur + width - 1) eqn:Hlt; [|lia]. simpl.
      rewrite Z.eqb_refl. simpl.
      destruct (cur <? cur + j) eqn:H1; [|lia].
      destruct (cur + j <=? cur + width - 1) eqn:H2; [reflexivity|lia].
    + intros i col Hi.
      assert (headers !! i = Some (header_or_name col)) as Hh
        by (unfold headers; by rewrite list_lookup_fmap, Hi).
      rewrite Hwframe.
      * rewrite <- (Hwidths i _ Hh). f_equal. lia.
      * apply lookup_lt_Some in Hi. unfold width, headers. rewrite length_map. lia.
  - simpl. rewrite length_map.
    apply (IH ms _ _ Hk Hw).
Qed.
End TemplateLayout.

(** X13. The layout of a template.  With a gap that is not negative
    and distinct title and header rows, block [k] of a sheet starts at
    column 1 plus the widths and gaps of the blocks before it.  There,
    for a class with at least one column, the title row holds the
    display name of the class at the start column and nothing in the
    rest of the block; the header row holds, column by column, the
    declared header or else the field name; each of these columns has
    a display width of the label's length plus 4, kept between 12 and
    40. *)
Theorem template_layout_blocks (class_of : typ -> Class) (spec : SheetSpec)
    (k : nat) (model : typ) :
  0 <= template_table_gap spec ->
  title_row spec <> header_row spec ->
  models spec !! k = Some model ->
  _get_model_columns (class_of model) <> [] ->
  let cols := _get_model_columns (class_of model) in
  let ws := _write_sheet_template class_of empty_sheet spec in
  let placed :=
    1 + foldr Z.add 0 (map (fun m => block_width class_of m + template_table_gap spec)
                           (take k (models spec))) in
  cell_value ws (title_row spec) placed = VStr (_display_name_for_model (class_of model)) /\
  (forall j, 0 < j < Z.of_nat (length cols) ->
             cell_value ws (title_row spec) (placed + j) = VNone) /\
  (forall (i : nat) (col : Column),
      cols !! i = Some col ->
      cell_value ws (header_row spec) (placed + Z.of_nat i) = VStr (header_or_name col) /\
      column_width ws (placed + Z.of_nat i) = Some (clamp_width (header_or_name col)) /\
      12 <= clamp_width (header_or_name col) <= 40).
Proof.
  intros Hgap Hrows Hk Hne cols ws placed.
  assert (0 < block_width class_of model) as Hw.
  { unfold block_width. destruct (_get_model_columns (class_of model)); [done|]. simpl. lia. }
  assert (placed = block_start class_of spec 1 (models spec) k) as Hplaced.
  { unfold placed. rewrite block_start_sum; [reflexivity|].
    apply lookup_lt_Some in Hk. lia. }
  destruct (write_blocks_layout class_of spec Hgap k (models spec) empty_sheet 1 model
              Hrows Hk Hw) as (Htitle & Hmerged & Hwidths).
  destruct (write_blocks_block class_of spec Hgap k (models spec) empty_sheet 1 model Hk)
    as (_ & Hcells & _).
  rewrite <- Hplaced in Htitle, Hmerged, Hwidths, Hcells.
  split; [exact Htitle|]. split; [exact Hmerged|].
  intros i col Hi. unfold cols in Hi. split; [|split].
  - apply Hcells. by rewrite list_lookup_fmap, Hi.
  - by apply Hwidths.
  - unfold clamp_width. lia.
Qed.

Lemma template_layout_blocks_witness :
  cell_value (_write_sheet_template test_classes empty_sheet cars_spec) 1 6
  = VStr "Manufacturing Plants".
Proof.
  apply (proj1 (template_layout_blocks test_classes cars_spec 1 2%positive
                  ltac:(simpl; lia) ltac:(discriminate) eq_refl ltac:(discriminate))).
Defined.

Lemma write_blocks_other_rows (class_of : typ -> Class) (spec : SheetSpec) (ms : list typ)
    (ws : Worksheet) (current_col : Z) (r c : Z) :
  r <> title_row spec -> r <> header_row spec ->
  cell_value (write_blocks class_of ws spec current_col ms) r c = cell_value ws r c.
Proof.
  intros Ht Hh. revert ws current_col. induction ms as [|m ms IH]; intros ws cur; simpl;
    [done|].
  rewrite IH.
  destruct (write_headers_layout (header_row spec) cur
              (map header_or_name (_get_model_columns (class_of m)))
              (write_cell (merge_cells ws (title_row spec) cur
                             (cur + Z.of_nat (length (map header_or_name
                                (_get_model_columns (class_of m)))) - 1))
                 (title_row spec) cur (VStr (_display_name_for_model (class_of m)))) 0)
    as (_ & _ & Hother).
  rewrite Hother by done. simpl.
  destruct (r =? title_row spec) eqn:Hrt; [lia|]. simpl.
  unfold merge_cells. destruct (cur <? _); [|done]. simpl. by rewrite Hrt.
Qed.

Lemma blank_row_of_none (ws : Worksheet) (r start_col : Z) (width : nat) :
  (forall c, cell_value ws r c = VNone) ->
  _row_is_blank (row_values ws r start_col width) = true.
Proof.
  intros Hnone. unfold _row_is_blank, row_values. apply forallb_forall.
  intros v Hv. apply in_map_iff in Hv as (j & <- & _). by rewrite Hnone.
Qed.

(** X14. Template generation writes the title row and the header row
    only; when the data start row is neither of them, parsing the
    freshly written sheet reads no record and raises no error. *)
Theorem fresh_template_loads_nothing (class_of : typ -> Class) (spec : SheetSpec)
    (self : ExcelFile) (st : store) :
  data_start_row spec <> title_row spec ->
  data_start_row spec <> header_row spec ->
  (forall t, t ∈ models spec -> is_Some (_repos self !! t)) ->
  let ws := _write_sheet_template class_of empty_sheet spec in
  (forall r c, r <> title_row spec -> r <> header_row spec -> cell_value ws r c = VNone) /\
  _parse_sheet class_of self ws spec st = (st, Ok tt).
Proof.
  intros Ht Hh Hrepos ws.
  assert (forall r c, r <> title_row spec -> r <> header_row spec ->
                      cell_value ws r c = VNone) as Hnone.
  { intros r c Hr1 Hr2. unfold ws, _write_sheet_template.
    by rewrite write_blocks_other_rows. }
  split; [exact Hnone|].
  unfold _parse_sheet. induction (models spec) as [|m ms IH]; simpl; [reflexivity|].
  unfold bind.
  assert (parse_model class_of self ws spec m st = (st, Ok tt)) as ->.
  { unfold parse_model. destruct (_find_header class_of ws spec m) as [[r c]|];
      [|reflexivity].
    destruct (Hrepos m) as [repo ->]; [apply list_elem_of_here|].
    unfold scan_from. destruct (Z.to_nat _); [reflexivity|]. simpl.
    rewrite blank_row_of_none; [reflexivity|]. intros c'. by apply Hnone. }
  apply IH. intros t Hin. apply Hrepos. by apply list_elem_of_further.
Qed.

Lemma fresh_template_loads_nothing_witness :
  _parse_sheet test_classes
    (mk_ExcelFile [cars_spec] {[ 1%positive := 1%positive; 2%positive := 2%positive ]} ∅)
    (_write_sheet_template test_classes empty_sheet cars_spec) cars_spec ∅
  = (∅, Ok tt).
Proof.
  apply (fresh_template_loads_nothing test_classes cars_spec).
  - discriminate.
  - discriminate.
  - intros t Ht. simpl in Ht.
    apply elem_of_cons in Ht as [->|Ht]; [eexists; reflexivity|].
    apply elem_of_cons in Ht as [->|Ht]; [eexists; reflexivity|].
    by apply not_elem_of_nil in Ht.
Defined.

(** ** The parsers *)

(** X15. Each built-in parser, when it succeeds, returns a value of
    its column's type: a text, an integer, a boolean, a date. *)
Theorem parsers_return_their_type (lib : DateLib) (raw v : value) :
  (forall b, text_parse b raw = Ok v -> exists s, v = VStr s) /\
  (int_parse raw = Ok v -> exists z, v = VInt z) /\
  (bool_parse raw = Ok v -> exists b, v = VBool b) /\
  (date_parse raw = Ok v -> exists d, v = VDate d).
Proof.
  split; [|split; [|split]].
  - intros b. unfold text_parse. destruct (is_none raw); intros [= <-]; eauto.
  - unfold int_parse. destruct (none_or_empty raw); [intros [= <-]; eauto|].
    destruct (py_int raw) as [z|e]; [intros [= <-]; eauto|discriminate].
  - unfold bool_parse. destruct (none_or_empty raw); [intros [= <-]; eauto|].
    assert ((if mem_string (lower (strip (str raw))) ["true"; "t"; "yes"; "y"; "1"]
             then Ok (VBool true)
             else if mem_string (lower (strip (str raw))) ["false"; "f"; "no"; "n"; "0"]
                  then Ok (VBool false)
                  else Raise (ValueError ("Invalid boolean: " +:+ str raw))) = Ok v ->
            exists b, v = VBool b) as Htext.
    { destruct (mem_string _ _); [intros [= <-]; eauto|].
      destruct (mem_string _ _); [intros [= <-]; eauto|discriminate]. }
    destruct raw; try exact Htext. intros [= <-]. eauto.
  - unfold date_parse. destruct (none_or_empty raw); [discriminate|].
    assert ((if String.eqb (strip (str raw)) ""
             then Raise (ValueError "Date Value was empty")
             else match fromisoformat (strip (str raw)) with
                  | Some dt => Ok (VDate (dt_date dt))
                  | None =>
                      match try_formats (upper (strip (str raw))) _DATE_FORMATS with
                      | Some dt => Ok (VDate (dt_date dt))
                      | None => Raise (ValueError ("Invalid date value: " +:+ repr raw))
                      end
                  end) = Ok v -> exists d, v = VDate d) as Htext.
    { destruct (String.eqb _ _); [discriminate|].
      destruct (fromisoformat _); [intros [= <-]; eauto|].
      destruct (try_formats _ _); [intros [= <-]; eauto|discriminate]. }
    destruct raw; try exact Htext; intros [= <-]; eauto.
Qed.

Lemma parsers_return_their_type_witness : exists z, VInt 2019 = VInt z.
Proof.
  apply (proj1 (proj2 (parsers_return_their_type python_dates (VStr "2019") (VInt 2019)))).
  reflexivity.
Defined.

(** ** What a load can raise *)

Lemma get_sheet_listed (wb : Workbook) (name : string) :
  mem_string name (sheetnames wb) = true -> is_Some (get_sheet wb name).
Proof.
  induction wb as [|[n ws] wb IH]; simpl; [discriminate|].
  rewrite (String.eqb_sym name n). destruct (String.eqb n name); [eauto|exact IH].
Qed.

(** Some row of the block of [model] on the sheet of [spec], neither
    blank nor excluded, fails to give a record, with the error [e]. *)
Definition row_error (class_of : typ -> Class) (wb : Workbook) (spec : SheetSpec)
    (model : typ) (e : exn) : Prop :=
  exists ws r c row_vals,
    get_sheet wb (sheet_name spec) = Some ws /\
    _find_header class_of ws spec model = Some (r, c) /\
    In row_vals (block_rows ws (class_of model) c (data_start_row spec)) /\
    build_record (class_of model) row_vals = Raise e.

Section LoadErrors.
Variable class_of : typ -> Class.
Variable self : ExcelFile.
Variable wb : Workbook.

Lemma parse_models_error (ws : Worksheet) (spec : SheetSpec) (ms : list typ)
    (st st' : store) (e : exn) :
  get_sheet wb (sheet_name spec) = Some ws ->
  (forall t, t ∈ ms -> is_Some (_repos self !! t)) ->
  parse_models class_of self ws spec ms st = (st', Raise e) ->
  exists model, model ∈ ms /\ row_error class_of wb spec model e.
Proof.
  intros Hws. revert st. induction ms as [|m ms IH]; intros st Hrepos; simpl;
    [discriminate|].
  unfold bind.
  destruct (parse_model class_of self ws spec m st) as [st1 [[]|e1]] eqn:Hm.
  - intros Hrest. destruct (IH st1) as (model & Hin & Herr); auto.
    + intros t Ht. apply Hrepos. by apply list_elem_of_further.
    + exists model. split; [by apply list_elem_of_further|done].
  - intros [= <- <-]. exists m. split; [apply list_elem_of_here|].
    unfold parse_model in Hm.
    destruct (_find_header class_of ws spec m) as [[r c]|] eqn:Hfound; [|discriminate].
    destruct (Hrepos m) as [repo Hrepo]; [apply list_elem_of_here|].
    rewrite Hrepo in Hm. unfold scan_from in Hm. rewrite scan_rows_data_rows in Hm.
    pose proof (load_rows_outcome (class_of m) repo
                  (data_rows ws (length (_get_model_columns (class_of m))) c
                     (data_start_row spec)
                     (Z.to_nat (max_row ws + 1 - data_start_row spec))) st) as Hout.
    rewrite Hm in Hout. simpl in Hout.
    destruct Hout as (pre & row & post & objs & Hk & _ & Hbad & _).
    exists ws, r, c, row. split; [done|]. split; [done|]. split; [|done].
    unfold block_rows. rewrite Hk. apply in_or_app. right. by left.
Qed.

Lemma load_sheets_error (specs : list SheetSpec) (st st' : store) (e : exn) :
  (forall spec t, spec ∈ specs -> t ∈ models spec -> is_Some (_repos self !! t)) ->
  load_sheets class_of self wb specs st = (st', Raise e) ->
  (exists spec, spec ∈ specs /\ (sheet_name spec ∉ sheetnames wb) /\
                e = missing_sheet (sheet_name spec)) \/
  (exists spec model, spec ∈ specs /\ model ∈ models spec /\
                      row_error class_of wb spec model e).
Proof.
  revert st. induction specs as [|spec specs IH]; intros st Hrepos; simpl; [discriminate|].
  destruct (mem_string (sheet_name spec) (sheetnames wb)) eqn:Hmem; simpl.
  - destruct (get_sheet_listed _ _ Hmem) as [ws Hws]. rewrite Hws. unfold bind.
    destruct (_parse_sheet class_of self ws spec st) as [st1 [[]|e1]] eqn:Hsheet.
    + intros Hrest. destruct (IH st1) as [(s & Hin & Hmiss)|(s & m & Hin & Hm)]; auto.
      * intros s t Hs Ht. apply (Hrepos s t); [by apply list_elem_of_further|done].
      * left. exists s. split; [by apply list_elem_of_further|done].
      * right. exists s, m. split; [by apply list_elem_of_further|done].
    + intros [= <- <-]. right. unfold _parse_sheet in Hsheet.
      destruct (parse_models_error ws spec (models spec) st st1 e1 Hws) as (m & Hin & Hm);
        auto.
      * intros t Ht. apply (Hrepos spec t); [apply list_elem_of_here|done].
      * exists spec, m. split; [apply list_elem_of_here|done].
  - intros [= <- <-]. left. exists spec. split; [apply list_elem_of_here|].
    split; [|reflexivity]. intros Hin. apply mem_string_elem in Hin. congruence.
Qed.
End LoadErrors.

(** X16. What a load can raise.  When [load_data] of an orchestrator
    built by [__init__] fails, either the sheet of some specification
    is absent from the document and the error is the missing-sheet
    error for it, or the error is that of building the record of some
    data row, neither blank nor excluded, of a block whose header was
    found.  A header that is not found, a blank row and an excluded
    row raise nothing. *)
Theorem load_data_errors (class_of : typ -> Class) (specs : list SheetSpec)
    (st0 st1 st st' : store) (self : ExcelFile) (wb : Workbook) (e : exn) :
  __init__ class_of specs st0 = (st1, Ok self) ->
  load_data class_of self wb st = (st', Raise e) ->
  (exists spec, spec ∈ specs /\ (sheet_name spec ∉ sheetnames wb) /\
                e = missing_sheet (sheet_name spec)) \/
  (exists spec model, spec ∈ specs /\ model ∈ models spec /\
                      row_error class_of wb spec model e).
Proof.
  intros Hinit Hload.
  destruct (init_ok _ _ _ _ _ Hinit) as (_ & Hsheets & Hall & _).
  unfold load_data, bind in Hload.
  pose proof (clear_all_ok (map snd (map_to_list (_repos self))) st) as Hok.
  destruct (clear_all _ st) as [sc r]. simpl in Hok. subst r.
  rewrite Hsheets in Hload.
  apply (load_sheets_error class_of self wb specs sc st' e); [|exact Hload].
  intros spec t Hspec Ht. apply Hall. by apply (flat_map_elem models specs spec).
Qed.

Lemma load_data_errors_witness :
  exists spec model,
    spec ∈ [mk_SheetSpec "Cars" [1%positive] 1 2 3 2] /\ model ∈ models spec /\
    row_error test_classes [("Cars", bad_year_sheet)] spec model
      (ValueError "invalid literal for int() with base 10: 'new'").
Proof.
  assert (exists self st1 st',
             __init__ test_classes [mk_SheetSpec "Cars" [1%positive] 1 2 3 2] ∅
             = (st1, Ok self) /\
             load_data test_classes self [("Cars", bad_year_sheet)] st1
             = (st', Raise (ValueError "invalid literal for int() with base 10: 'new'")))
    as (self & st1 & st' & Hinit & Hload).
  { eexists _, _, _. split; [vm_compute; reflexivity|]. vm_compute. reflexivity. }
  destruct (load_data_errors test_classes _ ∅ st1 st1 st' self _ _ Hinit Hload)
    as [(spec & Hin & Hmiss & _)|Hrow]; [|exact Hrow].
  exfalso. apply list_elem_of_singleton in Hin. subst spec. apply Hmiss.
  apply list_elem_of_here.
Defined.

(** ** Integers as text *)

Ltac digit_step :=
  cbn [list_ascii_of_string NilEmpty.string_of_uint int_digits String.length];
  match goal with
  | |- context [is_digit ?c] =>
      change (is_digit c) with true;
      let v := eval vm_compute in (digit_val c) in change (digit_val c) with v
  end;
  cbn iota.

Lemma int_digits_acc (d : Decimal.uint) (acc : positive) (cnt : nat) :
  int_digits (Z.pos acc) cnt true (chars (NilEmpty.string_of_uint d))
  = Some (Z.pos (Pos.of_uint_acc d acc),
          (cnt + String.length (NilEmpty.string_of_uint d))%nat).
Proof.
  revert acc cnt. induction d as [|d IH|d IH|d IH|d IH|d IH|d IH|d IH|d IH|d IH|d IH];
    intros acc cnt.
  1: { simpl. by rewrite Nat.add_0_r. }
  all: digit_step; cbn [Pos.of_uint_acc].
  all: match goal with
       | |- int_digits ?a _ _ _ = Some (Z.pos (Pos.of_uint_acc _ ?b), _) =>
           replace a with (Z.pos b) by lia
       end.
  all: rewrite IH; do 2 f_equal; lia.
Qed.

Lemma int_digits_uint (d : Decimal.uint) (cnt : nat) (after_digit : bool) :
  after_digit = true \/ d <> Decimal.Nil ->
  int_digits 0 cnt after_digit (chars (NilEmpty.string_of_uint d))
  = Some (Z.of_N (Pos.of_uint d), (cnt + String.length (NilEmpty.string_of_uint d))%nat).
Proof.
  revert cnt after_digit.
  induction d as [|d IH|d IH|d IH|d IH|d IH|d IH|d IH|d IH|d IH|d IH];
    intros cnt b Hb.
  1: { destruct Hb as [->|Hne]; [|done]. simpl. by rewrite Nat.add_0_r. }
  1: { digit_step. cbn [Pos.of_uint]. rewrite IH by auto. do 2 f_equal. lia. }
  all: digit_step; cbn [Pos.of_uint].
  all: match goal with
       | |- int_digits ?a _ _ _ = Some (Z.of_N (N.pos (Pos.of_uint_acc _ ?b)), _) =>
           change a with (Z.pos b)
       end.
  all: rewrite int_digits_acc; do 2 f_equal; lia.
Qed.

Lemma uint_chars_digits (d : Decimal.uint) :
  forallb is_digit (chars (NilEmpty.string_of_uint d)) = true.
Proof. induction d; simpl; auto. Qed.

Lemma digit_not_space (c : ascii) : is_digit c = true -> is_space c = false.
Proof. destruct c as [[] [] [] [] [] [] [] []]; intros H; try discriminate H; reflexivity. Qed.

Lemma digit_not_sign (c : ascii) :
  is_digit c = true -> Ascii.eqb c "-"%char = false /\ Ascii.eqb c "+"%char = false.
Proof.
  destruct c as [[] [] [] [] [] [] [] []]; intros H; try discriminate H; split; reflexivity.
Qed.

Lemma digits_no_leading_space (l : list ascii) :
  forallb is_digit l = true -> no_leading_space l.
Proof.
  destruct l as [|c l]; simpl; [done|]. intros H. apply andb_true_iff in H as [Hc _].
  by apply digit_not_space.
Qed.

Lemma forallb_rev {A} (f : A -> bool) (l : list A) :
  forallb f l = true -> forallb f (rev l) = true.
Proof.
  rewrite !forallb_forall. intros H x Hx. apply H. by apply in_rev.
Qed.

Lemma int_of_str_digits (l : list ascii) (v : Z) (sign : Z) (s : string) :
  chars s = (if sign =? 1 then l else "-"%char :: l) ->
  (sign = 1 \/ sign = -1) ->
  l <> [] -> forallb is_digit l = true ->
  int_digits 0 0 false l = Some (v, length l) ->
  (length l <= int_max_str_digits)%nat ->
  int_of_str s = Ok (sign * v).
Proof.
  intros Hs Hsign Hne Hdig Hval Hlen. unfold int_of_str. rewrite Hs.
  assert (no_leading_space l) as Hl by (by apply digits_no_leading_space).
  assert (no_leading_space (rev l)) as Hr
    by (by apply digits_no_leading_space, forallb_rev).
  assert ((int_max_str_digits <? length l)%nat = false) as Hlim
    by (apply Nat.ltb_ge; exact Hlen).
  destruct l as [|c l]; [done|]. simpl in Hdig. apply andb_true_iff in Hdig as [Hc _].
  destruct (digit_not_sign c Hc) as [Hminus Hplus].
  destruct Hsign as [-> | ->]; simpl (if _ =? _ then _ else _).
  - rewrite strip_chars_fixed by done. rewrite Hminus, Hplus, Hval, Hlim. reflexivity.
  - rewrite strip_chars_fixed.
    + simpl (Ascii.eqb "-" "-"). cbv iota. rewrite Hval, Hlim. reflexivity.
    + reflexivity.
    + change (rev ("-"%char :: c :: l)) with (rev (c :: l) ++ ["-"%char]).
      destruct (rev (c :: l)) as [|a t] eqn:Hrev; [|exact Hr].
      apply (f_equal (@length ascii)) in Hrev. rewrite length_rev in Hrev. discriminate.
Qed.

Lemma chars_length (s : string) : length (chars s) = String.length s.
Proof. induction s; simpl; auto. Qed.

Lemma pos_string (p : positive) :
  NilZero.string_of_uint (Pos.to_uint p) = NilEmpty.string_of_uint (Pos.to_uint p) /\
  chars (NilEmpty.string_of_uint (Pos.to_uint p)) <> [].
Proof.
  pose proof (DecimalPos.Unsigned.to_uint_nonnil p) as Hnn.
  unfold NilZero.string_of_uint. destruct (Pos.to_uint p); [done|split; [done|discriminate]..].
Qed.

Lemma int_of_str_pos (p : positive) (sign : Z) (s : string) :
  let l := chars (NilEmpty.string_of_uint (Pos.to_uint p)) in
  chars s = (if sign =? 1 then l else "-"%char :: l) ->
  sign = 1 \/ sign = -1 ->
  (length l <= int_max_str_digits)%nat ->
  int_of_str s = Ok (sign * Z.pos p).
Proof.
  intros l Hs Hsign Hlen.
  apply (int_of_str_digits l (Z.pos p) sign s Hs Hsign).
  - apply (pos_string p).
  - apply uint_chars_digits.
  - unfold l. rewrite int_digits_uint by (right; apply DecimalPos.Unsigned.to_uint_nonnil).
    rewrite DecimalPos.Unsigned.of_to, chars_length. reflexivity.
  - exact Hlen.
Qed.

Lemma int_of_str_of_Z (z : Z) :
  (String.length (str_of_Z (Z.abs z)) <= int_max_str_digits)%nat ->
  int_of_str (str_of_Z z) = Ok z.
Proof.
  destruct z as [|p|p]; [reflexivity|..]; intros Hlen;
    destruct (pos_string p) as [Hsame _].
  - change (str_of_Z (Z.abs (Z.pos p))) with (NilZero.string_of_uint (Pos.to_uint p)) in Hlen.
    change (str_of_Z (Z.pos p)) with (NilZero.string_of_uint (Pos.to_uint p)).
    rewrite Hsame in *.
    rewrite (int_of_str_pos p 1); [f_equal; lia|reflexivity|by left|].
    rewrite chars_length. exact Hlen.
  - change (str_of_Z (Z.abs (Z.neg p))) with (NilZero.string_of_uint (Pos.to_uint p)) in Hlen.
    change (str_of_Z (Z.neg p))
      with (String "-"%char (NilZero.string_of_uint (Pos.to_uint p))).
    rewrite Hsame in *.
    rewrite (int_of_str_pos p (-1)); [f_equal; lia|reflexivity|by right|].
    rewrite chars_length. exact Hlen.
Qed.

Lemma str_of_Z_nonempty (z : Z) : String.eqb (str_of_Z z) "" = false.
Proof.
  unfold str_of_Z. destruct z as [|p|p]; [reflexivity| |reflexivity].
  cbn [Z.to_int NilZero.string_of_int]. unfold NilZero.string_of_uint.
  destruct (Pos.to_uint p); reflexivity.
Qed.

(** X17. An integer parses to itself, whether the cell holds it as a
    number or as its decimal text (of at most 4300 digits, the limit
    of the conversion). *)
Theorem int_parse_round_trip (z : Z) :
  (String.length (str_of_Z (Z.abs z)) <= int_max_str_digits)%nat ->
  int_parse (VInt z) = Ok (VInt z) /\
  int_parse (VStr (str (VInt z))) = Ok (VInt z).
Proof.
  intros Hlen. split; [reflexivity|].
  unfold int_parse, none_or_empty.
  cbn [str is_none py_eqb orb py_int].
  rewrite str_of_Z_nonempty, (int_of_str_of_Z z Hlen). reflexivity.
Qed.

Lemma int_parse_round_trip_witness : int_parse (VStr (str (VInt (-2019)))) = Ok (VInt (-2019)).
Proof.
  apply (int_parse_round_trip (-2019)). unfold int_max_str_digits.
  change (String.length (str_of_Z (Z.abs (-2019)))) with 4%nat. lia.
Defined.
